(** * OCR extraction scripts: a shallow embedding and its properties

    The development follows the four scripts of the repository:
    [azure-gcp-vision-extractor.py] (module [Vision]),
    [multi_extractor.py] (module [Multi]), [mtext_extractor.py]
    (module [Mtext]) and [gdocai.py] (module [Gdocai]).  Python values are
    embedded as they are used by the scripts: a [str] is a sequence of code
    points, a [dict] an insertion-ordered association list, [None] the
    [None] of [option]; exceptions are values of an error monad, and the
    files written and lines printed are threaded as explicit state. *)

From Stdlib Require Import String Ascii.
From stdpp Require Import base numbers list gmap pretty sorting.

Local Open Scope N_scope.
Set Warnings "-register-all".

(** ** Python strings *)

Module Py.

(** A Python [str]: the sequence of its Unicode code points. *)
Definition str := list N.

Definition chr_of_ascii (a : ascii) : N := N_of_ascii a.

(** [py "..."] is the [str] of a literal of the source. *)
Definition py (s : string) : str := chr_of_ascii <$> list_ascii_of_string s.

(** The line feed of the source's ["\n"]. *)
Definition LF : N := 10.

Definition eqb (a b : str) : bool := bool_decide (a = b).

(** [str.isspace] on one code point (the characters [str.strip] removes). *)
Definition isspace (c : N) : bool :=
  ((9 <=? c) && (c <=? 13)) || ((28 <=? c) && (c <=? 32))
  || (c =? 133) || (c =? 160) || (c =? 5760)
  || ((8192 <=? c) && (c <=? 8202))
  || (c =? 8232) || (c =? 8233) || (c =? 8239) || (c =? 8287) || (c =? 12288).

Fixpoint lstrip (s : str) : str :=
  match s with
  | [] => []
  | c :: t => if isspace c then lstrip t else s
  end.

Fixpoint rstrip (s : str) : str :=
  match s with
  | [] => []
  | c :: t =>
      match rstrip t with
      | [] => if isspace c then [] else [c]
      | t' => c :: t'
      end
  end.

(** [s.strip()] *)
Definition strip (s : str) : str := lstrip (rstrip s).

(** [s.startswith(p)] *)
Fixpoint startswith (s p : str) : bool :=
  match p, s with
  | [], _ => true
  | _ :: _, [] => false
  | a :: p', c :: s' => (a =? c) && startswith s' p'
  end.

(** [s.endswith(p)] *)
Definition endswith (s p : str) : bool := startswith (reverse s) (reverse p).

(** [s[:-n]] for [n > 0]: all but the last [n] characters. *)
Definition drop_last (n : nat) (s : str) : str := take (length s - n) s.

(** [sep.join(parts)] *)
Fixpoint join (sep : str) (parts : list str) : str :=
  match parts with
  | [] => []
  | [p] => p
  | p :: rest => p ++ sep ++ join sep rest
  end.

(** Number of positions of [s] at which [p] occurs. *)
Fixpoint occurrences (p s : str) : nat :=
  match s with
  | [] => 0
  | _ :: t => (if startswith s p then 1 else 0) + occurrences p t
  end%nat.

(** [str.lower] on the ASCII letters; the extension tables of the scripts
    are ASCII, and other code points are left as they are. *)
Definition lower_chr (c : N) : N :=
  if (65 <=? c) && (c <=? 90) then c + 32 else c.
Definition lower (s : str) : str := lower_chr <$> s.

Definition upper_chr (c : N) : N :=
  if (97 <=? c) && (c <=? 122) then c - 32 else c.
Definition upper (s : str) : str := upper_chr <$> s.

(** [str(n)] for a non-negative integer. *)
Definition str_of_nat (n : nat) : str := py (pretty n).

(** [s.rfind(c)]: the index of the last [c], [None] for Python's [-1]. *)
Fixpoint rfind (c : N) (s : str) : option nat :=
  match s with
  | [] => None
  | a :: t =>
      match rfind c t with
      | Some i => Some (S i)
      | None => if a =? c then Some 0%nat else None
      end
  end.

(** [s.split(c)[0]] for a one-character separator. *)
Fixpoint split_first (c : N) (s : str) : str :=
  match s with
  | [] => []
  | a :: t => if a =? c then [] else a :: split_first c t
  end.

(** [s.lstrip(c)] for a one-character argument. *)
Fixpoint lstrip_chr (c : N) (s : str) : str :=
  match s with
  | [] => []
  | a :: t => if a =? c then lstrip_chr c t else s
  end.

(** [s.split(c)[-1]] for a one-character separator. *)
Definition split_last (c : N) (s : str) : str :=
  match rfind c s with
  | Some i => drop (S i) s
  | None => s
  end.

(** Membership of a string in a list literal, [x in [...]]. *)
Definition str_in (x : str) (l : list str) : bool := bool_decide (x ∈ l).

End Py.

Import Py.
Arguments py : simpl never.

(** ** JSON values, as [json.dump] receives them *)

Inductive json :=
| JNull
| JBool (b : bool)
| JInt (z : Z)
| JFloat (bits : N)
| JStr (s : str)
| JList (l : list json)
| JDict (d : list (str * json)).

(** A [dict] keeps the insertion order of its keys. *)
Definition dict := list (str * json).

Fixpoint dict_get (k : str) (d : dict) : option json :=
  match d with
  | [] => None
  | (k', v) :: rest => if eqb k' k then Some v else dict_get k rest
  end.

(** [d[k] = v]: an existing key keeps its place, a new key goes last. *)
Fixpoint dict_set (k : str) (v : json) (d : dict) : dict :=
  match d with
  | [] => [(k, v)]
  | (k', v') :: rest =>
      if eqb k' k then (k', v) :: rest else (k', v') :: dict_set k v rest
  end.

(** Truth value of an object in a condition ([if page_json:]). *)
Definition truthy (j : json) : bool :=
  match j with
  | JNull => false
  | JBool b => b
  | JInt z => negb (z =? 0)%Z
  | JFloat bits => negb ((bits =? 0) || (bits =? 2 ^ 63))
  | JStr s => negb (eqb s [])
  | JList l => match l with [] => false | _ => true end
  | JDict d => match d with [] => false | _ => true end
  end.

(** [if x:] for a value that is an object or [None]. *)
Definition truthy_opt (o : option json) : bool :=
  match o with Some j => truthy j | None => false end.

(** [if s:] for a value that is a [str] or [None]. *)
Definition truthy_str (o : option str) : bool :=
  match o with Some s => negb (eqb s []) | None => false end.

(** ** Exceptions, files and the trace of a run *)

(** The classes the handlers of the scripts tell apart; every one of them
    derives from [Exception]. *)
Inductive exc_class :=
| FileNotFoundError | OSError | KeyError | TypeError | AttributeError
| UnidentifiedImageError | InvalidArgument
| OtherException.

(** An exception with the text [str(e)] that the handlers print. *)
Record exn := Exn { exc_type : exc_class; exc_str : str }.

Inductive outcome (A : Type) :=
| Raise (e : exn)
| Return (a : A).
Arguments Raise {A} e.
Arguments Return {A} a.

(** What a written file holds: the text of a [.txt], or the object given to
    [json.dump(..., indent=4, ensure_ascii=False)]. *)
Inductive content :=
| Text (s : str)
| JsonDoc (j : json).

Inductive event :=
| Print (line : str)
| Sleep (seconds : N)
| OpenW (path : str)
| ReadInStream
| GetReadResult (operation_id : str)
| Request (api : str) (payload : str).

(** The state a run threads: the files written so far and what happened,
    oldest event first. *)
Record state := State { files : gmap str content; trace : list event }.

Definition M (A : Type) : Type := state → outcome A * state.

Global Instance M_ret : MRet M := λ A a st, (Return a, st).

Global Instance M_bind : MBind M := λ A B f m st,
  match m st with
  | (Return a, st') => f a st'
  | (Raise e, st') => (Raise e, st')
  end.

Definition raise {A} (e : exn) : M A := λ st, (Raise e, st).

Definition lift {A} (o : outcome A) : M A := λ st, (o, st).

(** [try: body except Exception as e: handler e] *)
Definition try_except {A} (body : M A) (handler : exn → M A) : M A := λ st,
  match body st with
  | (Return a, st') => (Return a, st')
  | (Raise e, st') => handler e st'
  end.

Definition emit (e : event) : M unit := λ st,
  (Return (), State (files st) (trace st ++ [e])).

Definition print (line : str) : M unit := emit (Print line).

(** [time.sleep(seconds)] *)
Definition sleep (seconds : N) : M unit := emit (Sleep seconds).

Definition bytes := list N.

(** A PIL image, by what [save(buffer, format=...)] leaves in the buffer. *)
Record pil_image := PilImage { save : str → outcome bytes }.

(** [datetime.now()] *)
Record datetime := DateTime {
  year : nat; month : nat; day : nat;
  hour : nat; minute : nat; second : nat
}.

(** The collaborators outside the scripts: the file system that is read,
    the paths that cannot be opened for writing, the PDF rasterizer of
    pdf2image ([convert_from_path(path, poppler_path=..., fmt=...)]) and the
    wall clock, which answers from what has happened so far. *)
Record world := World {
  open_rb : str → outcome bytes;
  unwritable : str → bool;
  convert_from_path : str → option str → option str → outcome (list pil_image);
  clock : list event → datetime
}.

(** The file at [path] takes the content [c], unless it cannot be opened. *)
Definition store (w : world) (path : str) (c : content) : M unit := λ st,
  if unwritable w path
  then (Raise (Exn OSError (py "[Errno 13] Permission denied: '" ++ path ++ py "'")), st)
  else (Return (), State (<[path := c]> (files st)) (trace st)).

(** [with open(path, 'w', encoding='utf-8') as f: f.write(...)] (or
    [json.dump(..., f)]): the attempt is recorded, then the file is
    stored. *)
Definition write_file (w : world) (path : str) (c : content) : M unit :=
  emit (OpenW path);; store w path c.

Definition now (w : world) : M datetime := λ st, (Return (clock w (trace st)), st).

(** A field of [strftime] padded with zeros to two digits. *)
Definition pad2 (n : nat) : str :=
  if (n <? 10)%nat then py "0" ++ str_of_nat n else str_of_nat n.

(** [strftime("%Y%m%d-%H%M%S")]; [%Y] is the year in decimal. *)
Definition strftime_Ymd_HMS (d : datetime) : str :=
  str_of_nat (year d) ++ pad2 (month d) ++ pad2 (day d) ++ py "-"
  ++ pad2 (hour d) ++ pad2 (minute d) ++ pad2 (second d).

(** ** pathlib and os.path, as the scripts use them *)

Module Path.

Definition SLASH : N := 47.
Definition DOT : N := 46.

(** [Path(p).name]: the final component. *)
Definition name (p : str) : str := split_last SLASH p.

(** [Path(p).suffix]: from the last dot of the name, unless that dot is
    its first or its last character. *)
Definition suffix (p : str) : str :=
  let n := name p in
  match rfind DOT n with
  | Some i => if ((0 <? i) && (i <? length n - 1))%nat then drop i n else []
  | None => []
  end.

(** [Path(p).stem]: the name without its suffix. *)
Definition stem (p : str) : str :=
  let n := name p in
  match rfind DOT n with
  | Some i => if ((0 <? i) && (i <? length n - 1))%nat then take i n else n
  | None => n
  end.

(** [str(Path(d) / b)] for a directory [d] as [Path] prints it and a
    relative [b]. *)
Definition joinpath (d b : str) : str :=
  if eqb d (py ".") || eqb d [] then b
  else if endswith d (py "/") then d ++ b
  else d ++ py "/" ++ b.

(** [os.path.splitext(p)]: the extension starts at the last dot of the
    final component, leading dots of that component apart. *)
Definition splitext (p : str) : str * str :=
  let sep := match rfind SLASH p with Some i => S i | None => 0%nat end in
  match rfind DOT p with
  | Some d =>
      if (sep <=? d)%nat && negb (forallb (N.eqb DOT) (take (d - sep) (drop sep p)))
      then (take d p, drop d p)
      else (p, [])
  | None => (p, [])
  end.

(** [str(Path(p).parent)] for a path [p] as [Path] prints it. *)
Definition parent (p : str) : str :=
  match rfind SLASH p with
  | Some 0%nat => py "/"
  | Some i => take i p
  | None => py "."
  end.

(** [os.path.basename(p)] *)
Definition basename (p : str) : str := split_last SLASH p.

End Path.

(** ** azure-gcp-vision-extractor.py *)

Module Vision.

Definition SUPPORTED_IMAGE_EXTENSIONS : list str :=
  [py ".png"; py ".jpg"; py ".jpeg"; py ".bmp"; py ".tiff"; py ".tif";
   py ".gif"; py ".webp"].
Definition SUPPORTED_PDF_EXTENSION : str := py ".pdf".

(** The literal ["--- Page Break ---"] and the separator
    ["\n\n--- Page Break ---\n\n"] built around it. *)
Definition PAGE_BREAK : str := py "--- Page Break ---".
Definition PAGE_SEPARATOR : str := [LF; LF] ++ PAGE_BREAK ++ [LF; LF].

Definition save_results (w : world) (output_base_filepath_stem text_content : str)
    (json_content : json) : M unit :=
  let txt_path := output_base_filepath_stem ++ py ".txt" in
  let json_path := output_base_filepath_stem ++ py ".json" in
  write_file w txt_path (Text text_content);;
  print (py "Saved text to: " ++ txt_path);;
  write_file w json_path (JsonDoc json_content);;
  print (py "Saved JSON to: " ++ json_path).

Definition convert_pil_image_to_bytes (pil_image : pil_image) (img_format : str)
  : M bytes := lift (save pil_image img_format).

(** *** Google Cloud Vision *)

(** An [AnnotateImageResponse], by the attributes the script reads:
    [full_text_annotation] is [None] when the annotation is empty (falsy) and
    its [text] otherwise, [pb] is [MessageToDict(response._pb)], [context]
    the [page_number] of a non-empty [context]. *)
Record annotate_image_response := AnnotateImageResponse {
  error_message : str;
  full_text_annotation : option str;
  pb : dict;
  context : option Z
}.

(** The client, by its two calls: [document_text_detection(image=...)], and
    [async_batch_annotate_files(...)], which yields an operation, given by
    what its [result(timeout=600)] does: it raises or yields
    [operation_result.responses], each with its own [responses]. *)
Record google_client := GoogleClient {
  document_text_detection : bytes → outcome annotate_image_response;
  async_batch_annotate_files :
    bytes → outcome (outcome (list (list annotate_image_response)))
}.

(** What every OCR function returns: [(text, json)], either or both
    [None]. *)
Definition ocr_result : Type := option str * option json.

Definition ocr_google_image_bytes (client : option google_client)
    (image_bytes : bytes) (original_filename : str) : M ocr_result :=
  match client with
  | None => mret (None, None)
  | Some client =>
      try_except
        (response ← lift (document_text_detection client image_bytes);
         if negb (eqb (error_message response) [])
         then raise (Exn OtherException
                (error_message response ++ [LF]
                 ++ py "For more info on error messages, check: "
                 ++ py "https://cloud.google.com/apis/design/errors"))
         else
           let text := default [] (full_text_annotation response) in
           mret (Some text, Some (JDict (pb response))))
        (λ e,
           print (py "Google Vision API error processing " ++ original_filename
                  ++ py ": " ++ exc_str e);;
           mret (None, None))
  end.

(** The loop of [ocr_google_pdf] over [enumerate(file_response.responses)],
    from index [i] on. *)
Fixpoint google_pdf_pages (i : nat) (responses : list annotate_image_response)
    (all_text : str) (full_json_response_pages : list json) : str * list json :=
  match responses with
  | [] => (all_text, full_json_response_pages)
  | image_response :: rest =>
      let all_text :=
        match full_text_annotation image_response with
        | Some page_text => all_text ++ page_text ++ PAGE_SEPARATOR
        | None => all_text
        end in
      let page_json_dict :=
        dict_set (py "page_number_from_ocr_iteration") (JInt (Z.of_nat i + 1))
          (pb image_response) in
      let page_json_dict :=
        match context image_response with
        | Some page_number =>
            dict_set (py "page_number_from_api") (JInt page_number) page_json_dict
        | None => page_json_dict
        end in
      google_pdf_pages (S i) rest all_text
        (full_json_response_pages ++ [JDict page_json_dict])
  end.

(** The trimming both PDF paths apply to a text that is not empty:
    [strip()], then one trailing ["--- Page Break ---"] cut off and
    [strip()] again. *)
Definition trim_page_break (text : str) : str :=
  if negb (eqb text []) then
    let text := strip text in
    if endswith text PAGE_BREAK
    then strip (drop_last (length PAGE_BREAK) text)
    else text
  else text.

Definition ocr_google_pdf (w : world) (client : option google_client)
    (pdf_path : str) : M ocr_result :=
  match client with
  | None => mret (None, None)
  | Some client =>
      try_except
        (pdf_content ← lift (open_rb w pdf_path);
         operation ← lift (async_batch_annotate_files client pdf_content);
         let pdf_filename := Path.name pdf_path in
         print (py "Waiting for Google PDF processing operation to complete for "
                ++ pdf_filename ++ py "...");;
         operation_result ← lift operation;
         match operation_result with
         | file_response :: _ =>
             let '(all_text, full_json_response_pages) :=
               google_pdf_pages 0 file_response [] [] in
             let all_text := trim_page_break all_text in
             mret (Some all_text,
                   Some (JDict [(py "pages", JList full_json_response_pages);
                                (py "source_file", JStr pdf_filename)]))
         | [] =>
             print (py "No responses found in Google PDF processing result for "
                    ++ pdf_filename ++ py ".");;
             mret (None,
                   Some (JDict [(py "error",
                                 JStr (py "No responses from Google PDF processing for "
                                       ++ pdf_filename))]))
         end)
        (λ e,
           print (py "Google Vision API error (PDF '" ++ Path.name pdf_path
                  ++ py "'): " ++ exc_str e);;
           mret (None, None))
  end.

(** *** Azure Computer Vision *)

(** [read_result.analyze_result]: the text of the lines of every page of
    [read_results], and [errors] when the attribute exists and is not
    empty, as [str] renders it. *)
Record analyze_results := AnalyzeResults {
  read_results : list (list str);
  errors : option str
}.

(** A [ReadOperationResult], by the attributes the script reads: [message]
    is [None] when the attribute is missing or [None]. *)
Record read_operation_result := ReadOperationResult {
  status : str;
  message : option str;
  analyze_result : option analyze_results;
  as_dict : dict
}.

(** The client, by its two calls: [read_in_stream(stream, raw=True)] yields
    the headers of the response, and [get_read_result(operation_id)] is
    scripted: the answers to the successive status checks of an operation,
    in order.  A script is finite; once it is used up the transport gives
    up and the call raises. *)
Record azure_client := AzureClient {
  read_in_stream : bytes → outcome (list (str * str));
  get_read_result : str → list (outcome read_operation_result)
}.

(** [OperationStatusCodes.succeeded] of the Azure SDK, a [str] enumeration
    member equal to its value. *)
Definition OperationStatusCodes_succeeded : str := py "succeeded".

(** [headers[key]] *)
Fixpoint headers_get (key : str) (headers : list (str * str)) : outcome str :=
  match headers with
  | [] => Raise (Exn KeyError (py "'" ++ key ++ py "'"))
  | (k, v) :: rest => if eqb k key then Return v else headers_get key rest
  end.

Definition in_progress (st : str) : bool :=
  str_in st [py "notStarted"; py "running"].

(** The [while True] loop: a status check, and unless the status has left
    the in-progress ones, a sleep of 2 and the next check. *)
Fixpoint poll (operation_id : str) (script : list (outcome read_operation_result))
  : M read_operation_result :=
  match script with
  | [] =>
      emit (GetReadResult operation_id);;
      raise (Exn OtherException (py "Operation timed out"))
  | answer :: script =>
      emit (GetReadResult operation_id);;
      read_result ← lift answer;
      if negb (in_progress (status read_result)) then mret read_result
      else sleep 2;; poll operation_id script
  end.

(** The two nested [for] loops over the pages and their lines. *)
Fixpoint azure_text (read_results : list (list str)) (text_content : str) : str :=
  match read_results with
  | [] => text_content
  | lines :: rest =>
      let text_content :=
        foldl (λ text_content line, text_content ++ line ++ [LF]) text_content lines in
      azure_text rest (text_content ++ [LF] ++ PAGE_BREAK ++ [LF; LF])
  end.

Definition azure_error_message (original_filename : str)
    (read_result : read_operation_result) : str :=
  let error_message :=
    py "Azure Read API failed for " ++ original_filename ++ py ": "
    ++ status read_result in
  let error_message :=
    if truthy_str (message read_result)
    then error_message ++ py " - Message: " ++ default [] (message read_result)
    else error_message in
  match analyze_result read_result with
  | Some ar =>
      match errors ar with
      | Some errs => error_message ++ py " - API Errors: " ++ errs
      | None => error_message
      end
  | None => error_message
  end.

Definition ocr_azure_read_stream (client : option azure_client) (stream : bytes)
    (original_filename : str) : M ocr_result :=
  match client with
  | None => mret (None, None)
  | Some client =>
      try_except
        (emit ReadInStream;;
         read_response ← lift (read_in_stream client stream);
         operation_location ← lift (headers_get (py "Operation-Location") read_response);
         let operation_id := split_last Path.SLASH operation_location in
         print (py "Azure Read operation submitted for " ++ original_filename
                ++ py ". Waiting for results...");;
         read_result ← poll operation_id (get_read_result client operation_id);
         if eqb (status read_result) OperationStatusCodes_succeeded then
           match analyze_result read_result with
           | None =>
               raise (Exn AttributeError
                        (py "'NoneType' object has no attribute 'read_results'"))
           | Some ar =>
               let text_content := azure_text (read_results ar) [] in
               let text_content :=
                 if negb (eqb text_content [])
                 then strip (drop_last (length PAGE_SEPARATOR) text_content)
                 else text_content in
               mret (Some text_content, Some (JDict (as_dict read_result)))
           end
         else
           let error_message := azure_error_message original_filename read_result in
           let error_details := JDict (as_dict read_result) in
           print error_message;;
           mret (None, Some (JDict [(py "error", JStr error_message);
                                    (py "details", error_details)])))
        (λ e,
           print (py "Azure Read API error for " ++ original_filename ++ py ": "
                  ++ exc_str e);;
           mret (None, None))
  end.

(** *** Processing one file *)

Section process_file.

Variable w : world.
Variable file_path_obj : str.
Variable output_dir : str.
Variable api_choice : str.
Variable google_client : option google_client.
Variable azure_client : option azure_client.
Variable force_pdf_to_images : bool.

Let file_path_str : str := file_path_obj.
Let original_filename_stem : str := Path.stem file_path_obj.

(** The provider call for one page of the converted PDF; [(None, None)]
    stays when no branch assigns. *)
Definition ocr_page (img_bytes : bytes) (page_filename_for_api : str) : M ocr_result :=
  if eqb api_choice (py "google") then
    match google_client with
    | Some _ => ocr_google_image_bytes google_client img_bytes page_filename_for_api
    | None => mret (None, None)
    end
  else if eqb api_choice (py "azure") then
    match azure_client with
    | Some _ => ocr_azure_read_stream azure_client img_bytes page_filename_for_api
    | None => mret (None, None)
    end
  else mret (None, None).

(** The loop over [enumerate(images_from_path)], from index [i] on. *)
Fixpoint pages_loop (i : nat) (images : list pil_image)
    (all_text_parts : list str) (all_json_responses_parts : list json)
  : M (list str * list json) :=
  match images with
  | [] => mret (all_text_parts, all_json_responses_parts)
  | pil_image :: rest =>
      let page_num := S i in
      print (py "Processing page " ++ str_of_nat page_num ++ py " of PDF "
             ++ Path.name file_path_obj ++ py " as image...");;
      img_bytes ← convert_pil_image_to_bytes pil_image (py "PNG");
      let page_filename_for_api :=
        original_filename_stem ++ py "_page_" ++ str_of_nat page_num ++ py ".png" in
      r ← ocr_page img_bytes page_filename_for_api;
      let '(page_text, page_json) := r in
      let all_text_parts :=
        if truthy_str page_text
        then all_text_parts ++ [default [] page_text] else all_text_parts in
      let all_json_responses_parts :=
        if truthy_opt page_json
        then all_json_responses_parts
               ++ [JDict [(py "page", JInt (Z.of_nat page_num));
                          (py "response", default JNull page_json)]]
        else all_json_responses_parts in
      pages_loop (S i) rest all_text_parts all_json_responses_parts
  end.

(** The three branches give [None] where the source returns from
    [process_file], and [text_content, json_response] otherwise. *)
Definition direct_pdf : M (option ocr_result) :=
  print (py "Processing PDF directly: " ++ Path.name file_path_obj);;
  if eqb api_choice (py "google") then
    match google_client with
    | Some _ => r ← ocr_google_pdf w google_client file_path_str; mret (Some r)
    | None => mret (Some (None, None))
    end
  else if eqb api_choice (py "azure") then
    match azure_client with
    | Some _ =>
        f_pdf ← lift (open_rb w file_path_str);
        r ← ocr_azure_read_stream azure_client f_pdf (Path.name file_path_obj);
        mret (Some r)
    | None => mret (Some (None, None))
    end
  else
    print (py "Unknown API choice: " ++ api_choice);;
    mret None.

Definition pdf_to_images : M (option ocr_result) :=
  print (py "Converting PDF to images first: " ++ Path.name file_path_obj);;
  try_except
    (images_from_path ← lift (convert_from_path w file_path_str None None);
     parts ← pages_loop 0 images_from_path [] [];
     let '(all_text_parts, all_json_responses_parts) := parts in
     let text_content := join PAGE_SEPARATOR all_text_parts in
     let text_content := trim_page_break text_content in
     let json_response :=
       JDict [(py "pages", JList all_json_responses_parts);
              (py "source_file", JStr (Path.name file_path_obj));
              (py "method", JStr (py "pdf_converted_to_images"))] in
     mret (Some (Some text_content, Some json_response)))
    (λ e,
       print (py "Error converting PDF " ++ file_path_str
              ++ py " to images or processing pages: " ++ exc_str e);;
       mret None).

Definition image_file : M (option ocr_result) :=
  print (py "Processing image file: " ++ Path.name file_path_obj);;
  try_except
    (image_bytes ← lift (open_rb w file_path_str);
     if eqb api_choice (py "google") then
       match google_client with
       | Some _ =>
           r ← ocr_google_image_bytes google_client image_bytes (Path.name file_path_obj);
           mret (Some r)
       | None => mret (Some (None, None))
       end
     else if eqb api_choice (py "azure") then
       match azure_client with
       | Some _ =>
           r ← ocr_azure_read_stream azure_client image_bytes (Path.name file_path_obj);
           mret (Some r)
       | None => mret (Some (None, None))
       end
     else
       print (py "Unknown API choice: " ++ api_choice);;
       mret None)
    (λ e,
       match exc_type e with
       | FileNotFoundError =>
           print (py "Image file not found: " ++ file_path_str);; mret None
       | _ =>
           print (py "Error reading or processing image " ++ file_path_str
                  ++ py ": " ++ exc_str e);;
           mret None
       end).

(** The base name [<stem>_<api>_<YYYYMMDD-HHMMSS>] of the two outputs. *)
Definition output_filename_base (timestamp_str : str) : str :=
  original_filename_stem ++ py "_" ++ api_choice ++ py "_" ++ timestamp_str.

Definition file_ext : str := lower (Path.suffix file_path_obj).
Definition is_pdf : bool := eqb file_ext SUPPORTED_PDF_EXTENSION.
Definition is_image : bool := str_in file_ext SUPPORTED_IMAGE_EXTENSIONS.

(** The [if / elif / elif] over the three ways to submit the file. *)
Definition ocr_branches : M (option ocr_result) :=
  if is_pdf && negb force_pdf_to_images then direct_pdf
  else if is_pdf && force_pdf_to_images then pdf_to_images
  else image_file.

Definition process_file : M unit :=
  print ([LF] ++ py "Processing file: " ++ file_path_str);;
  if negb (is_pdf || is_image) then
    print (py "Unsupported file type: " ++ file_ext ++ py " for " ++ file_path_str
           ++ py ". Skipping.")
  else
    branch ← ocr_branches;
    match branch with
    | None => mret ()
    | Some (Some text_content, Some json_response) =>
        d ← now w;
        let timestamp_str := strftime_Ymd_HMS d in
        let output_path_stem_for_saving :=
          Path.joinpath output_dir (output_filename_base timestamp_str) in
        save_results w output_path_stem_for_saving text_content json_response
    | Some _ =>
        print (py "Failed to OCR " ++ file_path_str ++ py " with " ++ api_choice
               ++ py " API. No results to save.")
    end.

End process_file.

(** The loop of [main] over [files_to_process], and the line after it. *)
Fixpoint main_loop (w : world) (files_to_process : list str) (output_dir api : str)
    (google_client : option google_client) (azure_client : option azure_client)
    (force_pdf_to_images : bool) : M unit :=
  match files_to_process with
  | [] => print ([LF] ++ py "Processing complete.")
  | file_to_process_obj :: rest =>
      process_file w file_to_process_obj output_dir api google_client azure_client
        force_pdf_to_images;;
      main_loop w rest output_dir api google_client azure_client force_pdf_to_images
  end.

End Vision.

(** ** Output that can fail

    [print] and the writing of an opened file are calls that can raise:
    [print] when the standard output cannot encode the line or has been
    closed, a write when the text cannot be encoded or the device fails.  A
    file opened with mode ['w'] has been created or truncated before
    anything is written to it, so a write that fails leaves the file with
    what had reached it, not with what it held before.  The definitions of
    this module take these failures from a parameter; [print] and
    [write_file] above are their reading for a run in which none occurs. *)

Module Faulty.

(** For a line, the exception [print] raises on it, if it does; for a path
    and what is written to it, the exception the write raises once the file
    is open, if it does, with the text the file is left holding. *)
Record faults := MkFaults {
  print_error : str → option exn;
  write_error : str → content → option (exn * str)
}.

Section faulty.

Variable w : world.
Variable f : faults.

Definition print (line : str) : M unit :=
  match print_error f line with
  | Some e => raise e
  | None => emit (Print line)
  end.

(** The file at [path] once it is opened for writing [c]. *)
Definition store (path : str) (c : content) : M unit := λ st,
  if unwritable w path
  then (Raise (Exn OSError (py "[Errno 13] Permission denied: '" ++ path ++ py "'")), st)
  else
    match write_error f path c with
    | Some (e, remains) => (Raise e, State (<[path := Text remains]> (files st)) (trace st))
    | None => (Return (), State (<[path := c]> (files st)) (trace st))
    end.

(** [with open(path, 'w', encoding='utf-8') as f: f.write(...)] (or
    [json.dump(..., f)]) *)
Definition write_file (path : str) (c : content) : M unit :=
  emit (OpenW path);; store path c.

(** [save_results] of azure-gcp-vision-extractor.py, with the failures of
    its two writes and of its two prints. *)
Definition save_results (output_base_filepath_stem text_content : str)
    (json_content : json) : M unit :=
  let txt_path := output_base_filepath_stem ++ py ".txt" in
  let json_path := output_base_filepath_stem ++ py ".json" in
  write_file txt_path (Text text_content);;
  print (py "Saved text to: " ++ txt_path);;
  write_file json_path (JsonDoc json_content);;
  print (py "Saved JSON to: " ++ json_path).

End faulty.

End Faulty.

(** ** multi_extractor.py *)

Module Multi.

(** The names of [PROVIDERS], in the order of the table. *)
Definition PROVIDERS : list str := [py "gemini"; py "openai"; py "anthropic"].

(** What the script calls outside itself: [Image.open(io.BytesIO(b))],
    [mimetypes.guess_type(name)[0]], [base64.b64encode(b).decode('utf-8')],
    [os.name], and the three provider calls, each yielding the text of the
    answer, or [None] when the answer has no part, choice or text block.
    [client_or_model_obj] is whichever of the three the provider needs. *)
Record apis := Apis {
  image_open : bytes → outcome pil_image;
  guess_type : str → option str;
  b64encode : bytes → str;
  os_name : str;
  generate_content : str → pil_image → outcome (option str);
  chat_completions_create : str → str → str → outcome (option str);
  messages_create : str → str → str → str → outcome (option str)
}.

Section provider.

Variable w : world.
Variable a : apis.

Definition image_bytes_to_pil (image_bytes : bytes) : outcome pil_image :=
  image_open a image_bytes.

(** [def pil_to_image_bytes(pil_image, image_format='PNG')] *)
Definition pil_to_image_bytes_params : list str := [py "pil_image"; py "image_format"].

Definition pil_to_image_bytes (pil_image : pil_image) (image_format : str)
  : outcome bytes := save pil_image image_format.

(** A call [pil_to_image_bytes(pil_image, kw=value)] with one positional and
    one keyword argument, as Python binds it: the keyword has to name a
    parameter that the positional argument has not filled. *)
Definition call_pil_to_image_bytes (pil_image : pil_image) (kw value : str)
  : outcome bytes :=
  if negb (str_in kw pil_to_image_bytes_params) then
    Raise (Exn TypeError
      (py "pil_to_image_bytes() got an unexpected keyword argument '" ++ kw ++ py "'"))
  else if eqb kw (py "pil_image") then
    Raise (Exn TypeError
      (py "pil_to_image_bytes() got multiple values for argument 'pil_image'"))
  else pil_to_image_bytes pil_image value.

Definition get_mime_type (image_format_ext : str) : str :=
  let mime_type := guess_type a (py "dummy." ++ lower image_format_ext) in
  if truthy_str mime_type then default [] mime_type else
  let ext_upper := upper image_format_ext in
  if str_in ext_upper [py "JPEG"; py "JPG"] then py "image/jpeg"
  else if eqb ext_upper (py "PNG") then py "image/png"
  else if eqb ext_upper (py "WEBP") then py "image/webp"
  else if eqb ext_upper (py "GIF") then py "image/gif"
  else if str_in ext_upper [py "TIFF"; py "TIF"] then py "image/tiff"
  else py "application/octet-stream".

(** The image argument of [extract_text_gemini]: bytes or a PIL image. *)
Definition extract_text_gemini (image_pil_or_bytes : bytes + pil_image)
    (prompt_text : str) : M str :=
  try_except
    (img_pil ← lift (match image_pil_or_bytes with
                     | inl image_bytes => image_bytes_to_pil image_bytes
                     | inr img => Return img
                     end);
     emit (Request (py "gemini") prompt_text);;
     response ← lift (generate_content a prompt_text img_pil);
     mret (match response with
           | Some text => strip text
           | None => py "No text found (Gemini)."
           end))
    (λ e, mret (py "Gemini API Error: " ++ exc_str e)).

Definition image_to_base64_data_uri (image_bytes : bytes) (image_format_ext : str)
  : str :=
  py "data:" ++ get_mime_type image_format_ext ++ py ";base64,"
  ++ b64encode a image_bytes.

Definition extract_text_openai (image_bytes : bytes) (prompt_text model_name : str)
    (image_format_ext : str) : M str :=
  let base64_image := image_to_base64_data_uri image_bytes image_format_ext in
  try_except
    (emit (Request (py "openai") prompt_text);;
     response ← lift (chat_completions_create a model_name prompt_text base64_image);
     mret (match response with
           | Some content => strip content
           | None => py "No text found (OpenAI)."
           end))
    (λ e, mret (py "OpenAI API Error: " ++ exc_str e)).

Definition extract_text_anthropic (image_bytes : bytes) (prompt_text model_name : str)
    (image_format_ext : str) : M str :=
  let media_type := get_mime_type image_format_ext in
  let data := b64encode a image_bytes in
  try_except
    (emit (Request (py "anthropic") prompt_text);;
     message ← lift (messages_create a model_name prompt_text media_type data);
     mret (match message with
           | Some text => strip text
           | None => py "No text found (Anthropic)."
           end))
    (λ e, mret (py "Anthropic API Error: " ++ exc_str e)).

Definition process_image_file_with_provider (image_path prompt provider_name : str)
    (model_name_for_api : str) : M str :=
  try_except
    (image_bytes ← lift (open_rb w image_path);
     let ext := (Path.splitext image_path).2 in
     let image_format_ext := upper (lstrip_chr Path.DOT ext) in
     let image_format_ext :=
       if eqb image_format_ext (py "JPG") then py "JPEG" else image_format_ext in
     let image_format_ext :=
       if eqb image_format_ext (py "TIF") then py "TIFF" else image_format_ext in
     if eqb provider_name (py "gemini") then
       extract_text_gemini (inl image_bytes) prompt
     else if eqb provider_name (py "openai") then
       extract_text_openai image_bytes prompt model_name_for_api image_format_ext
     else if eqb provider_name (py "anthropic") then
       extract_text_anthropic image_bytes prompt model_name_for_api image_format_ext
     else mret (py "Invalid provider for image extraction."))
    (λ e,
       match exc_type e with
       | FileNotFoundError => mret (py "Error: Image file not found at " ++ image_path)
       | UnidentifiedImageError =>
           mret (py "Error: Cannot identify image file: " ++ image_path)
       | _ =>
           mret (py "Error processing image file " ++ image_path ++ py " with "
                 ++ provider_name ++ py ": " ++ exc_str e)
       end).

(** The loop of [process_pdf_file_with_provider] over
    [enumerate(page_pil_images)], from index [i] on; [total] is
    [len(page_pil_images)]. *)
Fixpoint pdf_pages_loop (prompt provider_name model_name_for_api : str)
    (pdf_page_img_fmt : str) (total i : nat) (page_pil_images : list pil_image)
    (all_page_texts : list str) : M (list str) :=
  match page_pil_images with
  | [] => mret all_page_texts
  | page_pil_image :: rest =>
      print (py "  Processing PDF page " ++ str_of_nat (i + 1) ++ py "/"
             ++ str_of_nat total ++ py " with " ++ provider_name ++ py "...");;
      page_text ←
        (if eqb provider_name (py "gemini") then
           extract_text_gemini (inr page_pil_image) prompt
         else if str_in provider_name [py "openai"; py "anthropic"] then
           img_bytes ← lift (call_pil_to_image_bytes page_pil_image (py "format")
                               pdf_page_img_fmt);
           if eqb provider_name (py "openai") then
             extract_text_openai img_bytes prompt model_name_for_api pdf_page_img_fmt
           else if eqb provider_name (py "anthropic") then
             extract_text_anthropic img_bytes prompt model_name_for_api pdf_page_img_fmt
           else mret []
         else mret []);
      pdf_pages_loop prompt provider_name model_name_for_api pdf_page_img_fmt total
        (S i) rest
        (all_page_texts ++ [py "--- Page " ++ str_of_nat (i + 1) ++ py " ---" ++ [LF]
                            ++ page_text])
  end.

Definition process_pdf_file_with_provider (pdf_path prompt provider_name : str)
    (model_name_for_api : str) (poppler_path : option str) : M str :=
  let pdf_page_img_fmt := py "PNG" in
  try_except
    (page_pil_images ←
       lift (if eqb (os_name a) (py "nt") && truthy_str poppler_path
             then convert_from_path w pdf_path poppler_path
                    (Some (lower pdf_page_img_fmt))
             else convert_from_path w pdf_path None (Some (lower pdf_page_img_fmt)));
     match page_pil_images with
     | [] => mret (py "Could not convert PDF to images.")
     | _ =>
         all_page_texts ←
           pdf_pages_loop prompt provider_name model_name_for_api pdf_page_img_fmt
             (length page_pil_images) 0 page_pil_images [];
         mret (join [LF; LF] all_page_texts)
     end)
    (λ e,
       match exc_type e with
       | FileNotFoundError => mret (py "Error: PDF file not found at " ++ pdf_path)
       | _ =>
           mret (py "Error processing PDF " ++ pdf_path ++ py " with "
                 ++ provider_name ++ py ": " ++ exc_str e)
       end).

Definition supported_image_extensions : list str :=
  [py ".png"; py ".jpg"; py ".jpeg"; py ".webp"; py ".bmp"; py ".gif"; py ".tif";
   py ".tiff"].

(** The name of the one output of a provider:
    [<base>_<provider>_extracted_<YYYYMMDD-HHMMSS>.txt]. *)
Definition output_filename (file_path provider_name current_time_str : str) : str :=
  let base_name := (Path.splitext (Path.basename file_path)).1 in
  base_name ++ py "_" ++ provider_name ++ py "_extracted_" ++ current_time_str
  ++ py ".txt".

(** One turn of the loop of the script over the initialized providers. *)
Definition process_with_provider (file_path prompt : str) (poppler_path : option str)
    (provider_name model_name_for_api : str) : M unit :=
  print ([LF] ++ py "--- Processing with: " ++ upper provider_name ++ py " (Model: "
         ++ model_name_for_api ++ py ") ---");;
  let file_ext := lower (Path.splitext file_path).2 in
  if str_in file_ext supported_image_extensions || eqb file_ext (py ".pdf") then
    extracted_text ←
      (if str_in file_ext supported_image_extensions
       then process_image_file_with_provider file_path prompt provider_name
              model_name_for_api
       else process_pdf_file_with_provider file_path prompt provider_name
              model_name_for_api poppler_path);
    print ([LF] ++ py "--- Extracted Text (using " ++ upper provider_name ++ py ") ---");;
    print extracted_text;;
    d ← now w;
    let current_time_str := strftime_Ymd_HMS d in
    let output_filename := output_filename file_path provider_name current_time_str in
    try_except
      (write_file w output_filename (Text extracted_text);;
       print (py "Extracted text from " ++ upper provider_name ++ py " saved to: "
              ++ output_filename))
      (λ e,
         print (py "Error saving extracted text from " ++ upper provider_name
                ++ py " to file " ++ output_filename ++ py ": " ++ exc_str e))
  else
    print (py "Unsupported file type for provider " ++ provider_name ++ py ": "
           ++ file_ext ++ py ". Skipping.").

End provider.

End Multi.

(** ** mtext_extractor.py *)

Module Mtext.

Definition MIME_MAP : gmap str str :=
  list_to_map
    [(py ".pdf", py "application/pdf"); (py ".png", py "image/png");
     (py ".jpg", py "image/jpeg"); (py ".jpeg", py "image/jpeg");
     (py ".webp", py "image/webp"); (py ".gif", py "image/gif");
     (py ".tif", py "image/tiff"); (py ".tiff", py "image/tiff")].

(** The default output name [<stem>_extracted_<YYYYMMDD-HHMMSS>.md]. *)
Definition auto_name (file stamp : str) : str :=
  Path.stem file ++ py "_extracted_" ++ stamp ++ py ".md".

(** The markdown written for the pages from index [idx] on. *)
Fixpoint markdown_of (idx : nat) (pages : list str) : str :=
  match pages with
  | [] => []
  | page :: rest =>
      [LF; LF] ++ py "<!----- Page " ++ str_of_nat (idx + 1) ++ py " ----->" ++ [LF; LF]
      ++ page ++ markdown_of (S idx) rest
  end.

(** The script, run without [--images]: [file] and [out] are [args.file]
    and [args.out] as pathlib prints them, [api_key] is what
    [os.getenv("MISTRAL_API_KEY")] gives, [Mistral] the construction of the
    client from the key, [ocr_process] the call [client.ocr.process(...)]
    on the payload key and the data URI, yielding the markdown of the
    pages.  Nothing is caught: an exception ends the run.  The lines
    printed are those of the source, with their characters outside ASCII
    ([U+2026], [U+2192] and [U+2705]). *)
Definition main (w : world) (f : Faulty.faults) (b64encode : bytes → str)
    (Mistral : str → outcome unit)
    (ocr_process : str → str → outcome (list str)) (api_key : option str)
    (file : str) (out : option str) : M unit :=
  if negb (truthy_str api_key) then
    raise (Exn OtherException (py "Set MISTRAL_API_KEY in env or .env"))
  else
    lift (Mistral (default [] api_key));;
    let suffix := lower (Path.suffix file) in
    match MIME_MAP !! suffix with
    | None => raise (Exn OtherException (py "Unsupported extension '" ++ suffix ++ py "'"))
    | Some mime =>
        data ← lift (open_rb w file);
        let data_uri := py "data:" ++ mime ++ py ";base64," ++ b64encode data in
        let is_pdf := eqb suffix (py ".pdf") in
        let payload_key := if is_pdf then py "document_url" else py "image_url" in
        out ← match out with
              | Some out => mret out
              | None =>
                  d ← now w;
                  mret (Path.joinpath (Path.parent file)
                          (auto_name file (strftime_Ymd_HMS d)))
              end;
        Faulty.print f (py "Running OCR " ++ [8230]);;
        emit (Request (py "mistral-ocr-latest") payload_key);;
        pages ← lift (ocr_process payload_key data_uri);
        Faulty.print f (py " recognised " ++ str_of_nat (length pages) ++ py " page(s)");;
        Faulty.write_file w f out (Text (markdown_of 0 pages));;
        Faulty.print f ([8594] ++ py " Markdown saved to " ++ out);;
        Faulty.print f ([9989] ++ py " Done.")
    end.

End Mtext.

(** ** gdocai.py *)

Module Gdocai.

Definition DEFAULT_PROJECT_ID : str := py "superb-runXXXX".
Definition DEFAULT_LOCATION : str := py "us".
Definition DEFAULT_PROCESSOR_ID : str := py "a00897XXXX".

Definition SUPPORTED_MIME_TYPES : gmap str str :=
  list_to_map
    [(py ".pdf", py "application/pdf"); (py ".jpg", py "image/jpeg");
     (py ".jpeg", py "image/jpeg"); (py ".tiff", py "image/tiff");
     (py ".tif", py "image/tiff"); (py ".gif", py "image/gif");
     (py ".png", py "image/png"); (py ".webp", py "image/webp");
     (py ".bmp", py "image/bmp")].

(** A [documentai.Document], by its [text] and by whether any other field
    of it is set (a message with no field set is falsy). *)
Record document := Document { text : str; other_fields : bool }.

Definition document_truthy (d : document) : bool :=
  negb (eqb (text d) []) || other_fields d.

(** What the script calls outside itself: [mimetypes.guess_type(path)[0]],
    [os.path.exists], the construction of the client (which may fail), and
    [client.process_document(request=...)] on the content and MIME type,
    yielding [result.document]. *)
Record apis := Apis {
  guess_type : str → option str;
  exists_path : str → bool;
  make_client : str → outcome unit;
  process_document : bytes → str → outcome document
}.

Section gdocai.

Variable w : world.
Variable f : Faulty.faults.
Variable a : apis.

Definition get_mime_type (file_path : str) : option str :=
  let extension := lower (Path.splitext file_path).2 in
  match SUPPORTED_MIME_TYPES !! extension with
  | Some mime_type => Some mime_type
  | None =>
      let mime_type := guess_type a file_path in
      if truthy_str mime_type
         && str_in (split_first Path.SLASH (default [] mime_type))
              [py "image"; py "application"]
      then mime_type
      else None
  end.

(** [p in s] for a pattern that is not empty. *)
Definition contains (s p : str) : bool := negb (occurrences p s =? 0)%nat.

Definition process_document_sample (project_id location processor_id : str)
    (file_path mime_type : str) : M (option document) :=
  Faulty.print f (py "Processing document: " ++ file_path ++ py " with MIME type: "
                  ++ mime_type);;
  Faulty.print f (py "Using Project ID: " ++ project_id ++ py ", Location: " ++ location
                  ++ py ", Processor ID: " ++ processor_id);;
  lift (make_client a location);;
  image_content ← lift (open_rb w file_path);
  try_except
    (emit (Request (py "process_document") mime_type);;
     result_document ← lift (process_document a image_content mime_type);
     mret (Some result_document))
    (λ e,
       match exc_type e with
       | InvalidArgument =>
           Faulty.print f (py "Error processing document: " ++ exc_str e);;
           (if contains (lower (exc_str e)) (py "mime_type") then
              Faulty.print f (py "  Hint: The MIME type '" ++ mime_type
                              ++ py "' might not be supported by the processor or is incorrect.")
            else if contains (lower (exc_str e)) (py "file type") then
              Faulty.print f (py "  Hint: The file content might not match the declared MIME type '"
                              ++ mime_type ++ py "'.")
            else mret ());;
           mret None
       | _ =>
           Faulty.print f (py "An unexpected error occurred: " ++ exc_str e);;
           mret None
       end).

(** How the script ends: [exit(code)], or by reaching its last line. *)
Inductive ending := Exit (code : Z) | Finished.

(** The text is written to [--output_file] when the option is given;
    [except IOError] catches the errors of the operating system only. *)
Definition save_text (output_file : option str) (text : str) : M unit :=
  if truthy_str output_file then
    let path := default [] output_file in
    try_except
      (Faulty.write_file w f path (Text text);;
       Faulty.print f ([LF] ++ py "Extracted text saved to: " ++ path))
      (λ e,
         match exc_type e with
         | OSError | FileNotFoundError =>
             Faulty.print f ([LF] ++ py "Error saving text to file: " ++ exc_str e)
         | _ => raise e
         end)
  else mret ().

Definition main (file_path project_id location processor_id : str)
    (output_file : option str) : M ending :=
  if eqb project_id (py "your-gcp-project-id") || eqb project_id [] then
    Faulty.print f (py "ERROR: Please set your Google Cloud Project ID in the script or via the --project_id argument.");;
    mret (Exit 1)
  else if eqb processor_id (py "your-processor-id") || eqb processor_id [] then
    Faulty.print f (py "ERROR: Please set your Document AI Processor ID in the script or via the --processor_id argument.");;
    mret (Exit 1)
  else if negb (exists_path a file_path) then
    Faulty.print f (py "Error: File not found at " ++ file_path);;
    mret (Exit 1)
  else
    let file_mime_type := get_mime_type file_path in
    if negb (truthy_str file_mime_type) then
      Faulty.print f (py "Error: Could not determine a supported MIME type for "
                      ++ file_path);;
      Faulty.print f (py "Supported extensions: .pdf, .jpg, .jpeg, .tiff, .tif, .gif, .png, .webp, .bmp");;
      mret (Exit 1)
    else
      let file_mime_type := default [] file_mime_type in
      Faulty.print f (py "Attempting to process: " ++ file_path ++ py " (MIME: "
                      ++ file_mime_type ++ py ")");;
      document_data ← process_document_sample project_id location processor_id
                        file_path file_mime_type;
      match document_data with
      | Some document_data =>
          if document_truthy document_data && negb (eqb (text document_data) []) then
            Faulty.print f ([LF] ++ py "--- Extracted Text ---");;
            Faulty.print f (text document_data);;
            Faulty.print f (py "--- End of Text ---");;
            save_text output_file (text document_data);;
            mret Finished
          else if document_truthy document_data && eqb (text document_data) [] then
            Faulty.print f ([LF] ++ py "Document processed, but no text was extracted. The document might be blank or non-textual.");;
            mret Finished
          else
            Faulty.print f ([LF] ++ py "Failed to process document or extract text.");;
            mret Finished
      | None =>
          Faulty.print f ([LF] ++ py "Failed to process document or extract text.");;
          mret Finished
      end.

End gdocai.

End Gdocai.

(** ** azure-gcp-vision-extractor.py: the clients and [main] *)

Module VisionMain.

Import Vision.

(** [obj[key]] for a value read by [json.load] and a [str] key: only a
    [dict] can be indexed by a string. *)
Definition getitem (obj : json) (key : str) : outcome json :=
  match obj with
  | JDict d =>
      match dict_get key d with
      | Some v => Return v
      | None => Raise (Exn KeyError (py "'" ++ key ++ py "'"))
      end
  | JList _ => Raise (Exn TypeError (py "list indices must be integers or slices, not str"))
  | JStr _ => Raise (Exn TypeError (py "string indices must be integers, not 'str'"))
  | JInt _ => Raise (Exn TypeError (py "'int' object is not subscriptable"))
  | JFloat _ => Raise (Exn TypeError (py "'float' object is not subscriptable"))
  | JBool _ => Raise (Exn TypeError (py "'bool' object is not subscriptable"))
  | JNull => Raise (Exn TypeError (py "'NoneType' object is not subscriptable"))
  end.

(** What [main] and the two client functions call outside the script:
    [Path(directory).mkdir(parents=True, exist_ok=True)],
    [vision.ImageAnnotatorClient.from_service_account_json(path)],
    [json.load] on the file opened at a path (the opening included),
    [ComputerVisionClient(endpoint, CognitiveServicesCredentials(key))],
    and [is_file()], [is_dir()] and [rglob('*')] of pathlib, which raise the
    errors of the operating system that do not just mean that the path is
    not there; [stdout] has the failures of [print] on the lines that show
    the input path, which comes from the command line as it is. *)
Record host := Host {
  mkdir : str → outcome unit;
  from_service_account_json : str → outcome google_client;
  json_load : str → outcome json;
  ComputerVisionClient : json → json → outcome azure_client;
  is_file : str → outcome bool;
  is_dir : str → outcome bool;
  rglob : str → outcome (list str);
  stdout : Faulty.faults
}.

Section main.

Variable h : host.
Variable w : world.

Definition ensure_dir (directory : str) : M unit := lift (mkdir h directory).

Definition get_google_vision_client (credentials_path : str) : M (option google_client) :=
  try_except
    (client ← lift (from_service_account_json h credentials_path);
     print (py "Google Vision client initialized successfully.");;
     mret (Some client))
    (λ e,
       print (py "Error initializing Google Vision client: " ++ exc_str e);;
       print (py "Ensure your GOOGLE_APPLICATION_CREDENTIALS environment variable is set or the path is correct.");;
       mret None).

Definition get_azure_vision_client (credentials_path : str) : M (option azure_client) :=
  try_except
    (creds ← lift (json_load h credentials_path);
     endpoint ← lift (getitem creds (py "endpoint"));
     key ← lift (getitem creds (py "key"));
     client ← lift (ComputerVisionClient h endpoint key);
     print (py "Azure Computer Vision client initialized successfully.");;
     mret (Some client))
    (λ e,
       match exc_type e with
       | FileNotFoundError =>
           print (py "Azure credentials file not found at " ++ credentials_path);;
           mret None
       | KeyError =>
           print (py "Azure credentials file " ++ credentials_path
                  ++ py " is missing 'endpoint' or 'key'.");;
           mret None
       | _ =>
           print (py "Error initializing Azure client: " ++ exc_str e);;
           mret None
       end).

(** The clients [main] goes on with, or [None] where it returns after a
    failed initialization.  A client object is true in a condition, so
    [not client] holds for [None] only. *)
Definition clients (api google_creds azure_creds : str)
  : M (option (option google_client * option azure_client)) :=
  if eqb api (py "google") then
    google_client ← get_google_vision_client google_creds;
    match google_client with
    | None =>
        print (py "Exiting due to Google client initialization failure.");;
        mret None
    | Some _ => mret (Some (google_client, None))
    end
  else if eqb api (py "azure") then
    azure_client ← get_azure_vision_client azure_creds;
    match azure_client with
    | None =>
        print (py "Exiting due to Azure client initialization failure.");;
        mret None
    | Some _ => mret (Some (None, azure_client))
    end
  else mret (Some (None, None)).

(** The test [main] applies to the suffix of a path, at both places. *)
Definition supported (p : str) : bool :=
  str_in (lower (Path.suffix p)) SUPPORTED_IMAGE_EXTENSIONS
  || eqb (lower (Path.suffix p)) SUPPORTED_PDF_EXTENSION.

(** The loop over [input_path_obj.rglob('*')]. *)
Fixpoint scan (listing : list str) (files_to_process : list str) : M (list str) :=
  match listing with
  | [] => mret files_to_process
  | p :: rest =>
      p_is_file ← lift (is_file h p);
      scan rest (if (p_is_file : bool) && supported p
                 then files_to_process ++ [p] else files_to_process)
  end.

(** [files_to_process], or [None] where [main] returns because the input is
    neither a file nor a directory.  [input_path] is [args.input_path] and
    [input_path_obj] is [Path(args.input_path)]. *)
Definition files_to_process (input_path input_path_obj : str) : M (option (list str)) :=
  input_is_file ← lift (is_file h input_path_obj);
  if (input_is_file : bool) then
    if supported input_path_obj then mret (Some [input_path_obj])
    else
      Faulty.print (stdout h)
        (py "Input file " ++ input_path
         ++ py " is not a supported type. Supported: ['.png', '.jpg', '.jpeg', '.bmp', '.tiff', '.tif', '.gif', '.webp', '.pdf']");;
      mret (Some [])
  else
    input_is_dir ← lift (is_dir h input_path_obj);
    if (input_is_dir : bool) then
      Faulty.print (stdout h) (py "Scanning directory: " ++ input_path);;
      listing ← lift (rglob h input_path_obj);
      files_to_process ← scan listing [];
      mret (Some files_to_process)
    else
      Faulty.print (stdout h)
        (py "Error: Input path " ++ input_path ++ py " is not a valid file or directory.");;
      mret None.

Definition main (input_path input_path_obj output_dir api google_creds azure_creds : str)
    (force_pdf_to_images : bool) : M unit :=
  ensure_dir output_dir;;
  initialized ← clients api google_creds azure_creds;
  match initialized with
  | None => mret ()
  | Some (google_client, azure_client) =>
      found ← files_to_process input_path input_path_obj;
      match found with
      | None => mret ()
      | Some [] =>
          Faulty.print (stdout h)
            (py "No supported files (PDFs or "
             ++ join (py ", ") SUPPORTED_IMAGE_EXTENSIONS
             ++ py ") found in " ++ input_path ++ py ".")
      | Some files_to_process =>
          print (py "Found " ++ str_of_nat (length files_to_process)
                 ++ py " file(s) to process.");;
          main_loop w files_to_process output_dir api google_client azure_client
            force_pdf_to_images
      end
  end.

End main.

End VisionMain.

(** ** multi_extractor.py: the providers of a run *)

Module MultiMain.

(** An entry of [PROVIDERS]. *)
Record provider := Provider { api_key_env : str; default_model : str }.

Definition PROVIDERS : list (str * provider) :=
  [(py "gemini", Provider (py "GOOGLE_API_KEY") (py "gemini-2.0-flash"));
   (py "openai", Provider (py "OPENAI_API_KEY") (py "gpt-4o"));
   (py "anthropic", Provider (py "ANTHROPIC_API_KEY") (py "claude-3-5-sonnet-20241022"))].

(** [PROVIDERS.get(name)] *)
Fixpoint providers_get (name : str) (table : list (str * provider)) : option provider :=
  match table with
  | [] => None
  | (k, v) :: rest => if eqb k name then Some v else providers_get name rest
  end.

(** An entry of [providers_to_use_config].  The object of a provider is
    whichever of the calls of [Multi.apis] it stands for, so only whether
    it has been set is kept. *)
Record config_data := ConfigData {
  api_key : str;
  model : str;
  client_or_model_obj : option unit
}.

(** [providers_to_use_config]: a [dict], in insertion order. *)
Definition configs := list (str * config_data).

(** [d[name] = v] on a key that is present. *)
Fixpoint configs_set (name : str) (v : config_data) (d : configs) : configs :=
  match d with
  | [] => [(name, v)]
  | (k, v') :: rest =>
      if eqb k name then (k, v) :: rest else (k, v') :: configs_set name v rest
  end.

(** [d.pop(name)] on a key that is present. *)
Fixpoint configs_pop (name : str) (d : configs) : configs :=
  match d with
  | [] => []
  | (k, v) :: rest => if eqb k name then rest else (k, v) :: configs_pop name rest
  end.

(** How the initialization of a provider fails: with an [ImportError], which
    has a handler of its own, or with another exception. *)
Inductive init_error :=
| ImportError (msg : str)
| OtherError (e : exn).

(** What the script calls outside itself, besides [Multi.apis]:
    [os.getenv], the [import] at the head of each of the three functions
    that build a client (the message of the [ImportError], if it fails),
    the library calls that build the object of each provider, and
    [os.path.exists]. *)
Record host := Host {
  getenv : str → option str;
  import_failure : str → option str;
  GenerativeModel : str → str → init_error + unit;
  OpenAIClient : str → init_error + unit;
  AnthropicClient : str → init_error + unit;
  exists_path : str → bool
}.

Section main.

Variable h : host.
Variable w : world.
Variable a : Multi.apis.

Definition get_gemini_model_instance (api_key model_name : str) : init_error + unit :=
  match import_failure h (py "google.generativeai") with
  | Some msg => inl (ImportError msg)
  | None =>
      if eqb api_key []
      then inl (OtherError (Exn OtherException (py "GOOGLE_API_KEY not found for Gemini.")))
      else GenerativeModel h api_key model_name
  end.

Definition get_openai_client_instance (api_key : str) : init_error + unit :=
  match import_failure h (py "openai") with
  | Some msg => inl (ImportError msg)
  | None =>
      if eqb api_key []
      then inl (OtherError (Exn OtherException (py "OPENAI_API_KEY not found for OpenAI.")))
      else OpenAIClient h api_key
  end.

Definition get_anthropic_client_instance (api_key : str) : init_error + unit :=
  match import_failure h (py "anthropic") with
  | Some msg => inl (ImportError msg)
  | None =>
      if eqb api_key []
      then inl (OtherError (Exn OtherException (py "ANTHROPIC_API_KEY not found for Anthropic.")))
      else AnthropicClient h api_key
  end.

(** The choice of the providers of the run and of their models, from
    [--provider] and [--model]; [None] where the script leaves with
    [exit(1)]. *)
Definition select (provider model : option str) : M (option configs) :=
  if truthy_str provider then
    let provider_name := default [] provider in
    match providers_get provider_name PROVIDERS with
    | None => raise (Exn TypeError (py "'NoneType' object is not subscriptable"))
    | Some config =>
        let api_key := getenv h (api_key_env config) in
        if negb (truthy_str api_key) then
          print (py "Error: API key for specified provider '" ++ provider_name ++ py "' ("
                 ++ api_key_env config ++ py ") not found in .env or environment.");;
          mret None
        else
          let model_name :=
            if truthy_str model then default [] model else default_model config in
          print (py "Using specified provider: " ++ provider_name ++ py " with model "
                 ++ model_name);;
          mret (Some [(provider_name, ConfigData (default [] api_key) model_name None)])
    end
  else
    let providers_to_use_config : configs :=
      omap (λ '(name, config),
              let api_key := getenv h (api_key_env config) in
              if truthy_str api_key
              then Some (name, ConfigData (default [] api_key) (default_model config) None)
              else None)
           PROVIDERS in
    let active_auto_providers := providers_to_use_config.*1 in
    match providers_to_use_config with
    | [] =>
        print (py "Error: No API keys found in .env for any provider (GOOGLE_API_KEY, OPENAI_API_KEY, ANTHROPIC_API_KEY).");;
        print (py "Please configure at least one or use --provider to specify one if its key is set elsewhere.");;
        mret None
    | _ =>
        if truthy_str model then
          match providers_to_use_config with
          | [(provider_name, config_data)] =>
              print (py "Auto-detected single provider: " ++ provider_name
                     ++ py ". Using specified model: " ++ default [] model);;
              mret (Some [(provider_name,
                           ConfigData (api_key config_data) (default [] model)
                             (client_or_model_obj config_data))])
          | _ =>
              print (py "Auto-detected multiple providers: "
                     ++ join (py ", ") active_auto_providers
                     ++ py ". The --model argument ('{args.model}') is ignored; using default models for each. To specify a model, use --provider <name> --model <model_name>.");;
              mret (Some providers_to_use_config)
          end
        else
          print (py "Auto-detected providers: " ++ join (py ", ") active_auto_providers
                 ++ py ". Using default models.");;
          mret (Some providers_to_use_config)
    end.

(** The body of the [try] of the initialization loop: the object of the
    provider, or how building it failed.  An object that has been built is
    true in a condition, so the [raise] after the branches is reached only
    where no branch assigns and the entry holds [None]. *)
Definition initialize (name : str) (config_data : config_data) : init_error + unit :=
  if eqb name (py "gemini")
  then get_gemini_model_instance (api_key config_data) (model config_data)
  else if eqb name (py "openai")
  then get_openai_client_instance (api_key config_data)
  else if eqb name (py "anthropic")
  then get_anthropic_client_instance (api_key config_data)
  else
    match client_or_model_obj config_data with
    | Some obj => inr obj
    | None =>
        inl (OtherError (Exn OtherException
                           (py "Client/model object is None after initialization attempt.")))
    end.

(** One turn of the initialization loop on the dictionary [d]: the entry
    gets its object, or is popped. *)
Definition initialize_entry (name : str) (config_data : config_data) (d : configs)
  : M configs :=
  match initialize name config_data with
  | inr obj =>
      mret (configs_set name
              (ConfigData (api_key config_data) (model config_data) (Some obj)) d)
  | inl (ImportError ie) =>
      print (py "Import Error for " ++ name ++ py ": " ++ ie ++ py ". Is the library '"
             ++ (if negb (eqb name (py "gemini")) then name else py "google-generativeai")
             ++ py "' installed?");;
      mret (configs_pop name d)
  | inl (OtherError e) =>
      print (py "Error initializing client/model for provider '" ++ name
             ++ py "' with model '" ++ model config_data ++ py "': " ++ exc_str e);;
      print (py "Provider '" ++ name ++ py "' will be skipped.");;
      mret (configs_pop name d)
  end.

(** [for name, config_data in providers_to_use_config.items(): ...] on the
    live dictionary [d], from the entry at position [i] on: every step of
    the iterator, the last one included, first compares the size of the
    dictionary with the size [di_used] it had when the loop began, and
    raises [RuntimeError] when it has changed. *)
Fixpoint initialize_loop (todo i di_used : nat) (d : configs) : M configs :=
  if negb (length d =? di_used)%nat then
    raise (Exn OtherException (py "dictionary changed size during iteration"))
  else
    match todo, d !! i with
    | S todo, Some (name, config_data) =>
        d ← initialize_entry name config_data d;
        initialize_loop todo (S i) di_used d
    | _, _ => mret d
    end.

(** The loop over the initialized providers; it returns the keys of
    [all_results], which gets an entry on both paths of the body. *)
Fixpoint process_loop (file_path prompt : str) (poppler_path : option str)
    (items : configs) (all_results : list str) : M (list str) :=
  match items with
  | [] => mret all_results
  | (provider_name, config_data) :: rest =>
      Multi.process_with_provider w a file_path prompt poppler_path provider_name
        (model config_data);;
      process_loop file_path prompt poppler_path rest (all_results ++ [provider_name])
  end.

(** How the script ends: [exit(code)], or by reaching its last line. *)
Inductive ending := Exit (code : Z) | Finished.

Definition main (file_path prompt : str) (provider model poppler_path : option str)
  : M ending :=
  selected ← select provider model;
  match selected with
  | None => mret (Exit 1)
  | Some [] =>
      print (py "Error: No providers selected or configured. Exiting.");;
      mret (Exit 1)
  | Some providers_to_use_config =>
      providers_to_use_config ←
        initialize_loop (length providers_to_use_config) 0
          (length providers_to_use_config) providers_to_use_config;
      match providers_to_use_config with
      | [] =>
          print (py "No providers could be initialized successfully. Exiting.");;
          mret (Exit 1)
      | _ =>
          if negb (exists_path h file_path) then
            print (py "Error: File not found at " ++ file_path);;
            mret (Exit 1)
          else
            all_results ← process_loop file_path prompt poppler_path
                            providers_to_use_config [];
            print ([LF] ++ py "--- Processing Complete ---");;
            match all_results with
            | [] => print (py "No results were generated.")
            | _ => mret ()
            end;;
            mret Finished
      end
  end.

End main.

End MultiMain.


Import Vision.

(** * Vocabulary of the properties *)

(** The events of [k] status checks with a sleep of 2 between consecutive
    ones. *)
Fixpoint polling_trace (operation_id : str) (k : nat) : list event :=
  match k with
  | 0 => []
  | 1 => [GetReadResult operation_id]
  | S k' => GetReadResult operation_id :: Sleep 2 :: polling_trace operation_id k'
  end%nat.

Definition is_status_check (e : event) : bool :=
  match e with GetReadResult _ => true | _ => false end.

Definition is_print (e : event) : bool :=
  match e with Print _ => true | _ => false end.

(** The number of status checks among some events. *)
Definition status_checks (t : list event) : nat :=
  length (filter (λ e, is_status_check e = true) t).

(** A scripted Azure client for the examples: the submission answers with
    an operation location, and the status checks of any operation get the
    given answers in order. *)
Definition scripted_azure (script : list read_operation_result) : azure_client :=
  AzureClient
    (λ _, Return [(py "Operation-Location",
                   py "https://vision.example/read/analyzeResults/op-1")])
    (λ _, Return <$> script).

(** An answer with a status, the lines of its pages, and no message. *)
Definition answer (st : str) (pages : list (list str)) : read_operation_result :=
  ReadOperationResult st None (Some (AnalyzeResults pages None))
    [(py "status", JStr st)].

Definition initial : state := State ∅ [].

(** A world for the examples: the readable input files with their bytes,
    the input files that exist but cannot be read, the pages of the PDFs
    that can be rasterized, the output paths that cannot be written, and a
    clock that stands still. *)
Definition example_world (inputs : list (str * bytes)) (unreadable : list str)
    (pdfs : list (str * list pil_image)) (locked : list str) : world :=
  World
    (λ p,
       if str_in p unreadable
       then Raise (Exn OSError (py "[Errno 13] Permission denied: '" ++ p ++ py "'"))
       else match (list_to_map inputs : gmap str bytes) !! p with
            | Some b => Return b
            | None => Raise (Exn FileNotFoundError
                               (py "[Errno 2] No such file or directory: '" ++ p ++ py "'"))
            end)
    (λ p, str_in p locked)
    (λ p _ _,
       match (list_to_map pdfs : gmap str (list pil_image)) !! p with
       | Some images => Return images
       | None => Raise (Exn OtherException (py "Unable to get page count."))
       end)
    (λ _, DateTime 2025 6 3 14 5 9).

(** A page image that saves to the given bytes. *)
Definition page_image (b : bytes) : pil_image := PilImage (λ _, Return b).

(** Either both siblings exist after the write, or neither was touched. *)
Definition both_or_neither (before after : gmap str content) (txt_path json_path : str)
  : Prop :=
  (is_Some (after !! txt_path) ∧ is_Some (after !! json_path))
  ∨ (after !! txt_path = before !! txt_path ∧ after !! json_path = before !! json_path).

(** A Google client for the examples: every image gets the same answer,
    and PDFs are not served. *)
Definition scripted_google (answer : outcome annotate_image_response) : google_client :=
  GoogleClient (λ _, answer)
    (λ _, Raise (Exn OtherException (py "503 Service Unavailable"))).

(** The answer of Google Vision for an image without text: no annotation,
    and a message whose dictionary is empty. *)
Definition no_text_response : annotate_image_response :=
  AnnotateImageResponse [] None [] None.

(** A computation that writes no file: it only extends the trace. *)
Definition quiet {A} (m : M A) : Prop :=
  ∀ st, ∃ o tr, m st = (o, State (files st) (trace st ++ tr)).

(** A quiet computation that never raises. *)
Definition total {A} (m : M A) : Prop :=
  ∀ st, ∃ a tr, m st = (Return a, State (files st) (trace st ++ tr)).


(** The collaborators of multi_extractor.py for the examples: every
    provider answers with the same text. *)
Definition example_apis (reply : str) : Multi.apis :=
  Multi.Apis (λ b, Return (page_image b)) (λ _, None) (λ _, py "AQID") (py "posix")
    (λ _ _, Return (Some reply)) (λ _ _ _, Return (Some reply))
    (λ _ _ _ _, Return (Some reply)).

Definition is_request (e : event) : bool :=
  match e with Request _ _ => true | _ => false end.

(** The collaborators of gdocai.py for the examples: the system table of
    MIME types knows [.docx], every path exists, and the processor answers
    with the given text. *)
Definition example_docai (reply : str) : Gdocai.apis :=
  Gdocai.Apis
    (λ p, if endswith p (py ".docx")
          then Some (py "application/vnd.openxmlformats-officedocument.wordprocessingml.document")
          else None)
    (λ _, true) (λ _, Return ()) (λ _ _, Return (Gdocai.Document reply true)).

(** The texts the conversion loop keeps from the results of the pages: the
    non-empty ones, in page order. *)
Fixpoint page_texts (results : list ocr_result) : list str :=
  match results with
  | [] => []
  | (page_text, _) :: rest =>
      (if truthy_str page_text then [default [] page_text] else [])
      ++ page_texts rest
  end.

(** The entries of [pages] built from the results of the pages after the
    [i]-th: for every result with a non-empty JSON object, the ordinal of
    its page and that object, in page order. *)
Fixpoint page_entries (i : nat) (results : list ocr_result) : list json :=
  match results with
  | [] => []
  | (_, page_json) :: rest =>
      (if truthy_opt page_json
       then [JDict [(py "page", JInt (Z.of_nat (S i)));
                    (py "response", default JNull page_json)]]
       else [])
      ++ page_entries (S i) rest
  end.

(** Every page image, from the one after the [i]-th on, is encoded as PNG
    and its submission to the provider returns the result at the same
    position of [results]. *)
Fixpoint pages_return (file_path_obj api_choice : str)
    (google_client : option google_client) (azure_client : option azure_client)
    (i : nat) (images : list pil_image) (results : list ocr_result) : Prop :=
  match images, results with
  | [], [] => True
  | pil_image :: images, r :: results =>
      (∃ img_bytes,
         save pil_image (py "PNG") = Return img_bytes
         ∧ ∀ st,
             (ocr_page api_choice google_client azure_client img_bytes
                (Path.stem file_path_obj ++ py "_page_" ++ str_of_nat (S i) ++ py ".png")
                st).1 = Return r)
      ∧ pages_return file_path_obj api_choice google_client azure_client (S i)
          images results
  | _, _ => False
  end.

(** The envelope of the specification: an object with a list [pages], a string
    [source_file], and a [method] that is ["direct"] or
    ["pdf_converted_to_images"]. *)
Definition is_envelope (j : json) : bool :=
  match j with
  | JDict d =>
      match dict_get (py "pages") d, dict_get (py "source_file") d,
            dict_get (py "method") d with
      | Some (JList _), Some (JStr _), Some (JStr m) =>
          str_in m [py "direct"; py "pdf_converted_to_images"]
      | _, _, _ => false
      end
  | _ => false
  end.

(** An Azure client for the examples that tells the pages apart: the
    operation of a stream is named after its bytes, and its one status
    check gets the answer listed for them. *)
Definition azure_by_page (answers : list (bytes * read_operation_result)) : azure_client :=
  AzureClient
    (λ stream, Return [(py "Operation-Location",
                        py "https://vision.example/read/analyzeResults/" ++ stream)])
    (λ operation_id,
       match (list_to_map answers : gmap str read_operation_result) !! operation_id with
       | Some r => [Return r]
       | None => []
       end).

(** The path without extension under which [process_file] saves at the
    time [d]: [<output_dir>/<stem>_<provider>_<YYYYMMDD-HHMMSS>]. *)
Definition output_stem (output_dir file_path_obj api_choice : str) (d : datetime) : str :=
  Path.joinpath output_dir
    (Path.stem file_path_obj ++ py "_" ++ api_choice ++ py "_" ++ strftime_Ymd_HMS d).

(** [after] is [before] with the two outputs of a file saved at some time:
    the text [text] and the JSON value [j]. *)
Definition saved (before after : gmap str content)
    (output_dir file_path_obj api_choice : str) (text : str) (j : json) : Prop :=
  ∃ d,
    after
    = <[output_stem output_dir file_path_obj api_choice d ++ py ".json" := JsonDoc j]>
        (<[output_stem output_dir file_path_obj api_choice d ++ py ".txt" := Text text]>
           before).

(** The ordinal an entry of [pages] records, and the ordinals of a list of
    entries. *)
Definition entry_page (e : json) : option Z :=
  match e with
  | JDict d => match dict_get (py "page") d with Some (JInt n) => Some n | _ => None end
  | _ => None
  end.

Definition ordinals (entries : list json) : list Z := omap entry_page entries.

(** The answer of Google Vision for an image that reads "hello". *)
Definition hello_response : annotate_image_response :=
  AnnotateImageResponse [] (Some (py "hello"))
    [(py "fullTextAnnotation", JDict [(py "text", JStr (py "hello"))])] None.

(** A text with a character that is not white space. *)
Definition not_blank (t : str) : Prop := ∃ c, c ∈ t ∧ isspace c = false.

(** The result of a page that the merged text and the envelope both keep:
    a text that is not empty and does not contain the page-break literal,
    and a JSON object that is not empty. *)
Definition page_with_text (r : ocr_result) : Prop :=
  ∃ t j, r = (Some t, Some j) ∧ t ≠ [] ∧ occurrences PAGE_BREAK t = 0%nat
         ∧ truthy j = true.

(** A date and time with a four-digit year and its fields in range. *)
Definition valid_datetime (d : datetime) : Prop :=
  (1000 ≤ year d < 10 * 1000 ∧ 1 ≤ month d ≤ 12 ∧ 1 ≤ day d ≤ 31
   ∧ hour d < 24 ∧ minute d < 60 ∧ second d < 60)%nat.

(** The Gemini call on every page image returns the text at the same
    position of [texts]. *)
Fixpoint gemini_pages_answer (a : Multi.apis) (prompt : str) (pages : list pil_image)
    (texts : list str) : Prop :=
  match pages, texts with
  | [], [] => True
  | page :: pages, t :: texts =>
      (∀ st, (Multi.extract_text_gemini a (inr page) prompt st).1 = Return t)
      ∧ gemini_pages_answer a prompt pages texts
  | _, _ => False
  end.

(** The sections of the pages after the [i]-th: the header
    [--- Page n ---], a line feed and the text of the page. *)
Fixpoint page_sections (i : nat) (texts : list str) : list str :=
  match texts with
  | [] => []
  | t :: texts =>
      (py "--- Page " ++ str_of_nat (i + 1) ++ py " ---" ++ [LF] ++ t)
      :: page_sections (S i) texts
  end.

(** A run without failures of [print] or of a write after the file was
    opened. *)
Definition no_faults : Faulty.faults := Faulty.MkFaults (λ _, None) (λ _ _, None).

(** A run in which the write to one path fails once the file is open,
    leaving it with the given text. *)
Definition failing_write (path : str) (e : exn) (remains : str) : Faulty.faults :=
  Faulty.MkFaults (λ _, None) (λ p _, if eqb p path then Some (e, remains) else None).

(** A host of azure-gcp-vision-extractor.py for the examples: directories
    can be made, the Google credentials are accepted, the Azure credentials
    file holds [creds], the Azure client built from it answers every status
    check with a page reading [hello], the input file system has the given
    files, directories and listing, and every line can be printed. *)
Definition example_host (creds : outcome json) (input_files input_dirs listing : list str)
  : VisionMain.host :=
  VisionMain.Host (λ _, Return ()) (λ _, Return (scripted_google (Return hello_response)))
    (λ _, creds)
    (λ _ _, Return (scripted_azure [answer (py "succeeded") [[py "hello"]]]))
    (λ p, Return (str_in p input_files)) (λ p, Return (str_in p input_dirs))
    (λ _, Return listing) no_faults.

(** The providers of a run whose initialization fails. *)
Definition fails_to_initialize (h : MultiMain.host) (entry : str * MultiMain.config_data)
  : Prop :=
  ∃ err, MultiMain.initialize h entry.1 entry.2 = inl err.

(** A host of multi_extractor.py for the examples: the environment has the
    given variables, the libraries named in [missing] cannot be imported,
    every client can be built, and every path exists. *)
Definition example_providers (env : list (str * str)) (missing : list str)
  : MultiMain.host :=
  MultiMain.Host (λ k, (list_to_map env : gmap str str) !! k)
    (λ m, if str_in m missing
          then Some (py "No module named '" ++ m ++ py "'") else None)
    (λ _ _, inr ()) (λ _, inr ()) (λ _, inr ()) (λ _, true).
(** * Properties *)

(** ** Evaluation of the helpers on examples *)

Example suffix_ex : Path.suffix (py "in/scan.tar.GZ") = py ".GZ". Proof. reflexivity. Qed.
Example suffix_hidden : Path.suffix (py "in/.bashrc") = []. Proof. reflexivity. Qed.
Example stem_ex : Path.stem (py "in/scan.v2.pdf") = py "scan.v2". Proof. reflexivity. Qed.
Example splitext_ex : Path.splitext (py "a.b/..x.Png") = (py "a.b/..x", py ".Png"). Proof. reflexivity. Qed.
Example splitext_dots : Path.splitext (py "a.b/...") = (py "a.b/...", []). Proof. reflexivity. Qed.
Example splitext_none : Path.splitext (py "a.b/c") = (py "a.b/c", []). Proof. reflexivity. Qed.
Example strftime_ex :
  strftime_Ymd_HMS (DateTime 2025 6 3 14 5 9) = py "20250603-140509".
Proof. vm_compute. reflexivity. Qed.


Example rstrip_ex : rstrip (py " a b  ") = py " a b".
Proof. reflexivity. Qed.
Example strip_ex : strip ([LF; 32] ++ py "a b" ++ [LF; 9]) = py "a b".
Proof. reflexivity. Qed.
Example occurrences_ex : occurrences (py "ab") (py "abcabab") = 3%nat.
Proof. reflexivity. Qed.
Example split_last_ex : split_last Path.SLASH (py "https://x/y/abc-1") = py "abc-1".
Proof. reflexivity. Qed.

(** ** The error monad *)

Opaque py PAGE_BREAK PAGE_SEPARATOR.

Ltac run :=
  repeat (progress (unfold mbind, M_bind, mret, M_ret, lift, raise, try_except,
                      print, sleep, emit; simpl)).

Lemma total_quiet {A} (m : M A) : total m → quiet m.
Proof. intros H st. destruct (H st) as (a & tr & ->). eauto. Qed.

Lemma total_ret {A} (a : A) : total (mret a).
Proof. intros st. exists a, []. rewrite app_nil_r. by destruct st. Qed.

Lemma quiet_raise {A} e : quiet (raise e : M A).
Proof. intros st. exists (Raise e), []. rewrite app_nil_r. by destruct st. Qed.

Lemma quiet_lift {A} (o : outcome A) : quiet (lift o).
Proof. intros st. exists o, []. rewrite app_nil_r. by destruct st. Qed.

Lemma total_emit e : total (emit e).
Proof. intros st. by exists (), [e]. Qed.

Lemma total_print line : total (print line).
Proof. apply total_emit. Qed.

Lemma total_sleep n : total (sleep n).
Proof. apply total_emit. Qed.

Lemma quiet_bind {A B} (m : M A) (f : A → M B) :
  quiet m → (∀ a, quiet (f a)) → quiet (m ≫= f).
Proof.
  intros Hm Hf st. unfold mbind, M_bind.
  destruct (Hm st) as (o & tr & ->). destruct o as [e|a].
  - by exists (Raise e), tr.
  - destruct (Hf a (State (files st) (trace st ++ tr))) as (o & tr' & ->).
    exists o, (tr ++ tr'). cbn. by rewrite app_assoc.
Qed.

Lemma total_bind {A B} (m : M A) (f : A → M B) :
  total m → (∀ a, total (f a)) → total (m ≫= f).
Proof.
  intros Hm Hf st. unfold mbind, M_bind.
  destruct (Hm st) as (a & tr & ->).
  destruct (Hf a (State (files st) (trace st ++ tr))) as (b & tr' & ->).
  exists b, (tr ++ tr'). cbn. by rewrite app_assoc.
Qed.

Lemma total_try_except {A} (body : M A) (handler : exn → M A) :
  quiet body → (∀ e, total (handler e)) → total (try_except body handler).
Proof.
  intros Hb Hh st. unfold try_except.
  destruct (Hb st) as (o & tr & ->). destruct o as [e|a].
  - destruct (Hh e (State (files st) (trace st ++ tr))) as (b & tr' & ->).
    exists b, (tr ++ tr'). cbn. by rewrite app_assoc.
  - by exists a, tr.
Qed.

Lemma total_now w : total (now w).
Proof. intros st. exists (clock w (trace st)), []. rewrite app_nil_r. by destruct st. Qed.

Create HintDb effects.
#[local] Hint Resolve total_quiet total_ret quiet_raise quiet_lift total_emit
  total_print total_sleep total_now : effects.
#[local] Hint Extern 2 (total (_ ≫= _)) => apply total_bind; [|intros ?] : effects.
#[local] Hint Extern 2 (quiet (_ ≫= _)) => apply quiet_bind; [|intros ?] : effects.
#[local] Hint Extern 2 (total (try_except _ _)) =>
  apply total_try_except; [|intros ?] : effects.
#[local] Hint Extern 3 (total (if ?b then _ else _)) => destruct b : effects.
#[local] Hint Extern 3 (quiet (if ?b then _ else _)) => destruct b : effects.
#[local] Hint Extern 3 (total (match ?x with _ => _ end)) => destruct x : effects.
#[local] Hint Extern 3 (quiet (match ?x with _ => _ end)) => destruct x : effects.

(** ** The OCR functions write no file and never raise *)

Lemma ocr_google_image_bytes_total client image_bytes original_filename :
  total (ocr_google_image_bytes client image_bytes original_filename).
Proof. unfold ocr_google_image_bytes. auto 10 with effects. Qed.

Lemma ocr_google_pdf_total w client pdf_path :
  total (ocr_google_pdf w client pdf_path).
Proof. unfold ocr_google_pdf. auto 12 with effects. Qed.

Lemma poll_quiet operation_id script : quiet (poll operation_id script).
Proof. induction script as [|answer script IH]; simpl; auto 10 with effects. Qed.

Lemma ocr_azure_read_stream_total client stream original_filename :
  total (ocr_azure_read_stream client stream original_filename).
Proof.
  pose proof poll_quiet.
  unfold ocr_azure_read_stream. auto 14 with effects.
Qed.

(** ** Polling *)

Lemma poll_script operation_id pre last rest st :
  Forall (λ r, in_progress (status r) = true) pre →
  in_progress (status last) = false →
  poll operation_id ((Return <$> pre) ++ Return last :: rest) st
  = (Return last,
     State (files st) (trace st ++ polling_trace operation_id (S (length pre)))).
Proof.
  intros Hpre Hlast. revert st.
  induction Hpre as [|r pre Hr Hpre IH]; intros st.
  - simpl. run. rewrite Hlast. simpl. reflexivity.
  - simpl. run. rewrite Hr. simpl. rewrite IH. simpl.
    rewrite <- !app_assoc. reflexivity.
Qed.

Lemma status_checks_polling_trace operation_id k :
  status_checks (polling_trace operation_id k) = k.
Proof.
  unfold status_checks.
  induction k as [|[|k] IH]; [reflexivity..|].
  change (polling_trace operation_id (S (S k)))
    with (GetReadResult operation_id :: Sleep 2 :: polling_trace operation_id (S k)).
  rewrite filter_cons_True by reflexivity.
  rewrite filter_cons_False by (simpl; congruence).
  simpl. f_equal. exact IH.
Qed.

Lemma status_checks_app t1 t2 :
  status_checks (t1 ++ t2) = (status_checks t1 + status_checks t2)%nat.
Proof. unfold status_checks. by rewrite filter_app, length_app. Qed.

Lemma status_checks_prints t :
  forallb is_print t = true → status_checks t = 0%nat.
Proof.
  unfold status_checks. induction t as [|e t IH]; [done|].
  simpl. intros [He Ht]%andb_true_iff.
  rewrite filter_cons_False; [by apply IH|].
  destruct e; simpl in *; congruence.
Qed.

Lemma azure_error_message_carries original_filename read_result :
  ∃ tail,
    azure_error_message original_filename read_result
    = py "Azure Read API failed for " ++ original_filename ++ py ": "
      ++ status read_result ++ tail
    ∧ (∀ m, message read_result = Some m → m ≠ [] →
         ∃ tail', tail = py " - Message: " ++ m ++ tail').
Proof.
  exists ((if truthy_str (message read_result)
           then py " - Message: " ++ default [] (message read_result) else [])
          ++ match analyze_result read_result with
             | Some ar =>
                 match errors ar with
                 | Some errs => py " - API Errors: " ++ errs
                 | None => []
                 end
             | None => []
             end).
  split.
  - unfold azure_error_message.
    destruct (truthy_str (message read_result));
      destruct (analyze_result read_result) as [[rr [errs|]]|]; simpl;
      rewrite <- ?app_assoc, ?app_nil_r; reflexivity.
  - intros m Hm Hne. rewrite Hm. simpl.
    unfold eqb. rewrite bool_decide_eq_false_2 by done. simpl.
    eexists. rewrite <- app_assoc. reflexivity.
Qed.

(** The value of [ocr_azure_read_stream] on a script that leaves the
    in-progress statuses at its [k]-th answer. *)
Lemma ocr_azure_read_stream_script client stream original_filename st headers
    location pre last rest :
  read_in_stream client stream = Return headers →
  headers_get (py "Operation-Location") headers = Return location →
  get_read_result client (split_last Path.SLASH location)
    = (Return <$> pre) ++ Return last :: rest →
  Forall (λ r, in_progress (status r) = true) pre →
  in_progress (status last) = false →
  let polled :=
    trace st
    ++ [ReadInStream;
        Print (py "Azure Read operation submitted for " ++ original_filename
               ++ py ". Waiting for results...")]
    ++ polling_trace (split_last Path.SLASH location) (S (length pre)) in
  ocr_azure_read_stream (Some client) stream original_filename st
  = if eqb (status last) OperationStatusCodes_succeeded then
      match analyze_result last with
      | Some ar =>
          let text_content := azure_text (read_results ar) [] in
          (Return (Some (if negb (eqb text_content [])
                         then strip (drop_last (length PAGE_SEPARATOR) text_content)
                         else text_content),
                   Some (JDict (as_dict last))),
           State (files st) polled)
      | None =>
          (Return (None, None),
           State (files st)
             (polled
              ++ [Print (py "Azure Read API error for " ++ original_filename
                         ++ py ": "
                         ++ py "'NoneType' object has no attribute 'read_results'")]))
      end
    else
      (Return (None,
               Some (JDict [(py "error",
                             JStr (azure_error_message original_filename last));
                            (py "details", JDict (as_dict last))])),
       State (files st)
         (polled ++ [Print (azure_error_message original_filename last)])).
Proof.
  intros Hsubmit Hloc Hscript Hpre Hlast polled.
  unfold ocr_azure_read_stream, try_except.
  unfold mbind, M_bind, lift, emit, print, emit. cbn.
  rewrite Hsubmit, Hloc. cbn. rewrite Hscript, poll_script by done.
  cbn -[polling_trace]. subst polled.
  destruct (eqb (status last) OperationStatusCodes_succeeded);
    [destruct (analyze_result last) as [ar|]|];
    cbn -[polling_trace]; rewrite <- ?app_assoc; reflexivity.
Qed.

(** C1: on a status script whose first [k-1] answers are in progress
    ([notStarted] or [running]) and whose [k]-th answer is anything else,
    [ocr_azure_read_stream] makes exactly [k] status checks with a sleep of
    2 between consecutive ones and then returns without raising: the text
    and the raw result when the last status is [succeeded] (and the result
    carries its pages), and otherwise no text and a failure object with the
    provider's status and message. *)
Theorem azure_polling_terminates client stream original_filename st headers
    location pre last rest :
  read_in_stream client stream = Return headers →
  headers_get (py "Operation-Location") headers = Return location →
  get_read_result client (split_last Path.SLASH location)
    = (Return <$> pre) ++ Return last :: rest →
  Forall (λ r, in_progress (status r) = true) pre →
  in_progress (status last) = false →
  let operation_id := split_last Path.SLASH location in
  let k := S (length pre) in
  let result := ocr_azure_read_stream (Some client) stream original_filename st in
  ∃ final,
    trace result.2
    = trace st
      ++ [ReadInStream;
          Print (py "Azure Read operation submitted for " ++ original_filename
                 ++ py ". Waiting for results...")]
      ++ polling_trace operation_id k ++ final
    ∧ forallb is_print final = true
    ∧ status_checks (drop (length (trace st)) (trace result.2)) = k
    ∧ (∃ v, result.1 = Return v)
    ∧ (status last = OperationStatusCodes_succeeded →
       ∀ ar, analyze_result last = Some ar →
         let text_content := azure_text (read_results ar) [] in
         result.1
         = Return (Some (if negb (eqb text_content [])
                         then strip (drop_last (length PAGE_SEPARATOR) text_content)
                         else text_content),
                   Some (JDict (as_dict last))))
    ∧ (status last ≠ OperationStatusCodes_succeeded →
       result.1
       = Return (None,
                 Some (JDict [(py "error",
                               JStr (azure_error_message original_filename last));
                              (py "details", JDict (as_dict last))]))
       ∧ ∃ tail,
           azure_error_message original_filename last
           = py "Azure Read API failed for " ++ original_filename ++ py ": "
             ++ status last ++ tail
           ∧ (∀ m, message last = Some m → m ≠ [] →
                ∃ tail', tail = py " - Message: " ++ m ++ tail')).
Proof.
  intros Hsubmit Hloc Hscript Hpre Hlast operation_id k result.
  assert (Hcount : ∀ final, forallb is_print final = true →
    status_checks
      (drop (length (trace st))
         (trace st
          ++ [ReadInStream;
              Print (py "Azure Read operation submitted for " ++ original_filename
                     ++ py ". Waiting for results...")]
          ++ polling_trace operation_id k ++ final)) = k).
  { intros final Hfinal. rewrite drop_app_length.
    change ([?a; ?b] ++ ?t) with ([a; b] ++ t).
    rewrite !status_checks_app, status_checks_polling_trace,
      (status_checks_prints final Hfinal).
    unfold status_checks. simpl. lia. }
  pose proof (ocr_azure_read_stream_script client stream original_filename st
                headers location pre last rest Hsubmit Hloc Hscript Hpre Hlast)
    as Heq.
  cbv zeta in Heq. fold operation_id k in Heq.
  destruct (eqb (status last) OperationStatusCodes_succeeded) eqn:Hs.
  - apply bool_decide_eq_true in Hs.
    destruct (analyze_result last) as [ar|] eqn:Har.
    + exists []. subst result. rewrite Heq. cbn [fst snd trace files].
      split; [by rewrite !app_nil_r|].
      split; [done|].
      split; [rewrite <- (app_nil_r (polling_trace _ _)); exact (Hcount [] eq_refl)|].
      split; [eauto|].
      split; [by intros _ ar' [= <-]|done].
    + eexists [Print _]. subst result. rewrite Heq. cbn [fst snd trace files].
      split; [by rewrite <- !app_assoc|].
      split; [done|].
      split; [rewrite <- !app_assoc; by apply Hcount|].
      split; [eauto|].
      split; [by intros _ ar' [=]|done].
  - apply bool_decide_eq_false in Hs.
    eexists [Print _]. subst result. rewrite Heq. cbn [fst snd trace files].
    split; [by rewrite <- !app_assoc|].
    split; [done|].
    split; [rewrite <- !app_assoc; by apply Hcount|].
    split; [eauto|].
    split; [intros; done|].
    intros _. split; [done|]. apply azure_error_message_carries.
Qed.

Lemma azure_polling_terminates_witness :
  let result :=
    ocr_azure_read_stream
      (Some (scripted_azure [answer (py "running") []; answer (py "running") [];
                             answer (py "succeeded") [[py "hello"]]]))
      [] (py "scan.png") initial in
  status_checks (drop (length (trace initial)) (trace result.2)) = 3%nat
  ∧ result.1 = Return (Some (py "hello"), Some (JDict [(py "status", JStr (py "succeeded"))])).
Proof.
  destruct (azure_polling_terminates
              (scripted_azure [answer (py "running") []; answer (py "running") [];
                               answer (py "succeeded") [[py "hello"]]])
              [] (py "scan.png") initial
              [(py "Operation-Location",
                py "https://vision.example/read/analyzeResults/op-1")]
              (py "https://vision.example/read/analyzeResults/op-1")
              [answer (py "running") []; answer (py "running") []]
              (answer (py "succeeded") [[py "hello"]]) [])
    as (final & _ & _ & Hk & _ & Hok & _);
    [reflexivity | vm_compute; reflexivity | reflexivity
    | repeat constructor | vm_compute; reflexivity |].
  split; [exact Hk|].
  rewrite (Hok eq_refl _ eq_refl). vm_compute. reflexivity.
Defined.

(** The script [running, failed]: two status checks, one sleep between
    them, and a failure value with no text. *)
Example azure_polling_failed :
  let result :=
    ocr_azure_read_stream
      (Some (scripted_azure [answer (py "running") []; answer (py "failed") []]))
      [] (py "scan.png") initial in
  result.1
  = Return (None,
            Some (JDict [(py "error",
                          JStr (py "Azure Read API failed for scan.png: failed"));
                         (py "details", JDict [(py "status", JStr (py "failed"))])]))
  ∧ trace result.2
    = [ReadInStream;
       Print (py "Azure Read operation submitted for scan.png. Waiting for results...");
       GetReadResult (py "op-1"); Sleep 2; GetReadResult (py "op-1");
       Print (py "Azure Read API failed for scan.png: failed")].
Proof. vm_compute. split; reflexivity. Qed.

(** ** The output writer *)

(** The value of [save_results], by which of the two paths can be opened. *)
Lemma save_results_run w stem text_content json_content st :
  let txt_path := stem ++ py ".txt" in
  let json_path := stem ++ py ".json" in
  save_results w stem text_content json_content st
  = if unwritable w txt_path then
      (Raise (Exn OSError (py "[Errno 13] Permission denied: '" ++ txt_path ++ py "'")),
       State (files st) (trace st ++ [OpenW txt_path]))
    else if unwritable w json_path then
      (Raise (Exn OSError (py "[Errno 13] Permission denied: '" ++ json_path ++ py "'")),
       State (<[txt_path := Text text_content]> (files st))
         (trace st ++ [OpenW txt_path; Print (py "Saved text to: " ++ txt_path);
                       OpenW json_path]))
    else
      (Return (),
       State (<[json_path := JsonDoc json_content]>
                (<[txt_path := Text text_content]> (files st)))
         (trace st ++ [OpenW txt_path; Print (py "Saved text to: " ++ txt_path);
                       OpenW json_path; Print (py "Saved JSON to: " ++ json_path)])).
Proof.
  intros txt_path json_path.
  unfold save_results, write_file, store, print, emit, mbind, M_bind. cbn.
  fold txt_path json_path.
  destruct (unwritable w txt_path); [reflexivity|]. cbn.
  destruct (unwritable w json_path); cbn; rewrite <- !app_assoc; reflexivity.
Qed.

(** ** The output writer, with the failures of its writes and prints *)

(** Without failures of [print] and of the writes to an opened file,
    [Faulty.save_results] is [save_results]. *)
Lemma save_results_without_faults w stem text_content json_content st :
  Faulty.save_results w no_faults stem text_content json_content st
  = save_results w stem text_content json_content st.
Proof. reflexivity. Qed.

(** The value of [Faulty.save_results], by the first of its four steps
    that fails. *)
Lemma faulty_save_results_run w f stem text_content json_content st :
  let txt_path := stem ++ py ".txt" in
  let json_path := stem ++ py ".json" in
  let txt_written := <[txt_path := Text text_content]> (files st) in
  Faulty.save_results w f stem text_content json_content st
  = if unwritable w txt_path then
      (Raise (Exn OSError (py "[Errno 13] Permission denied: '" ++ txt_path ++ py "'")),
       State (files st) (trace st ++ [OpenW txt_path]))
    else
      match Faulty.write_error f txt_path (Text text_content) with
      | Some (e, remains) =>
          (Raise e,
           State (<[txt_path := Text remains]> (files st)) (trace st ++ [OpenW txt_path]))
      | None =>
          match Faulty.print_error f (py "Saved text to: " ++ txt_path) with
          | Some e => (Raise e, State txt_written (trace st ++ [OpenW txt_path]))
          | None =>
              let opened :=
                trace st ++ [OpenW txt_path; Print (py "Saved text to: " ++ txt_path);
                             OpenW json_path] in
              if unwritable w json_path then
                (Raise (Exn OSError
                          (py "[Errno 13] Permission denied: '" ++ json_path ++ py "'")),
                 State txt_written opened)
              else
                match Faulty.write_error f json_path (JsonDoc json_content) with
                | Some (e, remains) =>
                    (Raise e, State (<[json_path := Text remains]> txt_written) opened)
                | None =>
                    match Faulty.print_error f (py "Saved JSON to: " ++ json_path) with
                    | Some e =>
                        (Raise e,
                         State (<[json_path := JsonDoc json_content]> txt_written) opened)
                    | None =>
                        (Return (),
                         State (<[json_path := JsonDoc json_content]> txt_written)
                           (opened ++ [Print (py "Saved JSON to: " ++ json_path)]))
                    end
                end
          end
      end.
Proof.
  intros txt_path json_path txt_written.
  unfold Faulty.save_results, Faulty.write_file, Faulty.store, Faulty.print, emit, raise,
    mbind, M_bind.
  cbn. fold txt_path json_path.
  destruct (unwritable w txt_path); [reflexivity|]. cbn.
  destruct (Faulty.write_error f txt_path _) as [[e remains]|]; [reflexivity|]. cbn.
  destruct (Faulty.print_error f (py "Saved text to: " ++ txt_path)); [reflexivity|]. cbn.
  fold txt_written.
  destruct (unwritable w json_path); cbn; [by rewrite <- !app_assoc|].
  destruct (Faulty.write_error f json_path _) as [[e remains]|]; cbn;
    [by rewrite <- !app_assoc|].
  destruct (Faulty.print_error f (py "Saved JSON to: " ++ json_path)); cbn;
    by rewrite <- !app_assoc.
Qed.

(** C4, as the code has it.  [save_results] opens and writes the text
    file, prints, opens and writes the JSON file, prints, and stops with the
    exception of the first step that fails, undoing nothing: a text file
    that cannot be opened leaves everything as it was; a failed write of the
    text leaves the text file with what had reached it; in both cases, and
    when the print after the text fails, the JSON file is not opened.  From
    then on the text file stays, complete: beside no JSON file when that
    cannot be opened, beside what had reached the JSON file when its write
    fails, and beside the complete JSON file when the last print fails or
    when [save_results] returns, which it does exactly when every step
    succeeds. *)
Theorem save_results_outcomes w f stem text_content json_content st :
  let txt_path := stem ++ py ".txt" in
  let json_path := stem ++ py ".json" in
  let result := Faulty.save_results w f stem text_content json_content st in
  let txt_written := <[txt_path := Text text_content]> (files st) in
  let text_saved :=
    unwritable w txt_path = false
    ∧ Faulty.write_error f txt_path (Text text_content) = None
    ∧ Faulty.print_error f (py "Saved text to: " ++ txt_path) = None in
  let json_saved :=
    unwritable w json_path = false
    ∧ Faulty.write_error f json_path (JsonDoc json_content) = None in
  (unwritable w txt_path = true →
     (∃ e, result.1 = Raise e) ∧ files result.2 = files st
     ∧ trace result.2 = trace st ++ [OpenW txt_path])
  ∧ (∀ e remains,
       unwritable w txt_path = false →
       Faulty.write_error f txt_path (Text text_content) = Some (e, remains) →
       result.1 = Raise e ∧ files result.2 = <[txt_path := Text remains]> (files st)
       ∧ trace result.2 = trace st ++ [OpenW txt_path])
  ∧ (∀ e,
       unwritable w txt_path = false →
       Faulty.write_error f txt_path (Text text_content) = None →
       Faulty.print_error f (py "Saved text to: " ++ txt_path) = Some e →
       result.1 = Raise e ∧ files result.2 = txt_written
       ∧ trace result.2 = trace st ++ [OpenW txt_path])
  ∧ (text_saved → unwritable w json_path = true →
     (∃ e, result.1 = Raise e) ∧ files result.2 = txt_written)
  ∧ (∀ e remains,
       text_saved → unwritable w json_path = false →
       Faulty.write_error f json_path (JsonDoc json_content) = Some (e, remains) →
       result.1 = Raise e
       ∧ files result.2 = <[json_path := Text remains]> txt_written)
  ∧ (∀ e,
       text_saved → json_saved →
       Faulty.print_error f (py "Saved JSON to: " ++ json_path) = Some e →
       result.1 = Raise e
       ∧ files result.2 = <[json_path := JsonDoc json_content]> txt_written)
  ∧ (result.1 = Return ()
     ↔ text_saved ∧ json_saved
       ∧ Faulty.print_error f (py "Saved JSON to: " ++ json_path) = None)
  ∧ (result.1 = Return () →
     files result.2 = <[json_path := JsonDoc json_content]> txt_written).
Proof.
  intros txt_path json_path result txt_written text_saved json_saved.
  subst result text_saved json_saved.
  rewrite faulty_save_results_run. fold txt_path json_path txt_written. cbv zeta.
  destruct (unwritable w txt_path);
    [repeat split; intros; destruct_and?; try discriminate; cbn; eauto|].
  destruct (Faulty.write_error f txt_path (Text text_content)) as [[e1 r1]|];
    [repeat split; intros; destruct_and?; simplify_eq; try discriminate; cbn; eauto|].
  destruct (Faulty.print_error f (py "Saved text to: " ++ txt_path)) as [e2|];
    [repeat split; intros; destruct_and?; simplify_eq; try discriminate; cbn; eauto|].
  destruct (unwritable w json_path);
    [repeat split; intros; destruct_and?; simplify_eq; try discriminate; cbn; eauto|].
  destruct (Faulty.write_error f json_path (JsonDoc json_content)) as [[e3 r3]|];
    [repeat split; intros; destruct_and?; simplify_eq; try discriminate; cbn; eauto|].
  destruct (Faulty.print_error f (py "Saved JSON to: " ++ json_path)) as [e4|];
    repeat split; intros; destruct_and?; simplify_eq; try discriminate; cbn; eauto.
Qed.

Lemma save_results_outcomes_witness :
  let w := example_world [] [] [] [] in
  let f := failing_write (py "out/scan_azure_20250603-140509.json")
             (Exn OtherException (py "'utf-8' codec can't encode character '\ud800' in position 23: surrogates not allowed"))
             (py "{") in
  files (Faulty.save_results w f (py "out/scan_azure_20250603-140509") (py "hello")
           (JDict [(py "text", JStr [55296])]) initial).2
  = <[py "out/scan_azure_20250603-140509.json" := Text (py "{")]>
      (<[py "out/scan_azure_20250603-140509.txt" := Text (py "hello")]> ∅).
Proof.
  intros w f.
  destruct (save_results_outcomes w f (py "out/scan_azure_20250603-140509")
              (py "hello") (JDict [(py "text", JStr [55296])]) initial)
    as (_ & _ & _ & _ & Hpartial & _).
  destruct (Hpartial
              (Exn OtherException (py "'utf-8' codec can't encode character '\ud800' in position 23: surrogates not allowed"))
              (py "{")) as [_ Hfiles].
  - repeat split; vm_compute; reflexivity.
  - vm_compute. reflexivity.
  - vm_compute. reflexivity.
  - exact Hfiles.
Defined.

(** C4 as stated fails: with a JSON path that cannot be opened, the text
    file is written and the JSON file is not. *)
Lemma save_results_partial_write :
  let w := example_world [] [] [] [py "out/scan_azure_20250603-140509.json"] in
  let result :=
    Faulty.save_results w no_faults (py "out/scan_azure_20250603-140509") (py "hello")
      (JDict []) initial in
  ¬ both_or_neither (files initial) (files result.2)
      (py "out/scan_azure_20250603-140509.txt")
      (py "out/scan_azure_20250603-140509.json").
Proof.
  intros w result [[_ Hjson]|[Htxt _]].
  - vm_compute in Hjson. by destruct Hjson.
  - vm_compute in Htxt. discriminate.
Qed.

(** ** Processing one file *)

Lemma ocr_page_total api_choice google_client azure_client img_bytes name :
  total (ocr_page api_choice google_client azure_client img_bytes name).
Proof.
  pose proof ocr_google_image_bytes_total. pose proof ocr_azure_read_stream_total.
  unfold ocr_page. auto 8 with effects.
Qed.

Lemma pages_loop_quiet file_path_obj api_choice google_client azure_client images :
  ∀ i all_text_parts all_json_responses_parts,
    quiet (pages_loop file_path_obj api_choice google_client azure_client i images
             all_text_parts all_json_responses_parts).
Proof.
  pose proof ocr_page_total.
  induction images as [|pil_image rest IH]; intros i texts jsons; simpl.
  - auto with effects.
  - unfold convert_pil_image_to_bytes.
    apply quiet_bind; [auto with effects|intros _].
    apply quiet_bind; [auto with effects|intros img_bytes].
    apply quiet_bind; [auto with effects|intros [page_text page_json]].
    apply IH.
Qed.

Lemma direct_pdf_quiet w file_path_obj api_choice google_client azure_client :
  quiet (direct_pdf w file_path_obj api_choice google_client azure_client).
Proof.
  pose proof ocr_google_pdf_total. pose proof ocr_azure_read_stream_total.
  unfold direct_pdf. auto 12 with effects.
Qed.

Lemma pdf_to_images_total w file_path_obj api_choice google_client azure_client :
  total (pdf_to_images w file_path_obj api_choice google_client azure_client).
Proof.
  pose proof pages_loop_quiet.
  unfold pdf_to_images.
  apply total_bind; [auto with effects|intros _].
  apply total_try_except; [|auto 6 with effects].
  apply quiet_bind; [auto with effects|intros images].
  apply quiet_bind; [auto with effects|intros [texts jsons]].
  auto with effects.
Qed.

Lemma image_file_total w file_path_obj api_choice google_client azure_client :
  total (image_file w file_path_obj api_choice google_client azure_client).
Proof.
  pose proof ocr_google_image_bytes_total. pose proof ocr_azure_read_stream_total.
  unfold image_file. auto 14 with effects.
Qed.

(** ** Errors at the file boundary *)

(** C5 fails on the code: with the Azure provider and direct PDF
    submission, a PDF that cannot be opened makes [process_file] raise, and
    the loop of [main] stops before the next file: nothing is printed or
    written for [in/b.png]. *)
Theorem main_loop_aborts_on_unreadable_pdf :
  let w := example_world [(py "in/b.png", [1; 2; 3])] [py "in/a.pdf"] [] [] in
  let azure := scripted_azure [answer (py "succeeded") [[py "hello"]]] in
  main_loop w [py "in/a.pdf"; py "in/b.png"] (py "out") (py "azure") None
    (Some azure) false initial
  = (Raise (Exn OSError (py "[Errno 13] Permission denied: 'in/a.pdf'")),
     State ∅ [Print ([LF] ++ py "Processing file: in/a.pdf");
              Print (py "Processing PDF directly: a.pdf")]).
Proof. vm_compute. reflexivity. Qed.

(** The same two files in the other order: the image is processed, then
    the PDF raises. *)
Example main_loop_image_then_unreadable_pdf :
  let w := example_world [(py "in/b.png", [1; 2; 3])] [py "in/a.pdf"] [] [] in
  let azure := scripted_azure [answer (py "succeeded") [[py "hello"]]] in
  let result :=
    main_loop w [py "in/b.png"; py "in/a.pdf"] (py "out") (py "azure") None
      (Some azure) false initial in
  result.1 = Raise (Exn OSError (py "[Errno 13] Permission denied: 'in/a.pdf'"))
  ∧ files result.2 !! py "out/b_azure_20250603-140509.txt" = Some (Text (py "hello")).
Proof. vm_compute. split; reflexivity. Qed.

(** ** Pages without a result *)

(** C2 fails on the code: a one-page PDF under forced conversion whose
    only page gets no result from the provider is saved as a success, with
    an empty text file and an envelope without pages. *)
Theorem forced_pdf_without_results_is_saved :
  let w := example_world [] [] [(py "in/blank.pdf", [page_image [1]])] [] in
  let google := scripted_google (Raise (Exn OtherException (py "503 Service Unavailable"))) in
  let result :=
    process_file w (py "in/blank.pdf") (py "out") (py "google") (Some google) None
      true initial in
  result.1 = Return ()
  ∧ files result.2
    = <[py "out/blank_google_20250603-140509.json" :=
          JsonDoc (JDict [(py "pages", JList []);
                          (py "source_file", JStr (py "blank.pdf"));
                          (py "method", JStr (py "pdf_converted_to_images"))])]>
        (<[py "out/blank_google_20250603-140509.txt" := Text []]> ∅).
Proof. vm_compute. split; reflexivity. Qed.

(** C8 fails on the code: under forced conversion, a page on which the
    provider succeeds with no text and an empty response object leaves no
    entry in [pages]; the files written are those of a page whose call
    failed. *)
Theorem forced_pdf_drops_page_without_text :
  let w := example_world [] [] [(py "in/blank.pdf", [page_image [1]])] [] in
  let succeeded :=
    process_file w (py "in/blank.pdf") (py "out") (py "google")
      (Some (scripted_google (Return no_text_response))) None true initial in
  let failed :=
    process_file w (py "in/blank.pdf") (py "out") (py "google")
      (Some (scripted_google (Raise (Exn OtherException (py "503 Service Unavailable")))))
      None true initial in
  ocr_google_image_bytes (Some (scripted_google (Return no_text_response))) [1]
    (py "blank_page_1.png") initial
  = (Return (Some [], Some (JDict [])), initial)
  ∧ files succeeded.2 !! py "out/blank_google_20250603-140509.json"
    = Some (JsonDoc (JDict [(py "pages", JList []);
                            (py "source_file", JStr (py "blank.pdf"));
                            (py "method", JStr (py "pdf_converted_to_images"))]))
  ∧ files succeeded.2 = files failed.2.
Proof. vm_compute. repeat split; reflexivity. Qed.

(** The sibling paths keep the two apart.  An image submitted directly on
    which Google finds no text is saved as a success with an empty text and
    the empty response; an image whose call fails leaves no file. *)
Example direct_image_without_text_is_saved :
  let w := example_world [(py "in/blank.png", [1; 2; 3])] [] [] [] in
  files (process_file w (py "in/blank.png") (py "out") (py "google")
           (Some (scripted_google (Return no_text_response))) None false initial).2
  = <[py "out/blank_google_20250603-140509.json" := JsonDoc (JDict [])]>
      (<[py "out/blank_google_20250603-140509.txt" := Text []]> ∅).
Proof. vm_compute. reflexivity. Qed.

Example direct_image_failure_writes_nothing :
  let w := example_world [(py "in/blank.png", [1; 2; 3])] [] [] [] in
  process_file w (py "in/blank.png") (py "out") (py "google")
    (Some (scripted_google (Raise (Exn OtherException (py "503 Service Unavailable")))))
    None false initial
  = (Return (),
     State ∅
       [Print ([LF] ++ py "Processing file: in/blank.png");
        Print (py "Processing image file: blank.png");
        Print (py "Google Vision API error processing blank.png: 503 Service Unavailable");
        Print (py "Failed to OCR in/blank.png with google API. No results to save.")]).
Proof. vm_compute. reflexivity. Qed.

(** A PDF submitted directly for which Google returns no response leaves
    no file either. *)
Example direct_pdf_without_responses_writes_nothing :
  let w := example_world [(py "in/blank.pdf", [37; 80; 68; 70])] [] [] [] in
  let google := GoogleClient (λ _, Return no_text_response) (λ _, Return (Return [])) in
  let result :=
    process_file w (py "in/blank.pdf") (py "out") (py "google") (Some google) None
      false initial in
  result.1 = Return () ∧ files result.2 = ∅.
Proof. vm_compute. split; reflexivity. Qed.

(** ** The names of the outputs *)

Lemma ocr_branches_quiet w file_path_obj api_choice google_client azure_client force :
  quiet (ocr_branches w file_path_obj api_choice google_client azure_client force).
Proof.
  pose proof direct_pdf_quiet. pose proof pdf_to_images_total.
  pose proof image_file_total.
  unfold ocr_branches. auto with effects.
Qed.




(** ** multi_extractor.py: PDFs with the OpenAI and Anthropic providers *)

Lemma call_with_format_raises pil_image value :
  Multi.call_pil_to_image_bytes pil_image (py "format") value
  = Raise (Exn TypeError
             (py "pil_to_image_bytes() got an unexpected keyword argument 'format'")).
Proof. vm_compute. reflexivity. Qed.

(** C9: for a PDF that rasterizes to at least one page and a provider
    among [openai] and [anthropic], [process_pdf_file_with_provider] returns
    the error string of the [TypeError] that the call of
    [pil_to_image_bytes] with the keyword [format] raises on the first page;
    no request reaches the provider. *)
Theorem pdf_with_openai_or_anthropic_returns_error w a pdf_path prompt provider_name
    model_name_for_api poppler_path st page pages :
  provider_name ∈ [py "openai"; py "anthropic"] →
  (if eqb (Multi.os_name a) (py "nt") && truthy_str poppler_path
   then convert_from_path w pdf_path poppler_path (Some (lower (py "PNG")))
   else convert_from_path w pdf_path None (Some (lower (py "PNG"))))
  = Return (page :: pages) →
  let result :=
    Multi.process_pdf_file_with_provider w a pdf_path prompt provider_name
      model_name_for_api poppler_path st in
  result.1
  = Return (py "Error processing PDF " ++ pdf_path ++ py " with " ++ provider_name
            ++ py ": "
            ++ py "pil_to_image_bytes() got an unexpected keyword argument 'format'")
  ∧ trace result.2
    = trace st
      ++ [Print (py "  Processing PDF page " ++ str_of_nat 1 ++ py "/"
                 ++ str_of_nat (S (length pages)) ++ py " with " ++ provider_name
                 ++ py "...")]
  ∧ forallb (λ e, negb (is_request e)) (drop (length (trace st)) (trace result.2)) = true.
Proof.
  intros Hprovider Hconvert result.
  assert (Hgemini : eqb provider_name (py "gemini") = false).
  { apply list_elem_of_In in Hprovider.
    destruct Hprovider as [<-|[<-|[]]]; vm_compute; reflexivity. }
  assert (Hin : str_in provider_name [py "openai"; py "anthropic"] = true).
  { by apply bool_decide_eq_true. }
  assert (Hrun : result
    = (Return (py "Error processing PDF " ++ pdf_path ++ py " with " ++ provider_name
               ++ py ": "
               ++ py "pil_to_image_bytes() got an unexpected keyword argument 'format'"),
       State (files st)
         (trace st
          ++ [Print (py "  Processing PDF page " ++ str_of_nat 1 ++ py "/"
                     ++ str_of_nat (S (length pages)) ++ py " with " ++ provider_name
                     ++ py "...")]))).
  { subst result. unfold Multi.process_pdf_file_with_provider, try_except.
    unfold mbind at 1, M_bind at 1. unfold lift at 1. rewrite Hconvert.
    unfold mbind at 1, M_bind at 1.
    cbn [Multi.pdf_pages_loop].
    unfold mbind at 1, M_bind at 1. unfold print, emit.
    unfold mbind at 1, M_bind at 1.
    rewrite Hgemini, Hin.
    unfold mbind at 1, M_bind at 1. unfold lift at 1.
    rewrite call_with_format_raises. cbn.
    reflexivity. }
  rewrite Hrun. cbn [fst snd trace].
  split; [done|]. split; [done|].
  by rewrite drop_app_length.
Qed.

Lemma pdf_with_openai_or_anthropic_returns_error_witness :
  let w := example_world [] [] [(py "in/doc.pdf", [page_image [1]; page_image [2]])] [] in
  (Multi.process_pdf_file_with_provider w (example_apis (py "hello")) (py "in/doc.pdf")
     (py "Extract all text.") (py "openai") (py "gpt-4o") None initial).1
  = Return (py "Error processing PDF in/doc.pdf with openai: pil_to_image_bytes() got an unexpected keyword argument 'format'").
Proof.
  intros w.
  edestruct (pdf_with_openai_or_anthropic_returns_error w (example_apis (py "hello"))
               (py "in/doc.pdf") (py "Extract all text.") (py "openai") (py "gpt-4o")
               None initial) as (Hresult & _).
  - constructor.
  - vm_compute. reflexivity.
  - vm_compute in Hresult |- *. exact Hresult.
Defined.

(** With [gemini] the same PDF yields the text of its pages. *)
Example pdf_with_gemini_returns_text :
  let w := example_world [] [] [(py "in/doc.pdf", [page_image [1]; page_image [2]])] [] in
  (Multi.process_pdf_file_with_provider w (example_apis (py "hello")) (py "in/doc.pdf")
     (py "Extract all text.") (py "gemini") (py "gemini-2.0-flash") None initial).1
  = Return (py "--- Page 1 ---" ++ [LF] ++ py "hello" ++ [LF; LF]
            ++ py "--- Page 2 ---" ++ [LF] ++ py "hello").
Proof. vm_compute. reflexivity. Qed.

(** ** gdocai.py: the MIME type of the input *)

Lemma get_mime_type_table a file_path mime_type :
  Gdocai.SUPPORTED_MIME_TYPES !! lower (Path.splitext file_path).2 = Some mime_type →
  Gdocai.get_mime_type a file_path = Some mime_type.
Proof. intros H. unfold Gdocai.get_mime_type. by rewrite H. Qed.

Lemma split_first_nil_not_major :
  [] ∉ [py "image"; py "application"].
Proof. intros H. apply list_elem_of_In in H. vm_compute in H. intuition discriminate. Qed.

Lemma get_mime_type_none a file_path :
  Gdocai.get_mime_type a file_path = None
  ↔ Gdocai.SUPPORTED_MIME_TYPES !! lower (Path.splitext file_path).2 = None
    ∧ ∀ m, Gdocai.guess_type a file_path = Some m →
           split_first Path.SLASH m ∉ [py "image"; py "application"].
Proof.
  unfold Gdocai.get_mime_type.
  destruct (Gdocai.SUPPORTED_MIME_TYPES !! lower (Path.splitext file_path).2)
    as [t|] eqn:Ht.
  { split; [discriminate|]. by intros [? _]. }
  destruct (Gdocai.guess_type a file_path) as [m|] eqn:Hm; cbn.
  - unfold eqb, str_in. case_bool_decide as Hnil; cbn.
    + subst m. split; [|done]. intros _. split; [done|].
      intros m [= <-]. exact split_first_nil_not_major.
    + case_bool_decide as Hmajor; cbn.
      * split; [discriminate|]. intros [_ H]. by destruct (H m eq_refl).
      * split; [|done]. intros _. split; [done|]. by intros m' [= <-].
  - split; [|done]. intros _. split; [done|]. intros m [=].
Qed.

Lemma get_mime_type_not_empty a file_path :
  Gdocai.get_mime_type a file_path ≠ Some [].
Proof.
  unfold Gdocai.get_mime_type.
  destruct (Gdocai.SUPPORTED_MIME_TYPES !! lower (Path.splitext file_path).2)
    as [t|] eqn:Ht.
  - intros [= ->]. revert Ht.
    generalize (lower (Path.splitext file_path).2). intros ext Hext.
    apply (elem_of_map_to_list Gdocai.SUPPORTED_MIME_TYPES) in Hext.
    apply list_elem_of_In in Hext. vm_compute in Hext. intuition discriminate.
  - destruct (Gdocai.guess_type a file_path) as [m|]; cbn; [|discriminate].
    unfold eqb. case_bool_decide; cbn; [discriminate|].
    destruct (str_in _ _); congruence.
Qed.

Lemma bind_assoc {A B C} (m : M A) (f : A → M B) (g : B → M C) st :
  ((m ≫= f) ≫= g) st = (m ≫= (λ a, f a ≫= g)) st.
Proof. unfold mbind, M_bind. by destruct (m st) as [[e|a] st1]. Qed.

Lemma print_bind {A} line (f : unit → M A) st :
  (print line ≫= f) st = f () (State (files st) (trace st ++ [Print line])).
Proof. reflexivity. Qed.

(** A line that can be printed is printed. *)
Lemma faulty_print_run f line st :
  Faulty.print_error f line = None →
  Faulty.print f line st = (Return (), State (files st) (trace st ++ [Print line])).
Proof. intros H. unfold Faulty.print. by rewrite H. Qed.

(** Once the client is built and the file read, [process_document_sample]
    submits the content of the file with the MIME type it was given, after
    its two lines; a failure of the processor is printed and becomes
    [None]. *)
Lemma process_document_sample_run w f a project_id location processor_id file_path
    mime_type image_content st :
  (∀ line, Faulty.print_error f line = None) →
  Gdocai.make_client a location = Return () →
  open_rb w file_path = Return image_content →
  ∃ tr,
    Forall (λ e, is_print e = true) tr
    ∧ (∀ d, Gdocai.process_document a image_content mime_type = Return d → tr = [])
    ∧ Gdocai.process_document_sample w f a project_id location processor_id file_path
        mime_type st
      = (match Gdocai.process_document a image_content mime_type with
         | Return d => Return (Some d)
         | Raise _ => Return None
         end,
         State (files st)
           (trace st
            ++ [Print (py "Processing document: " ++ file_path
                       ++ py " with MIME type: " ++ mime_type);
                Print (py "Using Project ID: " ++ project_id ++ py ", Location: "
                       ++ location ++ py ", Processor ID: " ++ processor_id);
                Request (py "process_document") mime_type]
            ++ tr)).
Proof.
  intros Hprint Hclient Hopen.
  pose proof (λ line st, faulty_print_run f line st (Hprint line)) as Hp.
  unfold Gdocai.process_document_sample, try_except, mbind, M_bind, lift, emit,
    mret, M_ret.
  rewrite !Hp, Hclient, Hopen. cbn [files trace].
  destruct (Gdocai.process_document a image_content mime_type) as [e|d].
  - destruct (exc_type e);
      try (rewrite !Hp; cbn [files trace]; eexists [Print _];
           split; [by repeat constructor|]; split; [by intros ? [=]|];
           by rewrite <- !app_assoc).
    rewrite Hp.
    destruct (Gdocai.contains _ _); [|destruct (Gdocai.contains _ _)];
      rewrite ?Hp; cbn [files trace];
      [eexists [Print _; Print _]|eexists [Print _; Print _]|eexists [Print _]];
      (split; [by repeat constructor|]; split; [by intros ? [=]|]);
      by rewrite <- !app_assoc.
  - exists []. split; [done|]. split; [done|]. by rewrite <- !app_assoc.
Qed.

Ltac prints Hp H :=
  repeat (first [rewrite Hp in H | progress cbn [fst snd files trace] in H]).

(** The outcome of a run of gdocai.py on a standard output that takes
    every line, by what the script meets on its way. *)
Lemma gdocai_main_result w f a file_path project_id location processor_id
    output_file st :
  (∀ line, Faulty.print_error f line = None) →
  (Gdocai.main w f a file_path project_id location processor_id output_file st).1
  = if eqb project_id (py "your-gcp-project-id") || eqb project_id []
       || (eqb processor_id (py "your-processor-id") || eqb processor_id [])
       || negb (Gdocai.exists_path a file_path)
    then Return (Gdocai.Exit 1)
    else
      match Gdocai.get_mime_type a file_path with
      | None => Return (Gdocai.Exit 1)
      | Some mime_type =>
          match Gdocai.make_client a location with
          | Raise e => Raise e
          | Return _ =>
              match open_rb w file_path with
              | Raise e => Raise e
              | Return image_content =>
                  match Gdocai.process_document a image_content mime_type with
                  | Raise _ => Return Gdocai.Finished
                  | Return d =>
                      if negb (eqb (Gdocai.text d) []) && truthy_str output_file
                         && negb (unwritable w (default [] output_file))
                      then
                        match Faulty.write_error f (default [] output_file)
                                (Text (Gdocai.text d)) with
                        | Some (e, _) =>
                            match exc_type e with
                            | OSError | FileNotFoundError => Return Gdocai.Finished
                            | _ => Raise e
                            end
                        | None => Return Gdocai.Finished
                        end
                      else Return Gdocai.Finished
                  end
              end
          end
      end.
Proof.
  intros Hprint.
  pose proof (λ line st, faulty_print_run f line st (Hprint line)) as Hp.
  remember (Gdocai.main w f a file_path project_id location processor_id
              output_file st) as run eqn:Hrun.
  unfold Gdocai.main in Hrun.
  destruct (eqb project_id (py "your-gcp-project-id") || eqb project_id []);
    [unfold mbind, M_bind, mret, M_ret in Hrun; prints Hp Hrun; by subst run|].
  destruct (eqb processor_id (py "your-processor-id") || eqb processor_id []);
    [unfold mbind, M_bind, mret, M_ret in Hrun; prints Hp Hrun; by subst run|].
  destruct (Gdocai.exists_path a file_path); cbn [negb orb] in *;
    [|unfold mbind, M_bind, mret, M_ret in Hrun; prints Hp Hrun; by subst run].
  destruct (Gdocai.get_mime_type a file_path) as [mime_type|] eqn:Hmime;
    cbn [truthy_str negb] in Hrun;
    [|unfold mbind, M_bind, mret, M_ret in Hrun; prints Hp Hrun; by subst run].
  destruct (eqb mime_type []) eqn:Hempty.
  { apply bool_decide_eq_true in Hempty. subst mime_type.
    by destruct (get_mime_type_not_empty a file_path). }
  cbn [negb default from_option] in Hrun. unfold id in Hrun.
  unfold Gdocai.process_document_sample, Gdocai.save_text, try_except,
    Faulty.write_file, Faulty.store, mbind, M_bind, lift, emit, raise, mret, M_ret
    in Hrun.
  prints Hp Hrun.
  destruct (Gdocai.make_client a location) as [e|[]]; [by subst run|].
  destruct (open_rb w file_path) as [e|image_content]; [by subst run|].
  cbn [files trace] in Hrun.
  destruct (Gdocai.process_document a image_content mime_type) as [e|d].
  { subst run. destruct (exc_type e); rewrite ?Hp;
      repeat (destruct (Gdocai.contains _ _)); rewrite ?Hp; cbn; by rewrite ?Hp. }
  unfold Gdocai.document_truthy in Hrun.
  destruct (eqb (Gdocai.text d) []); cbn [negb andb orb] in *.
  { subst run. destruct (Gdocai.other_fields d); cbn; by rewrite Hp. }
  prints Hp Hrun.
  destruct (truthy_str output_file); cbn [andb] in *; [|by subst run].
  destruct (unwritable w (default [] output_file)); cbn [negb] in *.
  { cbn [exc_type] in Hrun. prints Hp Hrun. by subst run. }
  destruct (Faulty.write_error f _ _) as [[e remains]|];
    [|prints Hp Hrun; by subst run].
  destruct (exc_type e); prints Hp Hrun; by subst run.
Qed.

(** C10: for a path whose extension is not in [SUPPORTED_MIME_TYPES] and
    that the system table maps to a type under [image/] or [application/],
    [get_mime_type] returns that type; it returns [None], and the script
    exits with status 1 at that check, exactly when the table has no entry
    and the fallback yields no such type.  Past the check, once the client
    is built and the file read, the script submits the content of the file
    with that type: the request follows the three lines it prints, what the
    processor answers for that content decides the rest, and a document
    with text is printed.  The checks passed, the script exits only for a
    path without MIME type. *)
Theorem gdocai_fallback_accepts_unlisted_extension w f a file_path project_id location
    processor_id output_file st :
  let extension := lower (Path.splitext file_path).2 in
  (∀ mime_type,
     Gdocai.SUPPORTED_MIME_TYPES !! extension = None →
     Gdocai.guess_type a file_path = Some mime_type →
     split_first Path.SLASH mime_type ∈ [py "image"; py "application"] →
     Gdocai.get_mime_type a file_path = Some mime_type)
  ∧ (Gdocai.get_mime_type a file_path = None
     ↔ Gdocai.SUPPORTED_MIME_TYPES !! extension = None
       ∧ ∀ m, Gdocai.guess_type a file_path = Some m →
              split_first Path.SLASH m ∉ [py "image"; py "application"])
  ∧ (eqb project_id (py "your-gcp-project-id") || eqb project_id [] = false →
     eqb processor_id (py "your-processor-id") || eqb processor_id [] = false →
     Gdocai.exists_path a file_path = true →
     (∀ line, Faulty.print_error f line = None) →
     let result :=
       Gdocai.main w f a file_path project_id location processor_id output_file st in
     (Gdocai.get_mime_type a file_path = None →
        result
        = (Return (Gdocai.Exit 1),
           State (files st)
             (trace st
              ++ [Print (py "Error: Could not determine a supported MIME type for "
                         ++ file_path);
                  Print (py "Supported extensions: .pdf, .jpg, .jpeg, .tiff, .tif, .gif, .png, .webp, .bmp")])))
     ∧ (∀ code, result.1 = Return (Gdocai.Exit code) →
                Gdocai.get_mime_type a file_path = None)
     ∧ (∀ mime_type image_content,
          Gdocai.get_mime_type a file_path = Some mime_type →
          Gdocai.make_client a location = Return () →
          open_rb w file_path = Return image_content →
          let submitted :=
            trace st
            ++ [Print (py "Attempting to process: " ++ file_path ++ py " (MIME: "
                       ++ mime_type ++ py ")");
                Print (py "Processing document: " ++ file_path
                       ++ py " with MIME type: " ++ mime_type);
                Print (py "Using Project ID: " ++ project_id ++ py ", Location: "
                       ++ location ++ py ", Processor ID: " ++ processor_id);
                Request (py "process_document") mime_type] in
          (∃ tr, trace result.2 = submitted ++ tr)
          ∧ (∀ d,
               Gdocai.process_document a image_content mime_type = Return d →
               Gdocai.text d ≠ [] → output_file = None →
               result
               = (Return Gdocai.Finished,
                  State (files st)
                    (submitted
                     ++ [Print ([LF] ++ py "--- Extracted Text ---");
                         Print (Gdocai.text d);
                         Print (py "--- End of Text ---")])))
          ∧ (∀ e,
               Gdocai.process_document a image_content mime_type = Raise e →
               result.1 = Return Gdocai.Finished
               ∧ files result.2 = files st
               ∧ last (trace result.2)
                 = Some (Print ([LF] ++ py "Failed to process document or extract text."))))).
Proof.
  intros extension. split; [|split].
  - intros mime_type Htable Hguess Hmajor.
    destruct (Gdocai.get_mime_type a file_path) as [m|] eqn:Hget.
    + revert Hget. unfold Gdocai.get_mime_type. fold extension.
      rewrite Htable, Hguess. cbn. destruct (_ && _); congruence.
    + apply get_mime_type_none in Hget as [_ Hnone].
      by destruct (Hnone mime_type Hguess).
  - apply get_mime_type_none.
  - intros Hproject Hprocessor Hexists Hprint result. subst result.
    pose proof (λ line st, faulty_print_run f line st (Hprint line)) as Hp.
    pose proof (gdocai_main_result w f a file_path project_id location processor_id
                  output_file st Hprint) as Hclosed.
    rewrite Hproject, Hprocessor, Hexists in Hclosed. cbn [negb orb] in Hclosed.
    revert Hclosed.
    remember (Gdocai.main w f a file_path project_id location processor_id
                output_file st) as result eqn:Hresult.
    intros Hclosed.
    unfold Gdocai.main in Hresult.
    rewrite Hproject, Hprocessor, Hexists in Hresult. cbn [negb] in Hresult.
    split; [|split].
    + intros Hget. rewrite Hget in Hresult. cbn [truthy_str negb] in Hresult.
      unfold mbind, M_bind, mret, M_ret in Hresult.
      rewrite !Hp in Hresult. cbn in Hresult. by rewrite <- app_assoc in Hresult.
    + intros code Hcode. rewrite Hcode in Hclosed.
      destruct (Gdocai.get_mime_type a file_path); [|done].
      repeat case_match; discriminate.
    + intros mime_type image_content Hget Hclient Hopen. rewrite Hget in Hresult.
      assert (Hne : truthy_str (Some mime_type) = true).
      { cbn. unfold eqb. case_bool_decide as Hnil; [|done].
        subst mime_type. by destruct (get_mime_type_not_empty a file_path). }
      rewrite Hne in Hresult. cbn [negb default from_option] in Hresult.
      unfold id in Hresult.
      unfold mbind at 1, M_bind at 1 in Hresult. rewrite Hp in Hresult.
      unfold mbind at 1, M_bind at 1 in Hresult.
      destruct (process_document_sample_run w f a project_id location processor_id
                  file_path mime_type image_content
                  (State (files st)
                     (trace st
                      ++ [Print (py "Attempting to process: " ++ file_path
                                 ++ py " (MIME: " ++ mime_type ++ py ")")]))
                  Hprint Hclient Hopen) as (tr & Hprints & Hnil & Hsample).
      rewrite Hsample in Hresult. clear Hsample. cbn [files trace] in Hresult.
      rewrite <- app_assoc in Hresult. cbn [app] in Hresult.
      destruct (Gdocai.process_document a image_content mime_type) as [e|d] eqn:Hd.
      * unfold mbind, M_bind, mret, M_ret in Hresult. rewrite Hp in Hresult.
        cbn [fst snd files trace] in Hresult. subst result. cbn [fst snd files trace].
        split; [|split; [by intros d [=]|intros e' _]].
        -- eexists. rewrite <- !app_assoc. cbn. reflexivity.
        -- split; [done|]. split; [done|]. by rewrite last_snoc.
      * rewrite (Hnil d eq_refl) in Hresult.
        split; [|split; [intros d' [= <-] Htext ->|by intros e [=]]].
        -- revert Hresult.
           unfold Gdocai.save_text, try_except, Faulty.write_file, Faulty.store,
             mbind, M_bind, emit, raise, mret, M_ret.
           destruct (Gdocai.document_truthy d), (eqb (Gdocai.text d) []);
             cbn [andb negb]; rewrite ?Hp; cbn [fst snd files trace];
             try (intros ->; cbn [snd trace]; eexists; rewrite <- !app_assoc; cbn;
                  reflexivity).
           destruct (truthy_str output_file); cbn [fst snd files trace];
             [|intros ->; cbn [snd trace]; eexists; rewrite <- !app_assoc; cbn;
               reflexivity].
           destruct (unwritable w _); cbn [exc_type];
             [rewrite Hp; intros ->; eexists; cbn [snd trace]; rewrite <- !app_assoc;
              cbn; reflexivity|].
           destruct (Faulty.write_error f _ _) as [[e remains]|];
             cbn [fst snd files trace].
           ++ destruct (exc_type e); rewrite ?Hp; unfold raise; intros ->;
                cbn [snd trace]; eexists; rewrite <- !app_assoc; cbn; reflexivity.
           ++ rewrite Hp. intros ->. cbn [snd trace]. eexists.
              rewrite <- !app_assoc. cbn. reflexivity.
        -- revert Hresult.
           unfold Gdocai.save_text, Gdocai.document_truthy, mbind, M_bind, mret, M_ret.
           replace (eqb (Gdocai.text d) []) with false
             by (symmetry; by apply bool_decide_eq_false).
           cbn [negb orb andb truthy_str]. rewrite !Hp. cbn [fst snd files trace].
           intros ->. by rewrite <- !app_assoc.
Qed.

Lemma gdocai_fallback_accepts_unlisted_extension_witness :
  let w := example_world [(py "in/letter.docx", [80; 75; 3; 4])] [] [] [] in
  let mime_type :=
    py "application/vnd.openxmlformats-officedocument.wordprocessingml.document" in
  Gdocai.get_mime_type (example_docai (py "Dear reader")) (py "in/letter.docx")
  = Some mime_type
  ∧ ∃ tr,
      trace (Gdocai.main w no_faults (example_docai (py "Dear reader"))
               (py "in/letter.docx") Gdocai.DEFAULT_PROJECT_ID Gdocai.DEFAULT_LOCATION
               Gdocai.DEFAULT_PROCESSOR_ID None initial).2
      = [Print (py "Attempting to process: in/letter.docx (MIME: " ++ mime_type ++ py ")");
         Print (py "Processing document: in/letter.docx with MIME type: " ++ mime_type);
         Print (py "Using Project ID: " ++ Gdocai.DEFAULT_PROJECT_ID ++ py ", Location: "
                ++ Gdocai.DEFAULT_LOCATION ++ py ", Processor ID: "
                ++ Gdocai.DEFAULT_PROCESSOR_ID);
         Request (py "process_document") mime_type] ++ tr.
Proof.
  intros w mime_type.
  destruct (gdocai_fallback_accepts_unlisted_extension w no_faults
              (example_docai (py "Dear reader")) (py "in/letter.docx")
              Gdocai.DEFAULT_PROJECT_ID Gdocai.DEFAULT_LOCATION
              Gdocai.DEFAULT_PROCESSOR_ID None initial) as (Hfallback & _ & Hmain).
  assert (Hget : Gdocai.get_mime_type (example_docai (py "Dear reader"))
                   (py "in/letter.docx") = Some mime_type).
  { apply Hfallback.
    - vm_compute. reflexivity.
    - vm_compute. reflexivity.
    - constructor 2. constructor. }
  split; [exact Hget|].
  destruct Hmain as (_ & _ & Hsubmit).
  - vm_compute. reflexivity.
  - vm_compute. reflexivity.
  - reflexivity.
  - intros line. reflexivity.
  - destruct (Hsubmit mime_type [80; 75; 3; 4] Hget) as [Hrequest _].
    + reflexivity.
    + vm_compute. reflexivity.
    + exact Hrequest.
Defined.

(** The run of the script on that [.docx]: the document is submitted with
    the type of the fallback. *)
Example gdocai_submits_docx :
  let w := example_world [(py "in/letter.docx", [80; 75; 3; 4])] [] [] [] in
  let result :=
    Gdocai.main w no_faults (example_docai (py "Dear reader")) (py "in/letter.docx")
      Gdocai.DEFAULT_PROJECT_ID Gdocai.DEFAULT_LOCATION Gdocai.DEFAULT_PROCESSOR_ID
      None initial in
  result.1 = Return Gdocai.Finished
  ∧ Request (py "process_document")
      (py "application/vnd.openxmlformats-officedocument.wordprocessingml.document")
    ∈ trace result.2.
Proof.
  vm_compute. split; [reflexivity|].
  apply list_elem_of_In. cbn. repeat (first [left; reflexivity | right]).
Qed.

(** ** Forced conversion: what the loop over the pages collects *)

Lemma pages_loop_run file_path_obj api_choice google_client azure_client images :
  ∀ i results all_text_parts all_json_responses_parts st,
    pages_return file_path_obj api_choice google_client azure_client i images results →
    ∃ tr,
      pages_loop file_path_obj api_choice google_client azure_client i images
        all_text_parts all_json_responses_parts st
      = (Return (all_text_parts ++ page_texts results,
                 all_json_responses_parts ++ page_entries i results),
         State (files st) (trace st ++ tr)).
Proof.
  induction images as [|pil_image images IH];
    intros i [|[page_text page_json] results] texts jsons st Hpages;
    try by destruct Hpages.
  - exists []. cbn. rewrite !app_nil_r. by destruct st.
  - destruct Hpages as [(img_bytes & Hsave & Hocr) Hrest].
    cbn [pages_loop]. rewrite print_bind.
    unfold convert_pil_image_to_bytes.
    unfold mbind at 1, M_bind at 1. unfold lift at 1. rewrite Hsave.
    unfold mbind at 1, M_bind at 1.
    match goal with
    | |- context [ocr_page ?a ?g ?z ?b ?n ?s] =>
        destruct (ocr_page_total a g z b n s) as (r & tr & Heq);
        specialize (Hocr s); rewrite Heq in Hocr; cbn in Hocr;
        injection Hocr as ->; rewrite Heq
    end.
    edestruct (IH (S i) results) as (tr' & ->); [exact Hrest|].
    eexists. cbn [files trace page_texts page_entries].
    destruct (truthy_str page_text), (truthy_opt page_json);
      rewrite <- ?app_assoc; reflexivity.
Qed.

Lemma pdf_to_images_run w file_path_obj api_choice google_client azure_client images
    results st :
  convert_from_path w file_path_obj None None = Return images →
  pages_return file_path_obj api_choice google_client azure_client 0 images results →
  ∃ tr,
    pdf_to_images w file_path_obj api_choice google_client azure_client st
    = (Return (Some (Some (trim_page_break (join PAGE_SEPARATOR (page_texts results))),
                     Some (JDict [(py "pages", JList (page_entries 0 results));
                                  (py "source_file", JStr (Path.name file_path_obj));
                                  (py "method", JStr (py "pdf_converted_to_images"))]))),
       State (files st) (trace st ++ tr)).
Proof.
  intros Hconvert Hpages. unfold pdf_to_images.
  rewrite print_bind. unfold try_except.
  unfold mbind at 1, M_bind at 1. unfold lift at 1. rewrite Hconvert.
  unfold mbind at 1, M_bind at 1.
  edestruct (pages_loop_run file_path_obj api_choice google_client azure_client
               images 0 results [] []) as (tr & ->); [exact Hpages|].
  eexists. cbn. rewrite <- !app_assoc. reflexivity.
Qed.

(** ** What [process_file] saves *)

(** Once the submission has yielded a text and a JSON value,
    [process_file] is the saving of the two under the time-stamped name. *)
Lemma process_file_saves w file_path_obj output_dir api_choice google_client
    azure_client force st text_content json_response st1 :
  (is_pdf file_path_obj || is_image file_path_obj) = true →
  ocr_branches w file_path_obj api_choice google_client azure_client force
    (State (files st) (trace st ++ [Print ([LF] ++ py "Processing file: " ++ file_path_obj)]))
  = (Return (Some (Some text_content, Some json_response)), st1) →
  process_file w file_path_obj output_dir api_choice google_client azure_client force st
  = save_results w
      (output_stem output_dir file_path_obj api_choice (clock w (trace st1)))
      text_content json_response st1
  ∧ files st1 = files st.
Proof.
  intros Hext Hbranch. split.
  - unfold process_file.
    unfold mbind at 1, M_bind at 1. unfold print at 1, emit at 1.
    rewrite Hext. cbn [negb].
    unfold mbind at 1, M_bind at 1. rewrite Hbranch.
    unfold mbind at 1, M_bind at 1. unfold now. reflexivity.
  - destruct (ocr_branches_quiet w file_path_obj api_choice google_client
                azure_client force
                (State (files st)
                   (trace st ++ [Print ([LF] ++ py "Processing file: " ++ file_path_obj)])))
      as (o & tr & Heq).
    rewrite Hbranch in Heq. by injection Heq as _ ->.
Qed.

(** The same when every output path can be opened. *)
Lemma process_file_saved w file_path_obj output_dir api_choice google_client
    azure_client force st text_content json_response st1 :
  (∀ path, unwritable w path = false) →
  (is_pdf file_path_obj || is_image file_path_obj) = true →
  ocr_branches w file_path_obj api_choice google_client azure_client force
    (State (files st) (trace st ++ [Print ([LF] ++ py "Processing file: " ++ file_path_obj)]))
  = (Return (Some (Some text_content, Some json_response)), st1) →
  let result :=
    process_file w file_path_obj output_dir api_choice google_client azure_client
      force st in
  result.1 = Return ()
  ∧ saved (files st) (files result.2) output_dir file_path_obj api_choice
      text_content json_response.
Proof.
  intros Hw Hext Hbranch result. subst result.
  destruct (process_file_saves w file_path_obj output_dir api_choice google_client
              azure_client force st text_content json_response st1 Hext Hbranch)
    as [-> Hfiles].
  rewrite save_results_run, !Hw. cbn [fst snd files]. rewrite Hfiles.
  split; [done|]. by exists (clock w (trace st1)).
Qed.

(** ** The JSON value saved by each way of submitting *)

Section persisted_json.

Variable w : world.
Hypothesis writable : ∀ path, unwritable w path = false.
Variables file_path_obj output_dir : str.
Variable st : state.

Let entered : state :=
  State (files st) (trace st ++ [Print ([LF] ++ py "Processing file: " ++ file_path_obj)]).

Lemma forced_conversion_saves api_choice google_client azure_client images results :
  is_pdf file_path_obj = true →
  convert_from_path w file_path_obj None None = Return images →
  pages_return file_path_obj api_choice google_client azure_client 0 images results →
  let result :=
    process_file w file_path_obj output_dir api_choice google_client azure_client
      true st in
  result.1 = Return ()
  ∧ saved (files st) (files result.2) output_dir file_path_obj api_choice
      (trim_page_break (join PAGE_SEPARATOR (page_texts results)))
      (JDict [(py "pages", JList (page_entries 0 results));
              (py "source_file", JStr (Path.name file_path_obj));
              (py "method", JStr (py "pdf_converted_to_images"))]).
Proof.
  intros Hpdf Hconvert Hpages.
  destruct (pdf_to_images_run w file_path_obj api_choice google_client azure_client
              images results entered Hconvert Hpages) as (tr & Hrun).
  eapply process_file_saved; [done|by rewrite Hpdf|].
  unfold ocr_branches. rewrite Hpdf. cbn [andb negb]. exact Hrun.
Qed.

Lemma google_image_run client image_bytes original_filename response s :
  document_text_detection client image_bytes = Return response →
  error_message response = [] →
  ocr_google_image_bytes (Some client) image_bytes original_filename s
  = (Return (Some (default [] (full_text_annotation response)),
             Some (JDict (pb response))), s).
Proof.
  intros Hcall Herr. unfold ocr_google_image_bytes, try_except.
  unfold mbind, M_bind, lift. rewrite Hcall, Herr. by destruct s.
Qed.

Lemma direct_image_google_saves client azure_client force image_bytes response :
  is_pdf file_path_obj = false →
  is_image file_path_obj = true →
  open_rb w file_path_obj = Return image_bytes →
  document_text_detection client image_bytes = Return response →
  error_message response = [] →
  let result :=
    process_file w file_path_obj output_dir (py "google") (Some client) azure_client
      force st in
  result.1 = Return ()
  ∧ saved (files st) (files result.2) output_dir file_path_obj (py "google")
      (default [] (full_text_annotation response)) (JDict (pb response)).
Proof.
  intros Hpdf Himage Hopen Hcall Herr.
  eapply process_file_saved; [done|by rewrite Hpdf, Himage|].
  unfold ocr_branches. rewrite Hpdf. cbn [andb].
  unfold image_file. rewrite print_bind. unfold try_except.
  unfold mbind at 1, M_bind at 1. unfold lift at 1. rewrite Hopen.
  replace (eqb (py "google") (py "google")) with true by (vm_compute; reflexivity).
  unfold mbind at 1, M_bind at 1.
  rewrite (google_image_run client image_bytes _ response _ Hcall Herr).
  reflexivity.
Qed.

Lemma direct_pdf_google_saves client azure_client pdf_content file_response others :
  is_pdf file_path_obj = true →
  open_rb w file_path_obj = Return pdf_content →
  async_batch_annotate_files client pdf_content
    = Return (Return (file_response :: others)) →
  let result :=
    process_file w file_path_obj output_dir (py "google") (Some client) azure_client
      false st in
  result.1 = Return ()
  ∧ saved (files st) (files result.2) output_dir file_path_obj (py "google")
      (trim_page_break (google_pdf_pages 0 file_response [] []).1)
      (JDict [(py "pages", JList (google_pdf_pages 0 file_response [] []).2);
              (py "source_file", JStr (Path.name file_path_obj))]).
Proof.
  intros Hpdf Hopen Hcall.
  eapply process_file_saved; [done|by rewrite Hpdf|].
  unfold ocr_branches. rewrite Hpdf. cbn [andb negb].
  unfold direct_pdf. rewrite print_bind.
  replace (eqb (py "google") (py "google")) with true by (vm_compute; reflexivity).
  unfold ocr_google_pdf, try_except.
  unfold mbind at 1, M_bind at 1.
  unfold mbind at 1, M_bind at 1. unfold lift at 1. rewrite Hopen.
  unfold mbind at 1, M_bind at 1. unfold lift at 1. rewrite Hcall.
  rewrite print_bind.
  unfold mbind at 1, M_bind at 1. unfold lift at 1.
  destruct (google_pdf_pages 0 file_response [] []) as [all_text pages].
  reflexivity.
Qed.

Lemma direct_azure_saves client google_client force stream headers location pre last
    rest ar :
  (is_pdf file_path_obj || is_image file_path_obj) = true →
  is_pdf file_path_obj && force = false →
  open_rb w file_path_obj = Return stream →
  read_in_stream client stream = Return headers →
  headers_get (py "Operation-Location") headers = Return location →
  get_read_result client (split_last Path.SLASH location)
    = (Return <$> pre) ++ Return last :: rest →
  Forall (λ r, in_progress (status r) = true) pre →
  status last = OperationStatusCodes_succeeded →
  analyze_result last = Some ar →
  let text_content := azure_text (read_results ar) [] in
  let result :=
    process_file w file_path_obj output_dir (py "azure") google_client (Some client)
      force st in
  result.1 = Return ()
  ∧ saved (files st) (files result.2) output_dir file_path_obj (py "azure")
      (if negb (eqb text_content [])
       then strip (drop_last (length PAGE_SEPARATOR) text_content)
       else text_content)
      (JDict (as_dict last)).
Proof.
  intros Hext Hdirect Hopen Hsubmit Hloc Hscript Hpre Hstatus Har text_content.
  assert (Hlast : in_progress (status last) = false).
  { rewrite Hstatus. vm_compute. reflexivity. }
  pose proof (λ s, ocr_azure_read_stream_script client stream
                     (Path.name file_path_obj) s headers location pre last rest
                     Hsubmit Hloc Hscript Hpre Hlast) as Hrun.
  cbv zeta in Hrun. rewrite Hstatus, Har in Hrun.
  replace (eqb OperationStatusCodes_succeeded OperationStatusCodes_succeeded)
    with true in Hrun by (vm_compute; reflexivity).
  assert (Hgoogle : eqb (py "azure") (py "google") = false) by (vm_compute; reflexivity).
  assert (Hazure : eqb (py "azure") (py "azure") = true) by (vm_compute; reflexivity).
  destruct (is_pdf file_path_obj) eqn:Hpdf; cbn [andb] in Hdirect.
  - subst force.
    eapply process_file_saved; [done|by rewrite Hpdf|].
    unfold ocr_branches. rewrite Hpdf. cbn [andb negb].
    unfold direct_pdf. rewrite print_bind, Hgoogle, Hazure.
    unfold mbind at 1, M_bind at 1. unfold lift at 1. rewrite Hopen.
    unfold mbind at 1, M_bind at 1. rewrite Hrun. reflexivity.
  - eapply process_file_saved; [done|by rewrite Hpdf|].
    unfold ocr_branches. rewrite Hpdf. cbn [andb].
    unfold image_file. rewrite print_bind. unfold try_except.
    unfold mbind at 1, M_bind at 1. unfold lift at 1. rewrite Hopen.
    rewrite Hgoogle, Hazure.
    unfold mbind at 1, M_bind at 1. rewrite Hrun. reflexivity.
Qed.

End persisted_json.

Lemma entry_page_entry n j :
  entry_page (JDict [(py "page", JInt n); (py "response", j)]) = Some n.
Proof. vm_compute. reflexivity. Qed.

(** The ordinals of the entries are those of pages after the [i]-th, and
    they increase. *)
Lemma ordinals_page_entries i results :
  Forall (λ n, Z.of_nat i < n ≤ Z.of_nat (i + length results))%Z
    (ordinals (page_entries i results))
  ∧ StronglySorted Z.lt (ordinals (page_entries i results)).
Proof.
  unfold ocr_result in *. revert i. induction results as [|[page_text page_json] results IH]; intros i.
  { split; constructor. }
  destruct (IH (S i)) as [Hbound Hsorted].
  assert (Hbound' :
    Forall (λ n, Z.of_nat (S i) < n ∧ Z.of_nat i < n
                 ≤ Z.of_nat (i + length ((page_text, page_json) :: results)))%Z
      (ordinals (page_entries (S i) results))).
  { eapply Forall_impl; [exact Hbound|]. intros n Hn. cbn [length] in *.
    cbn beta in *. lia. }
  cbn [page_entries]. unfold ordinals in *.
  destruct (truthy_opt page_json); cbn [app omap list_omap].
  - rewrite entry_page_entry. split.
    + constructor; [cbn [length]; lia|].
      eapply Forall_impl; [exact Hbound'|]. intros n ?. cbn beta in *. lia.
    + constructor; [done|].
      eapply Forall_impl; [exact Hbound'|]. intros n ?. cbn beta in *. lia.
  - split; [|done].
    eapply Forall_impl; [exact Hbound'|]. intros n ?. cbn beta in *. lia.
Qed.

(** Every entry records the ordinal of a page together with the JSON
    object its submission returned. *)
Lemma page_entries_verbatim i results e :
  e ∈ page_entries i results →
  ∃ k page_text page_json,
    results !! k = Some (page_text, Some page_json)
    ∧ e = JDict [(py "page", JInt (Z.of_nat (S (i + k)))); (py "response", page_json)].
Proof.
  revert i. induction results as [|[page_text page_json] results IH]; intros i.
  { by intros ?%elem_of_nil. }
  cbn [page_entries]. intros [He|He]%elem_of_app.
  - destruct page_json as [j|]; cbn in He; [|by apply elem_of_nil in He].
    destruct (truthy j); [|by apply elem_of_nil in He].
    apply list_elem_of_singleton in He as ->.
    exists 0%nat, page_text, j. split; [done|]. by replace (i + 0)%nat with i by lia.
  - destruct (IH (S i) He) as (k & t & j & Hk & ->).
    exists (S k), t, j. split; [done|].
    by replace (S i + k)%nat with (i + S k)%nat by lia.
Qed.

(** C7, as the code has it: under forced per-page conversion the JSON
    saved is the envelope [{pages, source_file, method:
    "pdf_converted_to_images"}], whose [pages] hold, in submission order and
    with increasing ordinals, the 1-based ordinal of every page whose
    submission returned a non-empty object together with that object as it
    is.  The direct submissions save no such envelope: an image sent to
    Google saves the raw response, a PDF sent to Google saves [{pages,
    source_file}] without [method], and a file sent to Azure saves the raw
    result of the read operation. *)
Theorem persisted_json_by_submission w file_path_obj output_dir st :
  (∀ path, unwritable w path = false) →
  (∀ api_choice google_client azure_client images results,
     is_pdf file_path_obj = true →
     convert_from_path w file_path_obj None None = Return images →
     pages_return file_path_obj api_choice google_client azure_client 0 images results →
     let entries := page_entries 0 results in
     let result :=
       process_file w file_path_obj output_dir api_choice google_client azure_client
         true st in
     result.1 = Return ()
     ∧ saved (files st) (files result.2) output_dir file_path_obj api_choice
         (trim_page_break (join PAGE_SEPARATOR (page_texts results)))
         (JDict [(py "pages", JList entries);
                 (py "source_file", JStr (Path.name file_path_obj));
                 (py "method", JStr (py "pdf_converted_to_images"))])
     ∧ StronglySorted Z.lt (ordinals entries)
     ∧ ∀ e, e ∈ entries →
         ∃ k page_text page_json,
           results !! k = Some (page_text, Some page_json)
           ∧ e = JDict [(py "page", JInt (Z.of_nat (S k)));
                        (py "response", page_json)])
  ∧ (∀ client azure_client force image_bytes response,
       is_pdf file_path_obj = false →
       is_image file_path_obj = true →
       open_rb w file_path_obj = Return image_bytes →
       document_text_detection client image_bytes = Return response →
       error_message response = [] →
       let result :=
         process_file w file_path_obj output_dir (py "google") (Some client)
           azure_client force st in
       result.1 = Return ()
       ∧ saved (files st) (files result.2) output_dir file_path_obj (py "google")
           (default [] (full_text_annotation response)) (JDict (pb response)))
  ∧ (∀ client azure_client pdf_content file_response others,
       is_pdf file_path_obj = true →
       open_rb w file_path_obj = Return pdf_content →
       async_batch_annotate_files client pdf_content
         = Return (Return (file_response :: others)) →
       let result :=
         process_file w file_path_obj output_dir (py "google") (Some client)
           azure_client false st in
       result.1 = Return ()
       ∧ saved (files st) (files result.2) output_dir file_path_obj (py "google")
           (trim_page_break (google_pdf_pages 0 file_response [] []).1)
           (JDict [(py "pages", JList (google_pdf_pages 0 file_response [] []).2);
                   (py "source_file", JStr (Path.name file_path_obj))]))
  ∧ (∀ client google_client force stream headers location pre last rest ar,
       (is_pdf file_path_obj || is_image file_path_obj) = true →
       is_pdf file_path_obj && force = false →
       open_rb w file_path_obj = Return stream →
       read_in_stream client stream = Return headers →
       headers_get (py "Operation-Location") headers = Return location →
       get_read_result client (split_last Path.SLASH location)
         = (Return <$> pre) ++ Return last :: rest →
       Forall (λ r, in_progress (status r) = true) pre →
       status last = OperationStatusCodes_succeeded →
       analyze_result last = Some ar →
       let text_content := azure_text (read_results ar) [] in
       let result :=
         process_file w file_path_obj output_dir (py "azure") google_client
           (Some client) force st in
       result.1 = Return ()
       ∧ saved (files st) (files result.2) output_dir file_path_obj (py "azure")
           (if negb (eqb text_content [])
            then strip (drop_last (length PAGE_SEPARATOR) text_content)
            else text_content)
           (JDict (as_dict last))).
Proof.
  intros Hw. repeat split.
  - eapply forced_conversion_saves; eauto.
  - eapply forced_conversion_saves; eauto.
  - apply ordinals_page_entries.
  - intros e He. destruct (page_entries_verbatim 0 results e He)
      as (k & t & j & Hk & ->). eauto.
  - eapply direct_image_google_saves; eauto.
  - eapply direct_image_google_saves; eauto.
  - eapply direct_pdf_google_saves; eauto.
  - eapply direct_pdf_google_saves; eauto.
  - eapply direct_azure_saves; eauto.
  - eapply direct_azure_saves; eauto.
Qed.

Lemma persisted_json_by_submission_witness :
  let w := example_world [] []
             [(py "in/doc.pdf", [page_image (py "p1"); page_image (py "p2")])] [] in
  let azure :=
    azure_by_page [(py "p1", answer (py "succeeded") [[py "first"]]);
                   (py "p2", answer (py "succeeded") [[py "second"]])] in
  let result :=
    process_file w (py "in/doc.pdf") (py "out") (py "azure") None (Some azure) true
      initial in
  result.1 = Return ()
  ∧ saved (files initial) (files result.2) (py "out") (py "in/doc.pdf") (py "azure")
      (py "first" ++ PAGE_SEPARATOR ++ py "second")
      (JDict [(py "pages",
               JList [JDict [(py "page", JInt 1);
                             (py "response", JDict [(py "status", JStr (py "succeeded"))])];
                      JDict [(py "page", JInt 2);
                             (py "response", JDict [(py "status", JStr (py "succeeded"))])]]);
              (py "source_file", JStr (py "doc.pdf"));
              (py "method", JStr (py "pdf_converted_to_images"))]).
Proof.
  intros w azure result.
  assert (Hw : ∀ path, unwritable w path = false) by (intros path; reflexivity).
  destruct (persisted_json_by_submission w (py "in/doc.pdf") (py "out") initial Hw)
    as (Hforced & _).
  destruct (Hforced (py "azure") None (Some azure)
              [page_image (py "p1"); page_image (py "p2")]
              [(Some (py "first"), Some (JDict [(py "status", JStr (py "succeeded"))]));
               (Some (py "second"), Some (JDict [(py "status", JStr (py "succeeded"))]))])
    as (Hreturn & Hsaved & _).
  - vm_compute. reflexivity.
  - vm_compute. reflexivity.
  - split; [|split; [|exact I]].
    + exists (py "p1"). split; [reflexivity|]. intros st. vm_compute. reflexivity.
    + exists (py "p2"). split; [reflexivity|]. intros st. vm_compute. reflexivity.
  - split; [exact Hreturn|].
    destruct Hsaved as (d & Hsaved). exists d. subst result. rewrite Hsaved.
    repeat f_equal; vm_compute; reflexivity.
Defined.

(** C7 as stated fails: an image submitted directly to Google is saved with
    the raw response of the provider, which is no envelope. *)
Lemma direct_image_json_is_no_envelope :
  let w := example_world [(py "in/b.png", [1; 2; 3])] [] [] [] in
  let result :=
    process_file w (py "in/b.png") (py "out") (py "google")
      (Some (scripted_google (Return hello_response))) None false initial in
  ∃ j,
    files result.2 !! py "out/b_google_20250603-140509.json" = Some (JsonDoc j)
    ∧ j = JDict [(py "fullTextAnnotation", JDict [(py "text", JStr (py "hello"))])]
    ∧ is_envelope j = false.
Proof.
  eexists. split; [vm_compute; reflexivity|]. split; vm_compute; reflexivity.
Qed.

(** ** Occurrences of a pattern in joined and stripped texts *)

Lemma startswith_nil_pattern s : startswith s [] = true.
Proof. by destruct s. Qed.

Lemma startswith_app p s v : startswith s p = true → startswith (s ++ v) p = true.
Proof.
  revert s. induction p as [|a q IH]; intros s; [by rewrite !startswith_nil_pattern|].
  destruct s as [|c s]; [done|]. cbn.
  intros [-> Hs]%andb_true_iff. cbn. by apply IH.
Qed.

Lemma startswith_spec p s : startswith s p = true ↔ ∃ v, s = p ++ v.
Proof.
  revert s. induction p as [|a q IH]; intros s.
  { rewrite startswith_nil_pattern. split; [|done]. by exists s. }
  destruct s as [|c s]; cbn.
  { split; [done|]. by intros [v [=]]. }
  rewrite andb_true_iff, IH, N.eqb_eq. split.
  - intros [-> [v ->]]. by exists v.
  - intros [v [= -> ->]]. split; [done|]. by exists v.
Qed.

(** A character that is not in the pattern ends every match before it. *)
Lemma startswith_before p c s v :
  c ∉ p → startswith (s ++ c :: v) p = startswith s p.
Proof.
  revert s. induction p as [|a q IH]; intros s Hc;
    [by rewrite !startswith_nil_pattern|].
  apply not_elem_of_cons in Hc as [Hca Hcq].
  destruct s as [|b s]; cbn.
  - replace (a =? c) with false; [done|].
    symmetry. apply N.eqb_neq. congruence.
  - by rewrite IH.
Qed.

Lemma occurrences_before p c s v :
  c ∉ p → p ≠ [] →
  occurrences p (s ++ c :: v) = (occurrences p s + occurrences p v)%nat.
Proof.
  intros Hc Hp. induction s as [|b s IH].
  - pose proof (startswith_before p c [] v Hc) as H.
    cbn [app occurrences] in *. rewrite H. by destruct p.
  - pose proof (startswith_before p c (b :: s) v Hc) as H.
    cbn [app occurrences] in *. rewrite H, IH. lia.
Qed.

Lemma occurrences_app_ge p u s : (occurrences p s ≤ occurrences p (u ++ s))%nat.
Proof. induction u as [|b u IH]; cbn [app occurrences]; lia. Qed.

Lemma occurrences_self p : p ≠ [] → (1 ≤ occurrences p p)%nat.
Proof.
  intros Hp. destruct p as [|a q] eqn:Hpq; [done|].
  cbn [occurrences]. rewrite <- Hpq.
  replace (startswith p p) with true; [lia|].
  symmetry. apply startswith_spec. exists []. by rewrite app_nil_r.
Qed.

Lemma endswith_occurs p s : p ≠ [] → endswith s p = true → (1 ≤ occurrences p s)%nat.
Proof.
  intros Hp [v Hv]%startswith_spec.
  apply (f_equal reverse) in Hv. rewrite reverse_involutive, reverse_app,
    reverse_involutive in Hv. subst s.
  etransitivity; [by apply occurrences_self|]. apply occurrences_app_ge.
Qed.

Lemma endswith_after p c s v : c ∉ p → endswith (s ++ c :: v) p = endswith v p.
Proof.
  intros Hc. unfold endswith.
  rewrite reverse_app, reverse_cons, <- app_assoc. cbn [app].
  apply startswith_before. by rewrite elem_of_reverse.
Qed.

Lemma lstrip_suffix s : ∃ ws, s = ws ++ lstrip s.
Proof.
  induction s as [|c s [ws IH]]; [by exists []|]. cbn [lstrip].
  destruct (isspace c); [|by exists []].
  exists (c :: ws). cbn. by rewrite <- IH.
Qed.

Lemma endswith_lstrip p s : endswith (lstrip s) p = true → endswith s p = true.
Proof.
  destruct (lstrip_suffix s) as [ws Hs]. intros H. rewrite Hs. unfold endswith in *.
  rewrite reverse_app. by apply startswith_app.
Qed.

(** Stripping on the left keeps the matches of a pattern that starts with
    a character that is not white space. *)
Lemma occurrences_lstrip p s :
  (∃ a, head p = Some a ∧ isspace a = false) →
  occurrences p (lstrip s) = occurrences p s.
Proof.
  intros (a & Ha & Hspace). induction s as [|c s IH]; [done|]. cbn [lstrip].
  destruct (isspace c) eqn:Hc; [|done].
  rewrite IH. cbn [occurrences].
  destruct p as [|a' q]; [done|]. injection Ha as ->. cbn [startswith].
  replace (a =? c) with false; [done|].
  symmetry. apply N.eqb_neq. congruence.
Qed.

(** Stripping on the right keeps the matches of a pattern that ends with a
    character that is not white space. *)
Lemma startswith_rstrip p s :
  (∀ a, last p = Some a → isspace a = false) →
  startswith (rstrip s) p = startswith s p.
Proof.
  revert p. induction s as [|c s IH]; intros p Hlast; [done|].
  destruct p as [|a q]; [by rewrite !startswith_nil_pattern|].
  assert (Hq : ∀ b, last q = Some b → isspace b = false).
  { intros b Hb. apply Hlast. destruct q; [done|]. exact Hb. }
  cbn [rstrip startswith]. rewrite <- (IH q Hq).
  destruct (rstrip s) as [|b t] eqn:Hs.
  - destruct (isspace c) eqn:Hc; [|done].
    cbn. destruct q as [|b q]; [|by rewrite andb_false_r].
    rewrite andb_true_r. symmetry. apply N.eqb_neq. intros ->.
    specialize (Hlast c eq_refl). congruence.
  - done.
Qed.

Lemma occurrences_rstrip p s :
  p ≠ [] →
  (∀ a, last p = Some a → isspace a = false) →
  occurrences p (rstrip s) = occurrences p s.
Proof.
  intros Hp Hlast. induction s as [|c s IH]; [done|].
  pose proof (startswith_rstrip p (c :: s) Hlast) as Hstart.
  cbn [rstrip] in *. cbn [occurrences]. rewrite <- IH, <- Hstart.
  destruct (rstrip s) as [|b t].
  - destruct (isspace c); [by destruct p|done].
  - done.
Qed.

Lemma occurrences_strip p s :
  (∃ a, head p = Some a ∧ isspace a = false) →
  (∀ a, last p = Some a → isspace a = false) →
  occurrences p (strip s) = occurrences p s.
Proof.
  intros Hfirst Hlast. unfold strip.
  rewrite occurrences_lstrip by done. apply occurrences_rstrip; [|done].
  destruct Hfirst as (a & Ha & _). by destruct p.
Qed.

(** Stripping on the right stops in a part that is not blank. *)
Lemma rstrip_app s v :
  (∃ c, c ∈ v ∧ isspace c = false) → rstrip (s ++ v) = s ++ rstrip v.
Proof.
  intros Hv.
  assert (Hne : rstrip v ≠ []).
  { destruct Hv as (c & Hc & Hspace). induction v as [|b v IH]; [by apply elem_of_nil in Hc|].
    cbn [rstrip]. apply elem_of_cons in Hc as [<-|Hc].
    - destruct (rstrip v); [by rewrite Hspace|done].
    - specialize (IH Hc). by destruct (rstrip v). }
  induction s as [|b s IH]; [done|].
  cbn [app rstrip]. rewrite IH.
  destruct (s ++ rstrip v) eqn:Hs; [|done].
  apply app_eq_nil in Hs as [_ Hs]. by destruct Hne.
Qed.

(** ** The page breaks of the merged text *)

Lemma PAGE_SEPARATOR_eq : PAGE_SEPARATOR = LF :: LF :: PAGE_BREAK ++ [LF; LF].
Proof. vm_compute. reflexivity. Qed.

Lemma PAGE_BREAK_no_LF : LF ∉ PAGE_BREAK.
Proof.
  intros H. apply list_elem_of_In in H. vm_compute in H.
  repeat (destruct H as [H|H]; [discriminate|]). exact H.
Qed.

Lemma PAGE_BREAK_not_empty : PAGE_BREAK ≠ [].
Proof. vm_compute. discriminate. Qed.

Lemma PAGE_BREAK_first : ∃ a, head PAGE_BREAK = Some a ∧ isspace a = false.
Proof. exists 45. split; vm_compute; reflexivity. Qed.

Lemma PAGE_BREAK_last a : last PAGE_BREAK = Some a → isspace a = false.
Proof. intros H. vm_compute in H. injection H as <-. reflexivity. Qed.

Lemma PAGE_BREAK_once : occurrences PAGE_BREAK PAGE_BREAK = 1%nat.
Proof. vm_compute. reflexivity. Qed.

Lemma occurrences_join parts :
  parts ≠ [] →
  Forall (λ t, occurrences PAGE_BREAK t = 0%nat) parts →
  occurrences PAGE_BREAK (join PAGE_SEPARATOR parts) = (length parts - 1)%nat.
Proof.
  intros Hne Hparts. induction Hparts as [|t parts Ht Hparts IH]; [done|].
  destruct parts as [|t' parts]; [cbn; lia|].
  change (join PAGE_SEPARATOR (t :: t' :: parts))
    with (t ++ PAGE_SEPARATOR ++ join PAGE_SEPARATOR (t' :: parts)).
  set (rest := join PAGE_SEPARATOR (t' :: parts)) in *.
  rewrite PAGE_SEPARATOR_eq.
  replace (t ++ (LF :: LF :: PAGE_BREAK ++ [LF; LF]) ++ rest)
    with (t ++ LF :: ([] ++ LF :: (PAGE_BREAK ++ LF :: ([] ++ LF :: rest))))
    by (cbn; by rewrite <- app_assoc).
  rewrite !occurrences_before
    by (apply PAGE_BREAK_no_LF || apply PAGE_BREAK_not_empty).
  rewrite Ht, PAGE_BREAK_once, IH by done.
  replace (occurrences PAGE_BREAK []) with 0%nat by reflexivity.
  cbn [length]. lia.
Qed.

(** The joined text ends with its last part, after nothing or after a line
    feed. *)
Lemma join_last sep parts t :
  last parts = Some t →
  last sep = Some LF →
  ∃ pre, join sep parts = pre ++ t ∧ (pre = [] ∨ ∃ x, pre = x ++ [LF]).
Proof.
  intros Hlast Hsep. induction parts as [|t0 parts IH]; [done|].
  destruct parts as [|t1 parts].
  - injection Hlast as ->. exists []. split; [done|by left].
  - destruct IH as (pre & Hjoin & Hpre); [done|].
    change (join sep (t0 :: t1 :: parts)) with (t0 ++ sep ++ join sep (t1 :: parts)).
    rewrite Hjoin. exists (t0 ++ sep ++ pre). split; [by rewrite <- !app_assoc|].
    right. destruct Hpre as [->|[x ->]].
    + apply last_Some in Hsep as [sep' ->]. exists (t0 ++ sep').
      by rewrite app_nil_r, <- app_assoc.
    + exists (t0 ++ sep ++ x). by rewrite <- !app_assoc.
Qed.

Lemma merged_text_breaks parts t :
  Forall (λ t, occurrences PAGE_BREAK t = 0%nat) parts →
  last parts = Some t →
  not_blank t →
  occurrences PAGE_BREAK (trim_page_break (join PAGE_SEPARATOR parts))
  = (length parts - 1)%nat.
Proof.
  intros Hparts Hlast Hblank.
  assert (Hne : parts ≠ []) by (by destruct parts).
  assert (Ht : occurrences PAGE_BREAK t = 0%nat).
  { apply last_Some in Hlast as [front ->].
    by apply Forall_app in Hparts as [_ [? _]%Forall_cons]. }
  set (text := join PAGE_SEPARATOR parts).
  assert (Hend : endswith (strip text) PAGE_BREAK = false).
  { destruct (endswith (strip text) PAGE_BREAK) eqn:Hends; [|done].
    exfalso. apply endswith_lstrip in Hends.
    destruct (join_last PAGE_SEPARATOR parts t Hlast) as (pre & Hjoin & Hpre).
    { vm_compute. reflexivity. }
    fold text in Hjoin. rewrite Hjoin, rstrip_app in Hends by done.
    assert (Hlast_part : endswith (rstrip t) PAGE_BREAK = true).
    { destruct Hpre as [->|[x ->]]; [done|].
      rewrite <- app_assoc in Hends. cbn [app] in Hends.
      by rewrite endswith_after in Hends by apply PAGE_BREAK_no_LF. }
    apply endswith_occurs in Hlast_part; [|apply PAGE_BREAK_not_empty].
    rewrite occurrences_rstrip in Hlast_part
      by (apply PAGE_BREAK_not_empty || apply PAGE_BREAK_last).
    lia. }
  unfold trim_page_break. fold text.
  destruct (negb (eqb text [])); [|by apply occurrences_join].
  cbv zeta. rewrite Hend.
  rewrite occurrences_strip by (apply PAGE_BREAK_first || apply PAGE_BREAK_last).
  by apply occurrences_join.
Qed.

Lemma pages_return_length file_path_obj api_choice google_client azure_client images :
  ∀ i results,
    pages_return file_path_obj api_choice google_client azure_client i images results →
    length images = length results.
Proof.
  induction images as [|pil_image images IH]; intros i [|r results] H;
    try by destruct H.
  destruct H as [_ H]. cbn [length]. f_equal. by eapply IH.
Qed.

Lemma page_texts_with_text results :
  Forall page_with_text results →
  page_texts results = (λ r : ocr_result, default [] r.1) <$> results.
Proof.
  induction 1 as [|r results (t & j & -> & Ht & _) _ IH]; [done|].
  cbn [page_texts fmap list_fmap]. rewrite IH. cbn.
  unfold eqb. by rewrite bool_decide_eq_false_2.
Qed.

Lemma page_entries_with_text results :
  Forall page_with_text results →
  ∀ i,
    length (page_entries i results) = length results
    ∧ ordinals (page_entries i results) = Z.of_nat <$> seq (S i) (length results).
Proof.
  induction 1 as [|r results (t & j & -> & _ & _ & Hj) _ IH]; intros i; [done|].
  destruct (IH (S i)) as [Hlen Hord].
  cbn [page_entries truthy_opt]. rewrite Hj. cbn [app length seq fmap list_fmap].
  unfold ordinals in *. cbn [omap list_omap]. rewrite entry_page_entry.
  split; [by rewrite Hlen|]. f_equal. exact Hord.
Qed.

(** C3, as the code has it: for a PDF of [N ≥ 1] pages under forced
    conversion, when the submission of every page returns a text that is
    not empty and does not contain the page-break literal, together with a
    JSON object that is not empty, and the text of the last page is not
    blank, the text saved contains exactly [N - 1] occurrences of
    ["--- Page Break ---"] and the [pages] of the envelope saved have
    exactly [N] entries, with the ordinals [1, ..., N] in this order. *)
Theorem forced_conversion_page_breaks w file_path_obj output_dir api_choice
    google_client azure_client st images results r t :
  (∀ path, unwritable w path = false) →
  is_pdf file_path_obj = true →
  convert_from_path w file_path_obj None None = Return images →
  pages_return file_path_obj api_choice google_client azure_client 0 images results →
  Forall page_with_text results →
  last results = Some r → r.1 = Some t → not_blank t →
  let N := length images in
  let result :=
    process_file w file_path_obj output_dir api_choice google_client azure_client
      true st in
  (1 ≤ N)%nat
  ∧ result.1 = Return ()
  ∧ ∃ text entries,
      saved (files st) (files result.2) output_dir file_path_obj api_choice text
        (JDict [(py "pages", JList entries);
                (py "source_file", JStr (Path.name file_path_obj));
                (py "method", JStr (py "pdf_converted_to_images"))])
      ∧ occurrences PAGE_BREAK text = (N - 1)%nat
      ∧ length entries = N
      ∧ ordinals entries = Z.of_nat <$> seq 1 N.
Proof.
  intros Hw Hpdf Hconvert Hpages Htexts Hlast Hr Hblank N result.
  assert (HN : N = length results) by (by eapply pages_return_length).
  destruct (forced_conversion_saves w Hw file_path_obj output_dir st api_choice
              google_client azure_client images results Hpdf Hconvert Hpages)
    as [Hreturn Hsaved].
  destruct (page_entries_with_text results Htexts 0) as [Hlen Hord].
  split; [|split; [exact Hreturn|]].
  { rewrite HN. destruct results; [done|cbn; lia]. }
  eexists _, _. split; [exact Hsaved|]. rewrite HN.
  split; [|by split].
  rewrite page_texts_with_text by done.
  erewrite merged_text_breaks; [by rewrite length_fmap| | |exact Hblank].
  - apply Forall_fmap. eapply Forall_impl; [exact Htexts|].
    by intros ? (t' & j & -> & _ & Hocc & _).
  - by rewrite fmap_last, Hlast; cbn; rewrite Hr.
Qed.

Lemma forced_conversion_page_breaks_witness :
  let w := example_world [] []
             [(py "in/doc.pdf", [page_image (py "p1"); page_image (py "p2")])] [] in
  let azure :=
    azure_by_page [(py "p1", answer (py "succeeded") [[py "first"]]);
                   (py "p2", answer (py "succeeded") [[py "second"]])] in
  let result :=
    process_file w (py "in/doc.pdf") (py "out") (py "azure") None (Some azure) true
      initial in
  result.1 = Return ()
  ∧ ∃ text entries,
      saved (files initial) (files result.2) (py "out") (py "in/doc.pdf") (py "azure")
        text
        (JDict [(py "pages", JList entries);
                (py "source_file", JStr (Path.name (py "in/doc.pdf")));
                (py "method", JStr (py "pdf_converted_to_images"))])
      ∧ occurrences PAGE_BREAK text = 1%nat
      ∧ length entries = 2%nat
      ∧ ordinals entries = [1%Z; 2%Z].
Proof.
  intros w azure result.
  assert (Hw : ∀ path, unwritable w path = false) by (intros path; reflexivity).
  destruct (forced_conversion_page_breaks w (py "in/doc.pdf") (py "out") (py "azure")
              None (Some azure) initial
              [page_image (py "p1"); page_image (py "p2")]
              [(Some (py "first"), Some (JDict [(py "status", JStr (py "succeeded"))]));
               (Some (py "second"), Some (JDict [(py "status", JStr (py "succeeded"))]))]
              (Some (py "second"), Some (JDict [(py "status", JStr (py "succeeded"))]))
              (py "second") Hw) as (_ & Hreturn & Hsaved).
  - vm_compute. reflexivity.
  - vm_compute. reflexivity.
  - split; [|split; [|exact I]].
    + exists (py "p1"). split; [reflexivity|]. intros st. vm_compute. reflexivity.
    + exists (py "p2"). split; [reflexivity|]. intros st. vm_compute. reflexivity.
  - repeat constructor; eexists _, _;
      (split; [reflexivity|]); (split; [vm_compute; discriminate|]);
      split; vm_compute; reflexivity.
  - reflexivity.
  - reflexivity.
  - exists 115. split; [vm_compute; constructor|reflexivity].
  - split; [exact Hreturn|exact Hsaved].
Defined.

(** C3 as stated fails: in a two-page PDF under forced conversion, Azure
    succeeds on both pages and finds no line on the first; both results
    are returned, the [pages] have their two entries, and the text saved
    has no page break. *)
Lemma forced_conversion_empty_page_has_no_break :
  let w := example_world [] []
             [(py "in/doc.pdf", [page_image (py "p1"); page_image (py "p2")])] [] in
  let azure :=
    azure_by_page [(py "p1", answer (py "succeeded") [[]]);
                   (py "p2", answer (py "succeeded") [[py "second"]])] in
  let result :=
    process_file w (py "in/doc.pdf") (py "out") (py "azure") None (Some azure) true
      initial in
  pages_return (py "in/doc.pdf") (py "azure") None (Some azure) 0
    [page_image (py "p1"); page_image (py "p2")]
    [(Some [], Some (JDict [(py "status", JStr (py "succeeded"))]));
     (Some (py "second"), Some (JDict [(py "status", JStr (py "succeeded"))]))]
  ∧ ∃ text,
      files result.2 !! py "out/doc_azure_20250603-140509.txt" = Some (Text text)
      ∧ occurrences PAGE_BREAK text ≠ (2 - 1)%nat.
Proof.
  intros w azure result. split.
  - split; [|split; [|exact I]].
    + exists (py "p1"). split; [reflexivity|]. intros st. vm_compute. reflexivity.
    + exists (py "p2"). split; [reflexivity|]. intros st. vm_compute. reflexivity.
  - exists (py "second"). split; [vm_compute; reflexivity|].
    vm_compute. discriminate.
Qed.

(** * Further properties of the scripts *)

(** ** Polling, read backwards *)

(** Whenever the polling loop returns, the result it returns is the first
    answer whose status has left the in-progress ones, every answer before
    it was in progress, and the loop made one status check per answer it
    consumed, with a sleep of 2 between consecutive checks. *)
Theorem poll_returns_first_final operation_id script st read_result st' :
  poll operation_id script st = (Return read_result, st') →
  ∃ pre rest,
    script = (Return <$> pre) ++ Return read_result :: rest
    ∧ Forall (λ r, in_progress (status r) = true) pre
    ∧ in_progress (status read_result) = false
    ∧ st' = State (files st) (trace st ++ polling_trace operation_id (S (length pre))).
Proof.
  revert st. induction script as [|answer script IH]; intros st Hrun.
  { cbn in Hrun. discriminate. }
  cbn [poll] in Hrun. unfold mbind, M_bind, emit, lift in Hrun. cbn in Hrun.
  destruct answer as [e|a]; [discriminate|].
  destruct (in_progress (status a)) eqn:Ha; cbn in Hrun.
  - apply IH in Hrun as (pre & rest & -> & Hpre & Hfinal & ->).
    exists (a :: pre), rest. repeat split; [by constructor|done|].
    cbn [files trace length]. f_equal.
    rewrite <- !app_assoc. reflexivity.
  - injection Hrun as <- <-. exists [], script. repeat split; [by constructor|done].
Qed.

Lemma poll_returns_first_final_witness :
  ∃ pre rest,
    [Return (answer (py "running") []); Return (answer (py "failed") []);
     Return (answer (py "succeeded") [])]
    = (Return <$> pre) ++ Return (answer (py "failed") []) :: rest
    ∧ Forall (λ r, in_progress (status r) = true) pre
    ∧ in_progress (status (answer (py "failed") [])) = false
    ∧ State ∅ [GetReadResult (py "op-1"); Sleep 2; GetReadResult (py "op-1")]
      = State (files initial)
          (trace initial ++ polling_trace (py "op-1") (S (length pre))).
Proof.
  apply (poll_returns_first_final (py "op-1")
           [Return (answer (py "running") []); Return (answer (py "failed") []);
            Return (answer (py "succeeded") [])] initial).
  vm_compute. reflexivity.
Defined.

(** ** Text and JSON of the OCR functions *)

(** None of the three OCR functions returns a text without a JSON value:
    in [process_file] the test on [json_response] never decides. *)
Theorem ocr_text_comes_with_json w :
  (∀ client image_bytes original_filename st text json_response,
     (ocr_google_image_bytes client image_bytes original_filename st).1
       = Return (Some text, json_response) →
     is_Some json_response)
  ∧ (∀ client pdf_path st text json_response,
       (ocr_google_pdf w client pdf_path st).1 = Return (Some text, json_response) →
       is_Some json_response)
  ∧ (∀ client stream original_filename st text json_response,
       (ocr_azure_read_stream client stream original_filename st).1
         = Return (Some text, json_response) →
       is_Some json_response).
Proof.
  split; [|split].
  - intros [client|] image_bytes name st text j; [|discriminate].
    unfold ocr_google_image_bytes, try_except, mbind, M_bind, lift, raise, print, emit.
    destruct (document_text_detection client image_bytes) as [e|response];
      [discriminate|].
    destruct (negb _); cbn; [discriminate|]. intros [= _ <-]. eauto.
  - intros [client|] pdf_path st text j; [|discriminate].
    unfold ocr_google_pdf, try_except, mbind, M_bind, lift, raise, print, emit.
    destruct (open_rb w pdf_path) as [e|content]; [discriminate|].
    destruct (async_batch_annotate_files client content) as [e|[e|[|fr others]]];
      cbn; try discriminate.
    destruct (google_pdf_pages 0 fr [] []) as [all_text pages]. cbn.
    intros [= _ <-]. eauto.
  - intros [client|] stream name st text j; [|discriminate].
    unfold ocr_azure_read_stream, try_except.
    unfold mbind at 1, M_bind at 1. unfold emit at 1.
    unfold mbind at 1, M_bind at 1. unfold lift at 1.
    destruct (read_in_stream client stream) as [e|headers]; [discriminate|].
    unfold mbind at 1, M_bind at 1. unfold lift at 1.
    destruct (headers_get (py "Operation-Location") headers) as [e|location];
      [discriminate|].
    rewrite print_bind.
    unfold mbind at 1, M_bind at 1.
    destruct (poll _ _ _) as [[e|r] st1]; [discriminate|].
    destruct (eqb (status r) OperationStatusCodes_succeeded).
    + destruct (analyze_result r) as [ar|]; [|discriminate].
      intros [= _ <-]. eauto.
    + discriminate.
Qed.

(** ** What [process_file] can touch *)

(** Whatever happens, [process_file] leaves every path alone except the
    [.txt] and the [.json] under the stem it saves to. *)
Theorem process_file_touches_only_its_outputs w file_path_obj output_dir api_choice
    google_client azure_client force st :
  ∃ d,
    ∀ path,
      path ≠ output_stem output_dir file_path_obj api_choice d ++ py ".txt" →
      path ≠ output_stem output_dir file_path_obj api_choice d ++ py ".json" →
      files (process_file w file_path_obj output_dir api_choice google_client
               azure_client force st).2 !! path
      = files st !! path.
Proof.
  unfold process_file. rewrite print_bind.
  destruct (negb (is_pdf file_path_obj || is_image file_path_obj));
    [by exists (clock w [])|].
  unfold mbind at 1, M_bind at 1.
  destruct (ocr_branches_quiet w file_path_obj api_choice google_client azure_client
              force
              (State (files st)
                 (trace st ++ [Print ([LF] ++ py "Processing file: " ++ file_path_obj)])))
    as (o & tr & ->).
  destruct o as [e|[[[text|] [j|]]|]]; try by exists (clock w []).
  unfold mbind at 1, M_bind at 1. unfold now. cbn [trace files].
  eexists. intros path Htxt Hjson.
  rewrite save_results_run. unfold output_stem in *.
  repeat case_match; cbn [snd files]; by rewrite ?lookup_insert_ne.
Qed.

(** ** Stripping *)

Lemma rstrip_fixed s :
  (∀ c, last s = Some c → isspace c = false) → rstrip s = s.
Proof.
  induction s as [|a s IH]; [done|]. intros Hlast. cbn [rstrip].
  destruct s as [|b s].
  - cbn. by rewrite (Hlast a eq_refl).
  - rewrite IH by (intros c Hc; by apply Hlast). done.
Qed.

Lemma last_rstrip s c : last (rstrip s) = Some c → isspace c = false.
Proof.
  revert c. induction s as [|a s IH]; intros c; [done|]. cbn [rstrip].
  destruct (rstrip s) as [|b t] eqn:Hs.
  - destruct (isspace a) eqn:Ha; [done|]. by intros [= <-].
  - intros Hc. by apply IH.
Qed.

Lemma rstrip_idem s : rstrip (rstrip s) = rstrip s.
Proof. apply rstrip_fixed. intros c. apply last_rstrip. Qed.

Lemma rstrip_blank ws : forallb isspace ws = true → rstrip ws = [].
Proof.
  induction ws as [|a ws IH]; [done|]. cbn.
  intros [Ha Hws]%andb_true_iff. by rewrite IH, Ha.
Qed.

Lemma rstrip_spaces s ws : forallb isspace ws = true → rstrip (s ++ ws) = rstrip s.
Proof.
  intros Hws. induction s as [|a s IH]; [by apply rstrip_blank|].
  cbn [app rstrip]. by rewrite IH.
Qed.

Lemma lstrip_app_head z v c :
  head v = Some c → isspace c = false → lstrip (z ++ v) = lstrip z ++ v.
Proof.
  intros Hv Hc. induction z as [|a z IH].
  - destruct v as [|b v]; [done|]. injection Hv as ->. cbn. by rewrite Hc.
  - cbn [app lstrip]. by destruct (isspace a).
Qed.

Lemma head_lstrip s c : head (lstrip s) = Some c → isspace c = false.
Proof.
  induction s as [|a s IH]; [done|]. cbn [lstrip].
  destruct (isspace a) eqn:Ha; [done|]. by intros [= <-].
Qed.

Lemma lstrip_fixed s :
  (∀ c, head s = Some c → isspace c = false) → lstrip s = s.
Proof. destruct s as [|a s]; [done|]. intros H. cbn. by rewrite (H a eq_refl). Qed.

Lemma lstrip_idem s : lstrip (lstrip s) = lstrip s.
Proof. apply lstrip_fixed. intros c. apply head_lstrip. Qed.

Lemma lstrip_blank_prefix s : ∃ ws, s = ws ++ lstrip s ∧ forallb isspace ws = true.
Proof.
  induction s as [|a s (ws & Hs & Hws)]; [by exists []|]. cbn [lstrip].
  destruct (isspace a) eqn:Ha; [|by exists []].
  exists (a :: ws). cbn. rewrite Ha, Hws. split; [by rewrite <- Hs|done].
Qed.

Lemma lstrip_spaces ws s : forallb isspace ws = true → lstrip (ws ++ s) = lstrip s.
Proof.
  induction ws as [|a ws IH]; [done|]. cbn.
  intros [-> Hws]%andb_true_iff. by apply IH.
Qed.

(** The two sides of [strip] do not disturb each other. *)
Lemma rstrip_lstrip s : rstrip (lstrip s) = lstrip (rstrip s).
Proof.
  destruct (lstrip_blank_prefix s) as (ws & Hs & Hws).
  destruct (lstrip s) as [|c t] eqn:Hl.
  - rewrite app_nil_r in Hs. subst ws. by rewrite (rstrip_blank s Hws).
  - assert (Hc : isspace c = false) by (apply (head_lstrip s); by rewrite Hl).
    rewrite Hs, rstrip_app by (exists c; split; [by left|done]).
    rewrite lstrip_spaces by done.
    symmetry. apply lstrip_fixed. intros c' Hc'.
    cbn [rstrip] in Hc'. destruct (rstrip t); [rewrite Hc in Hc'|];
      by injection Hc' as <-.
Qed.

Lemma strip_idem s : strip (strip s) = strip s.
Proof.
  unfold strip. by rewrite <- rstrip_lstrip, lstrip_idem, rstrip_lstrip, rstrip_idem.
Qed.

Lemma endswith_app s p : endswith (s ++ p) p = true.
Proof.
  unfold endswith. rewrite reverse_app. apply startswith_spec. by eexists.
Qed.

Lemma drop_last_app s p : drop_last (length p) (s ++ p) = s.
Proof.
  unfold drop_last. rewrite length_app.
  replace (length s + length p - length p)%nat with (length s) by lia.
  by rewrite take_app_length.
Qed.

(** What [trim_page_break] returns has no white space at either end. *)
Theorem trim_page_break_is_stripped text :
  strip (trim_page_break text) = trim_page_break text.
Proof.
  unfold trim_page_break. destruct (negb (eqb text [])) eqn:Hne.
  - cbv zeta. destruct (endswith _ _); apply strip_idem.
  - apply negb_false_iff, bool_decide_eq_true in Hne. by subst text.
Qed.

(** ** The text of a PDF submitted directly *)

Lemma concat_sep_join (sep : str) texts :
  texts ≠ [] → concat ((λ t, t ++ sep) <$> texts) = join sep texts ++ sep.
Proof.
  induction texts as [|t texts IH]; [done|]. intros _.
  destruct texts as [|t' texts]; [by cbn; rewrite app_nil_r|].
  change (join sep (t :: t' :: texts)) with (t ++ sep ++ join sep (t' :: texts)).
  cbn [fmap list_fmap concat] in *. rewrite IH by done.
  by rewrite <- !app_assoc.
Qed.

Lemma google_pdf_pages_text responses :
  ∀ i all_text pages,
    (google_pdf_pages i responses all_text pages).1
    = all_text
      ++ concat ((λ t, t ++ PAGE_SEPARATOR) <$> omap full_text_annotation responses).
Proof.
  induction responses as [|r responses IH]; intros i all_text pages.
  { cbn. by rewrite app_nil_r. }
  cbn [google_pdf_pages]. rewrite IH. cbn [omap list_omap].
  destruct (full_text_annotation r); cbn; by rewrite <- ?app_assoc.
Qed.

(** A text that ends with the separator is trimmed to what precedes the
    separator, stripped. *)
Lemma trim_appended_separator text :
  trim_page_break (text ++ PAGE_SEPARATOR) = strip text.
Proof.
  assert (Hlf : forallb isspace [LF; LF] = true) by reflexivity.
  assert (Hstrip : strip (text ++ PAGE_SEPARATOR)
                   = lstrip (text ++ [LF; LF]) ++ PAGE_BREAK).
  { unfold strip. rewrite PAGE_SEPARATOR_eq.
    replace (text ++ LF :: LF :: PAGE_BREAK ++ [LF; LF])
      with (((text ++ [LF; LF]) ++ PAGE_BREAK) ++ [LF; LF])
      by (by rewrite <- !app_assoc).
    rewrite rstrip_spaces by done.
    destruct PAGE_BREAK_first as (a & Ha & Hspace).
    rewrite rstrip_app.
    - rewrite rstrip_fixed by apply PAGE_BREAK_last.
      by apply (lstrip_app_head _ _ a).
    - exists a. split; [|done]. destruct PAGE_BREAK; [done|].
      injection Ha as ->. by left. }
  unfold trim_page_break.
  replace (negb (eqb (text ++ PAGE_SEPARATOR) [])) with true.
  2:{ symmetry. apply negb_true_iff, bool_decide_eq_false.
      rewrite PAGE_SEPARATOR_eq. by destruct text. }
  cbv zeta. rewrite Hstrip, endswith_app, drop_last_app.
  unfold strip. rewrite <- rstrip_lstrip, lstrip_idem, rstrip_lstrip.
  by rewrite rstrip_spaces.
Qed.

(** The text [ocr_google_pdf] returns is the texts of the annotated pages,
    in page order, joined by the separator and stripped: the separator
    appended after the last page is removed. *)
Theorem google_pdf_text_is_joined_pages responses :
  trim_page_break (google_pdf_pages 0 responses [] []).1
  = strip (join PAGE_SEPARATOR (omap full_text_annotation responses)).
Proof.
  rewrite google_pdf_pages_text. cbn [app].
  destruct (omap full_text_annotation responses) as [|t texts] eqn:Htexts; [done|].
  rewrite concat_sep_join by done. apply trim_appended_separator.
Qed.

(** ** Assignment to a key of a dictionary *)

Lemma dict_get_set k v d : dict_get k (dict_set k v d) = Some v.
Proof.
  induction d as [|[k' v'] d IH]; cbn.
  - unfold eqb. by rewrite bool_decide_eq_true_2.
  - unfold eqb in *. case_bool_decide as Hk; cbn; unfold eqb.
    + by rewrite bool_decide_eq_true_2.
    + by rewrite bool_decide_eq_false_2.
Qed.

Lemma dict_get_set_other k k' v d :
  k' ≠ k → dict_get k' (dict_set k v d) = dict_get k' d.
Proof.
  intros Hne. induction d as [|[k0 v0] d IH]; cbn.
  - unfold eqb. by rewrite bool_decide_eq_false_2.
  - unfold eqb in *. case_bool_decide as Hk; cbn; unfold eqb.
    + subst k0. by rewrite !bool_decide_eq_false_2.
    + case_bool_decide; [done|exact IH].
Qed.

(** ** The pages of a PDF submitted directly to Google *)

Lemma google_pdf_pages_prefix responses :
  ∀ i all_text pages,
    ∃ more, (google_pdf_pages i responses all_text pages).2 = pages ++ more.
Proof.
  induction responses as [|r responses IH]; intros i all_text pages.
  { exists []. cbn. by rewrite app_nil_r. }
  cbn [google_pdf_pages].
  match goal with
  | |- context [google_pdf_pages (S i) responses ?t ?ps] =>
      destruct (IH (S i) t ps) as [more ->]
  end.
  eexists. by rewrite <- app_assoc.
Qed.

(** The JSON pages [ocr_google_pdf] builds are as many as the responses, in
    their order; the page of the [k]-th response carries its 1-based
    position under [page_number_from_ocr_iteration], the page number of its
    context under [page_number_from_api] when it has one, and under every
    other key exactly what the raw response has. *)
Theorem google_pdf_pages_entries responses :
  ∀ i all_text pages,
    let result := (google_pdf_pages i responses all_text pages).2 in
    length result = (length pages + length responses)%nat
    ∧ ∀ k response,
        responses !! k = Some response →
        ∃ d,
          result !! (length pages + k)%nat = Some (JDict d)
          ∧ dict_get (py "page_number_from_ocr_iteration") d
            = Some (JInt (Z.of_nat (i + k) + 1))
          ∧ (∀ n, context response = Some n →
               dict_get (py "page_number_from_api") d = Some (JInt n))
          ∧ ∀ key,
              key ≠ py "page_number_from_ocr_iteration" →
              key ≠ py "page_number_from_api" →
              dict_get key d = dict_get key (pb response).
Proof.
  assert (Hkeys : py "page_number_from_ocr_iteration" ≠ py "page_number_from_api")
    by (vm_compute; discriminate).
  induction responses as [|r responses IH]; intros i all_text pages result.
  { subst result. cbn. split; [lia|]. by intros k response. }
  subst result. cbn [google_pdf_pages].
  match goal with
  | |- context [google_pdf_pages (S i) responses ?t ?ps] =>
      destruct (IH (S i) t ps) as [Hlen Hpages];
      destruct (google_pdf_pages_prefix responses (S i) t ps) as [more Hmore]
  end.
  cbv zeta in Hlen, Hpages. rewrite length_app in Hlen, Hpages. cbn [length] in *.
  split; [lia|].
  intros [|k] response Hk.
  - injection Hk as ->. rewrite Hmore.
    replace (length pages + 0)%nat with (length pages) by lia.
    eexists. split.
    { rewrite <- app_assoc. cbn [app]. by apply list_lookup_middle. }
    replace (i + 0)%nat with i by lia.
    destruct (context response) as [n|]; (split; [|split]).
    + by rewrite dict_get_set_other, dict_get_set.
    + intros n' [= <-]. by rewrite dict_get_set.
    + intros key H1 H2. by rewrite !dict_get_set_other.
    + by rewrite dict_get_set.
    + by intros n [=].
    + intros key H1 H2. by rewrite dict_get_set_other.
  - destruct (Hpages k response Hk) as (d & Hd & Hord & Hapi & Hraw).
    exists d. replace (length pages + S k)%nat with (length pages + 1 + k)%nat by lia.
    split; [done|]. split; [|done].
    rewrite Hord. do 2 f_equal. lia.
Qed.

(** ** The text of an Azure result *)

Lemma foldl_lines lines text_content :
  foldl (λ text_content line, text_content ++ line ++ [LF]) text_content lines
  = text_content ++ concat ((λ line, line ++ [LF]) <$> lines).
Proof.
  revert text_content. induction lines as [|line lines IH]; intros t; cbn.
  - by rewrite app_nil_r.
  - by rewrite IH, <- !app_assoc.
Qed.

Lemma azure_text_app pages lines text_content :
  azure_text (pages ++ [lines]) text_content
  = azure_text pages text_content
    ++ concat ((λ line, line ++ [LF]) <$> lines) ++ LF :: PAGE_BREAK ++ [LF; LF].
Proof.
  revert text_content. induction pages as [|page pages IH]; intros t.
  - cbn [app azure_text]. by rewrite foldl_lines, <- !app_assoc.
  - cbn [app azure_text]. by rewrite IH.
Qed.

Lemma join_lines lines :
  lines ≠ [] → concat ((λ line, line ++ [LF]) <$> lines) = join [LF] lines ++ [LF].
Proof. apply (concat_sep_join [LF]). Qed.

Lemma azure_text_with_lines pages :
  Forall (λ lines, lines ≠ []) pages →
  azure_text pages []
  = concat ((λ t, t ++ PAGE_SEPARATOR) <$> (join [LF] <$> pages)).
Proof.
  induction pages as [|lines pages IH] using rev_ind; [done|].
  intros [Hpages Hlines%Forall_inv]%Forall_app.
  rewrite azure_text_app, IH, join_lines by done.
  rewrite !fmap_app, concat_app. cbn [fmap list_fmap concat].
  rewrite PAGE_SEPARATOR_eq, app_nil_r. f_equal.
  by rewrite <- !app_assoc.
Qed.

(** When the operation has succeeded and every page of the result has at
    least one line, the text [ocr_azure_read_stream] returns is the pages,
    each with its lines joined by line feeds, joined by the page separator
    and stripped. *)
Theorem azure_text_is_joined_pages client stream original_filename st headers
    location pre last rest ar :
  read_in_stream client stream = Return headers →
  headers_get (py "Operation-Location") headers = Return location →
  get_read_result client (split_last Path.SLASH location)
    = (Return <$> pre) ++ Return last :: rest →
  Forall (λ r, in_progress (status r) = true) pre →
  status last = OperationStatusCodes_succeeded →
  analyze_result last = Some ar →
  Forall (λ lines, lines ≠ []) (read_results ar) →
  (ocr_azure_read_stream (Some client) stream original_filename st).1
  = Return (Some (strip (join PAGE_SEPARATOR (join [LF] <$> read_results ar))),
            Some (JDict (as_dict last))).
Proof.
  intros Hsubmit Hloc Hscript Hpre Hstatus Har Hlines.
  assert (Hlast : in_progress (status last) = false).
  { rewrite Hstatus. vm_compute. reflexivity. }
  rewrite (ocr_azure_read_stream_script client stream original_filename st headers
             location pre last rest Hsubmit Hloc Hscript Hpre Hlast).
  cbv zeta. rewrite Hstatus, Har.
  replace (eqb OperationStatusCodes_succeeded OperationStatusCodes_succeeded)
    with true by (vm_compute; reflexivity).
  cbn [fst]. do 3 f_equal.
  rewrite azure_text_with_lines by done.
  destruct (read_results ar) as [|lines pages] eqn:Hrr; [done|].
  rewrite concat_sep_join by done.
  replace (negb (eqb _ [])) with true.
  - by rewrite drop_last_app.
  - symmetry. apply negb_true_iff, bool_decide_eq_false.
    rewrite PAGE_SEPARATOR_eq. intros H. apply app_eq_nil in H as [_ H]. discriminate.
Qed.

Lemma azure_text_is_joined_pages_witness :
  (ocr_azure_read_stream
     (Some (scripted_azure [answer (py "running") [];
                            answer (py "succeeded") [[py "a"; py "b"]; [py "c"]]]))
     [] (py "scan.png") initial).1
  = Return (Some (strip (join PAGE_SEPARATOR
                           (join [LF] <$> [[py "a"; py "b"]; [py "c"]]))),
            Some (JDict [(py "status", JStr (py "succeeded"))])).
Proof.
  apply (azure_text_is_joined_pages
           (scripted_azure [answer (py "running") [];
                            answer (py "succeeded") [[py "a"; py "b"]; [py "c"]]])
           [] (py "scan.png") initial
           [(py "Operation-Location",
             py "https://vision.example/read/analyzeResults/op-1")]
           (py "https://vision.example/read/analyzeResults/op-1")
           [answer (py "running") []]
           (answer (py "succeeded") [[py "a"; py "b"]; [py "c"]]) []
           (AnalyzeResults [[py "a"; py "b"]; [py "c"]] None)).
  - reflexivity.
  - vm_compute. reflexivity.
  - reflexivity.
  - repeat constructor.
  - reflexivity.
  - reflexivity.
  - repeat constructor; discriminate.
Defined.

(** A last page without lines leaves the page break of the page before it
    at the end of the text: the slice cuts [len] of the full separator, one
    character more than what the empty page appended. *)
Theorem azure_text_keeps_break_before_empty_last_page pages lines :
  let text_content := azure_text ((pages ++ [lines]) ++ [[]]) [] in
  endswith
    (if negb (eqb text_content [])
     then strip (drop_last (length PAGE_SEPARATOR) text_content)
     else text_content)
    PAGE_BREAK = true.
Proof.
  cbv zeta. rewrite !azure_text_app. cbn [fmap list_fmap concat app].
  rewrite (app_assoc (azure_text pages [])).
  set (before := azure_text pages [] ++ concat ((λ line, line ++ [LF]) <$> lines)).
  replace ((before ++ LF :: PAGE_BREAK ++ [LF; LF]) ++ LF :: PAGE_BREAK ++ [LF; LF])
    with ((before ++ LF :: PAGE_BREAK ++ [LF]) ++ PAGE_SEPARATOR).
  2:{ rewrite PAGE_SEPARATOR_eq, <- !app_assoc. cbn [app].
      by rewrite <- !app_assoc. }
  replace (negb (eqb ((before ++ LF :: PAGE_BREAK ++ [LF]) ++ PAGE_SEPARATOR) []))
    with true.
  2:{ symmetry. apply negb_true_iff, bool_decide_eq_false.
      rewrite PAGE_SEPARATOR_eq. intros H. apply app_eq_nil in H as [_ H].
      discriminate. }
  rewrite drop_last_app. unfold strip.
  replace (before ++ LF :: PAGE_BREAK ++ [LF])
    with (((before ++ [LF]) ++ PAGE_BREAK) ++ [LF])
    by (by rewrite <- !app_assoc).
  rewrite rstrip_spaces by reflexivity.
  destruct PAGE_BREAK_first as (a & Ha & Hspace).
  rewrite rstrip_app.
  - rewrite rstrip_fixed by apply PAGE_BREAK_last.
    rewrite (lstrip_app_head _ _ a) by done. apply endswith_app.
  - exists a. split; [|done]. destruct PAGE_BREAK; [done|].
    injection Ha as ->. by left.
Qed.

(** ** The timestamp of the output names *)

Lemma py_inj s1 s2 : py s1 = py s2 → s1 = s2.
Proof.
  Transparent py. unfold py, chr_of_ascii. Opaque py.
  intros H.
  assert (Hinj : Inj (=) (=) N_of_ascii).
  { intros a b Hab.
    by rewrite <- (ascii_N_embedding a), <- (ascii_N_embedding b), Hab. }
  apply (list_fmap_eq_inj N_of_ascii Hinj) in H.
  by rewrite <- (string_of_list_ascii_of_string s1),
    <- (string_of_list_ascii_of_string s2), H.
Qed.

Lemma str_of_nat_inj n m : str_of_nat n = str_of_nat m → n = m.
Proof. intros H%py_inj. by apply (inj pretty). Qed.

Lemma below_100 (P : nat → bool) :
  forallb P (seq 0 100) = true → ∀ n, (n < 100)%nat → P n = true.
Proof.
  intros H n Hn. rewrite forallb_forall in H. apply H.
  apply in_seq. lia.
Qed.

Lemma pad2_length n : (n < 100)%nat → length (pad2 n) = 2%nat.
Proof.
  intros Hn. apply Nat.eqb_eq.
  revert n Hn. apply (below_100 (λ n, length (pad2 n) =? 2)%nat).
  vm_compute. reflexivity.
Qed.

Lemma pad2_inj n m : (n < 100)%nat → (m < 100)%nat → pad2 n = pad2 m → n = m.
Proof.
  intros Hn Hm Heq.
  assert (H : forallb (λ n, forallb (λ m, implb (eqb (pad2 n) (pad2 m)) (n =? m)%nat)
                               (seq 0 100)) (seq 0 100) = true)
    by (vm_compute; reflexivity).
  pose proof (below_100 _ H n Hn) as H1. cbn beta in H1.
  pose proof (below_100 _ H1 m Hm) as H2. cbn beta in H2.
  unfold eqb in H2. rewrite bool_decide_eq_true_2 in H2 by done.
  by apply Nat.eqb_eq.
Qed.

Lemma year_length y : (1000 ≤ y < 10 * 1000)%nat → length (str_of_nat y) = 4%nat.
Proof.
  intros Hy.
  assert (H : forallb (λ k, length (str_of_nat (1000 + k)) =? 4)%nat (seq 0 (9 * 1000)) = true)
    by (vm_compute; reflexivity).
  rewrite forallb_forall in H.
  specialize (H (y - 1000)%nat). replace (1000 + (y - 1000))%nat with y in H by lia.
  apply Nat.eqb_eq, H, in_seq. lia.
Qed.

(** For a date with a four-digit year the timestamp has 15 characters, and
    two such dates have the same timestamp only if they are the same
    second: output names of different seconds do not collide. *)
Theorem strftime_Ymd_HMS_injective d1 d2 :
  valid_datetime d1 → valid_datetime d2 →
  length (strftime_Ymd_HMS d1) = 15%nat
  ∧ (strftime_Ymd_HMS d1 = strftime_Ymd_HMS d2 → d1 = d2).
Proof.
  intros (Hy1 & Hm1 & Hd1 & Hh1 & Hmi1 & Hs1) (Hy2 & Hm2 & Hd2 & Hh2 & Hmi2 & Hs2).
  unfold strftime_Ymd_HMS. split.
  - rewrite !length_app, year_length, !pad2_length by lia. reflexivity.
  - intros H.
    apply app_inj_1 in H as [Hy H]; [|by rewrite !year_length].
    apply app_inj_1 in H as [Hm H]; [|by rewrite !pad2_length by lia].
    apply app_inj_1 in H as [Hd H]; [|by rewrite !pad2_length by lia].
    apply app_inj_1 in H as [_ H]; [|done].
    apply app_inj_1 in H as [Hh H]; [|by rewrite !pad2_length by lia].
    apply app_inj_1 in H as [Hmi Hs]; [|by rewrite !pad2_length by lia].
    apply str_of_nat_inj in Hy. apply pad2_inj in Hm, Hd, Hh, Hmi, Hs; try lia.
    destruct d1, d2; cbn in *. by subst.
Qed.

Lemma strftime_Ymd_HMS_injective_witness :
  length (strftime_Ymd_HMS (DateTime 2025 6 3 14 5 9)) = 15%nat.
Proof.
  apply (strftime_Ymd_HMS_injective (DateTime 2025 6 3 14 5 9)
           (DateTime 2025 6 3 14 5 10)); unfold valid_datetime; cbn; lia.
Defined.

(** ** Reading back what [save_results] wrote *)

Lemma siblings_differ stem : stem ++ py ".txt" ≠ stem ++ py ".json".
Proof. intros H%app_inv_head. vm_compute in H. discriminate. Qed.

(** After [save_results] has returned, the [.txt] holds the text and the
    [.json] holds the JSON value (the second write does not replace the
    first), and every other path holds what it held. *)
Theorem save_results_read_back w stem text_content json_content st :
  unwritable w (stem ++ py ".txt") = false →
  unwritable w (stem ++ py ".json") = false →
  let after := files (save_results w stem text_content json_content st).2 in
  after !! (stem ++ py ".txt") = Some (Text text_content)
  ∧ after !! (stem ++ py ".json") = Some (JsonDoc json_content)
  ∧ ∀ path, path ≠ stem ++ py ".txt" → path ≠ stem ++ py ".json" →
            after !! path = files st !! path.
Proof.
  intros Htxt Hjson after. subst after.
  rewrite save_results_run, Htxt, Hjson. cbn [snd files].
  pose proof (siblings_differ stem). split; [|split].
  - by rewrite lookup_insert_ne, lookup_insert_eq.
  - by rewrite lookup_insert_eq.
  - intros path H1 H2. by rewrite !lookup_insert_ne.
Qed.

Lemma save_results_read_back_witness :
  let w := example_world [] [] [] [] in
  files (save_results w (py "out/a_google_20250603-140509") (py "hello") (JDict [])
           initial).2 !! py "out/a_google_20250603-140509.txt"
  = Some (Text (py "hello")).
Proof.
  intros w.
  destruct (save_results_read_back w (py "out/a_google_20250603-140509") (py "hello")
              (JDict []) initial) as (Htxt & _); [reflexivity..|].
  vm_compute in Htxt |- *. exact Htxt.
Defined.

(** ** multi_extractor.py: errors come back as text *)

Lemma extract_text_gemini_total a image prompt :
  total (Multi.extract_text_gemini a image prompt).
Proof. unfold Multi.extract_text_gemini. auto 10 with effects. Qed.

Lemma extract_text_openai_total a image_bytes prompt model ext :
  total (Multi.extract_text_openai a image_bytes prompt model ext).
Proof. unfold Multi.extract_text_openai. auto 10 with effects. Qed.

Lemma extract_text_anthropic_total a image_bytes prompt model ext :
  total (Multi.extract_text_anthropic a image_bytes prompt model ext).
Proof. unfold Multi.extract_text_anthropic. auto 10 with effects. Qed.

Lemma pdf_pages_loop_quiet a prompt provider model fmt total_pages pages :
  ∀ i all_page_texts,
    quiet (Multi.pdf_pages_loop a prompt provider model fmt total_pages i pages
             all_page_texts).
Proof.
  pose proof extract_text_gemini_total. pose proof extract_text_openai_total.
  pose proof extract_text_anthropic_total.
  induction pages as [|page pages IH]; intros i texts; cbn [Multi.pdf_pages_loop].
  - auto with effects.
  - apply quiet_bind; [auto with effects|intros _].
    apply quiet_bind; [auto 12 with effects|intros page_text]. apply IH.
Qed.

Lemma process_image_file_with_provider_total w a image_path prompt provider_name
    model_name_for_api :
  total (Multi.process_image_file_with_provider w a image_path prompt provider_name
           model_name_for_api).
Proof.
  pose proof extract_text_gemini_total. pose proof extract_text_openai_total.
  pose proof extract_text_anthropic_total.
  unfold Multi.process_image_file_with_provider. auto 14 with effects.
Qed.

Lemma process_pdf_file_with_provider_total w a pdf_path prompt provider_name
    model_name_for_api poppler_path :
  total (Multi.process_pdf_file_with_provider w a pdf_path prompt provider_name
           model_name_for_api poppler_path).
Proof.
  pose proof pdf_pages_loop_quiet.
  unfold Multi.process_pdf_file_with_provider.
  apply total_try_except; [|intros e; destruct (exc_type e); auto with effects].
  apply quiet_bind; [auto with effects|intros pages].
  destruct pages; auto 8 with effects.
Qed.

(** The two file processors never raise and write no file: whatever goes
    wrong while reading, rasterizing or calling a provider, they return a
    string. *)
Theorem multi_processors_return_text w a :
  (∀ image_path prompt provider_name model_name_for_api,
     total (Multi.process_image_file_with_provider w a image_path prompt
              provider_name model_name_for_api))
  ∧ (∀ pdf_path prompt provider_name model_name_for_api poppler_path,
       total (Multi.process_pdf_file_with_provider w a pdf_path prompt provider_name
                model_name_for_api poppler_path)).
Proof.
  split; intros.
  - apply process_image_file_with_provider_total.
  - apply process_pdf_file_with_provider_total.
Qed.

(** Whatever happens in one turn of the loop over the providers, every
    path is left alone except the one output
    [<base>_<provider>_extracted_<timestamp>.txt]. *)
Theorem process_with_provider_touches_only_its_output w a file_path prompt poppler_path
    provider_name model_name_for_api st :
  ∃ d,
    ∀ path,
      path ≠ Multi.output_filename file_path provider_name (strftime_Ymd_HMS d) →
      files (Multi.process_with_provider w a file_path prompt poppler_path provider_name
               model_name_for_api st).2 !! path
      = files st !! path.
Proof.
  unfold Multi.process_with_provider.
  unfold try_except, write_file, store, now, mbind, M_bind, print, emit.
  destruct (_ || _); [|by exists (clock w [])].
  match goal with
  | |- context [(if ?c then ?m1 else ?m2) ?s] =>
      assert (Htotal : total (if c then m1 else m2));
        [destruct c;
         [apply process_image_file_with_provider_total
         |apply process_pdf_file_with_provider_total]|];
      destruct (Htotal s) as (text & tr & ->)
  end.
  cbn [fst snd files trace].
  destruct (unwritable w _); cbn [fst snd files trace].
  - by exists (clock w []).
  - eexists. intros path Hpath. by rewrite lookup_insert_ne.
Qed.



(** ** multi_extractor.py: the pages of a PDF with Gemini *)

Lemma pdf_pages_loop_gemini a prompt model fmt total_pages pages :
  ∀ i texts all_page_texts st,
    gemini_pages_answer a prompt pages texts →
    (Multi.pdf_pages_loop a prompt (py "gemini") model fmt total_pages i pages
       all_page_texts st).1
    = Return (all_page_texts ++ page_sections i texts).
Proof.
  induction pages as [|page pages IH]; intros i [|t texts] acc st Hpages;
    try by destruct Hpages.
  - cbn. by rewrite app_nil_r.
  - destruct Hpages as [Hpage Hpages].
    cbn [Multi.pdf_pages_loop]. rewrite print_bind.
    replace (eqb (py "gemini") (py "gemini")) with true by (vm_compute; reflexivity).
    unfold mbind at 1, M_bind at 1.
    match goal with
    | |- context [Multi.extract_text_gemini a ?img ?pr ?s] =>
        specialize (Hpage s);
        destruct (Multi.extract_text_gemini a img pr s) as [o st1]
    end.
    cbn in Hpage. subst o.
    rewrite (IH (S i) texts) by done. cbn [page_sections].
    by rewrite <- app_assoc.
Qed.

Lemma length_page_sections i texts : length (page_sections i texts) = length texts.
Proof.
  revert i. induction texts as [|t texts IH]; intros i; [done|].
  cbn [page_sections length]. by rewrite IH.
Qed.

Lemma gemini_pages_answer_length a prompt pages texts :
  gemini_pages_answer a prompt pages texts → length pages = length texts.
Proof.
  revert texts. induction pages as [|page pages IH]; intros [|t texts] H;
    try by destruct H.
  destruct H as [_ H]. cbn [length]. f_equal. by apply IH.
Qed.

(** With [gemini], a PDF that rasterizes to at least one page yields one
    section per page, in page order, each under the header with its 1-based
    number, joined by blank lines: the text of a page is whatever the call
    on that page returned, so a page whose call fails puts its error
    message in its own section and the other pages are kept. *)
Theorem pdf_with_gemini_returns_page_sections w a pdf_path prompt model_name_for_api
    poppler_path st page pages texts :
  (if eqb (Multi.os_name a) (py "nt") && truthy_str poppler_path
   then convert_from_path w pdf_path poppler_path (Some (lower (py "PNG")))
   else convert_from_path w pdf_path None (Some (lower (py "PNG"))))
  = Return (page :: pages) →
  gemini_pages_answer a prompt (page :: pages) texts →
  (Multi.process_pdf_file_with_provider w a pdf_path prompt (py "gemini")
     model_name_for_api poppler_path st).1
  = Return (join [LF; LF] (page_sections 0 texts))
  ∧ length (page_sections 0 texts) = S (length pages).
Proof.
  intros Hconvert Hpages. split.
  - unfold Multi.process_pdf_file_with_provider, try_except.
    unfold mbind at 1, M_bind at 1. unfold lift at 1. rewrite Hconvert.
    unfold mbind at 1, M_bind at 1.
    pose proof (pdf_pages_loop_gemini a prompt model_name_for_api (py "PNG")
                  (length (page :: pages)) (page :: pages) 0 texts [] st Hpages)
      as Hloop.
    destruct (Multi.pdf_pages_loop _ _ _ _ _ _ _ _ _ _) as [o st1].
    cbn in Hloop. by subst o.
  - rewrite length_page_sections.
    by rewrite <- (gemini_pages_answer_length a prompt (page :: pages) texts).
Qed.

Lemma pdf_with_gemini_returns_page_sections_witness :
  let w := example_world [] [] [(py "in/doc.pdf", [page_image [1]; page_image [2]])] [] in
  (Multi.process_pdf_file_with_provider w (example_apis (py " hello ")) (py "in/doc.pdf")
     (py "Extract all text.") (py "gemini") (py "gemini-2.0-flash") None initial).1
  = Return (join [LF; LF] (page_sections 0 [py "hello"; py "hello"])).
Proof.
  intros w.
  destruct (pdf_with_gemini_returns_page_sections w (example_apis (py " hello "))
              (py "in/doc.pdf") (py "Extract all text.") (py "gemini-2.0-flash") None
              initial (page_image [1]) [page_image [2]] [py "hello"; py "hello"])
    as [Hresult _].
  - vm_compute. reflexivity.
  - split; [|split; [|exact I]]; intros st; vm_compute; reflexivity.
  - exact Hresult.
Defined.

(** ** gdocai.py: the types it submits, and how it ends *)

(** Whatever the path and the system table, the MIME type [get_mime_type]
    returns is under [image/] or [application/]. *)
Theorem get_mime_type_is_image_or_application a file_path mime_type :
  Gdocai.get_mime_type a file_path = Some mime_type →
  split_first Path.SLASH mime_type ∈ [py "image"; py "application"].
Proof.
  unfold Gdocai.get_mime_type.
  destruct (Gdocai.SUPPORTED_MIME_TYPES !! lower (Path.splitext file_path).2)
    as [t|] eqn:Ht.
  - intros [= ->]. apply elem_of_list_to_map_2, list_elem_of_In in Ht.
    cbn [In] in Ht.
    repeat (destruct Ht as [Ht|Ht];
            [injection Ht as _ <-; apply list_elem_of_In; vm_compute; tauto|]).
    destruct Ht.
  - destruct (Gdocai.guess_type a file_path) as [m|]; cbn; [|discriminate].
    destruct (negb (eqb m [])); cbn; [|discriminate].
    unfold str_in. case_bool_decide as Hmajor; [|discriminate].
    by intros [= <-].
Qed.

Lemma get_mime_type_is_image_or_application_witness :
  split_first Path.SLASH (py "image/png") ∈ [py "image"; py "application"].
Proof.
  apply (get_mime_type_is_image_or_application (example_docai (py "x"))
           (py "in/Scan.PNG")).
  vm_compute. reflexivity.
Defined.
(** How a run of gdocai.py ends on a standard output that takes every
    line.  It leaves with [exit(1)] exactly when one of its four checks
    fails.  Past the checks it raises exactly when the client cannot be
    built, when the file cannot be read (both happen outside the handlers
    of [process_document_sample]), or when the write of the extracted text
    to the opened output file fails with an error that is not one of the
    operating system, which [except IOError] lets through.  In every other
    case it reaches its last line, whatever the processor answers. *)
Theorem gdocai_main_ending w f a file_path project_id location processor_id
    output_file st :
  (∀ line, Faulty.print_error f line = None) →
  let result :=
    (Gdocai.main w f a file_path project_id location processor_id output_file st).1 in
  let failed_check :=
    project_id ∈ [py "your-gcp-project-id"; []]
    ∨ processor_id ∈ [py "your-processor-id"; []]
    ∨ Gdocai.exists_path a file_path = false
    ∨ Gdocai.get_mime_type a file_path = None in
  let stops e :=
    Gdocai.make_client a location = Raise e
    ∨ Gdocai.make_client a location = Return ()
      ∧ (open_rb w file_path = Raise e
         ∨ ∃ image_content mime_type d path remains,
             open_rb w file_path = Return image_content
             ∧ Gdocai.get_mime_type a file_path = Some mime_type
             ∧ Gdocai.process_document a image_content mime_type = Return d
             ∧ Gdocai.text d ≠ []
             ∧ output_file = Some path ∧ path ≠ []
             ∧ unwritable w path = false
             ∧ Faulty.write_error f path (Text (Gdocai.text d)) = Some (e, remains)
             ∧ exc_type e ≠ OSError ∧ exc_type e ≠ FileNotFoundError) in
  (∀ code, result = Return (Gdocai.Exit code) ↔ code = 1%Z ∧ failed_check)
  ∧ (∀ e, result = Raise e ↔ ¬ failed_check ∧ stops e)
  ∧ (result = Return Gdocai.Finished ↔ ¬ failed_check ∧ ∀ e, ¬ stops e).
Proof.
  intros Hprint result failed_check stops.
  assert (Hchecks :
    (eqb project_id (py "your-gcp-project-id") || eqb project_id []
     || (eqb processor_id (py "your-processor-id") || eqb processor_id [])
     || negb (Gdocai.exists_path a file_path) = true
     ∨ Gdocai.get_mime_type a file_path = None)
    ↔ failed_check).
  { subst failed_check. unfold eqb.
    rewrite !orb_true_iff, negb_true_iff, !bool_decide_eq_true, !elem_of_cons,
      !elem_of_nil. tauto. }
  subst result. rewrite gdocai_main_result by done.
  assert (Hcases :
    ∀ r, r = (if eqb project_id (py "your-gcp-project-id") || eqb project_id []
                 || (eqb processor_id (py "your-processor-id") || eqb processor_id [])
                 || negb (Gdocai.exists_path a file_path)
              then None
              else match Gdocai.get_mime_type a file_path with
                   | None => None
                   | Some mime_type => Some mime_type
                   end) →
         match r with None => failed_check | Some _ => ¬ failed_check end).
  { intros r ->. destruct (_ || _) eqn:Hbad; [apply Hchecks; by left|].
    destruct (Gdocai.get_mime_type a file_path); [|apply Hchecks; by right].
    intros [?|?]%Hchecks; congruence. }
  specialize (Hcases _ eq_refl). clear Hchecks. clearbody failed_check.
  assert (Hexit_raise :
    ∀ r : outcome Gdocai.ending,
      (∀ e, r = Raise e ↔ stops e) →
      (∀ code, r ≠ Return (Gdocai.Exit code)) →
      ¬ failed_check →
      (∀ code, r = Return (Gdocai.Exit code) ↔ code = 1%Z ∧ failed_check)
      ∧ (∀ e, r = Raise e ↔ ¬ failed_check ∧ stops e)
      ∧ (r = Return Gdocai.Finished ↔ ¬ failed_check ∧ ∀ e, ¬ stops e)).
  { intros r Hr Hnoexit Hpassed. split; [|split].
    - intros code. split; [by intros ?%Hnoexit|by intros [_ ?]].
    - intros e. rewrite Hr. tauto.
    - split.
      + intros ->. split; [done|]. intros e He%Hr. discriminate.
      + intros [_ Hgoes]. destruct r as [e|[code|]]; [| |done].
        * destruct (Hgoes e). by apply Hr.
        * by destruct (Hnoexit code). }
  destruct (_ || _).
  { split; [|split].
    - intros code. split; [by intros [= <-]|by intros [-> _]].
    - intros e. split; [done|by intros [? _]].
    - split; [done|by intros [? _]]. }
  destruct (Gdocai.get_mime_type a file_path) as [mime_type|] eqn:Hmime.
  2:{ split; [|split].
      - intros code. split; [by intros [= <-]|by intros [-> _]].
      - intros e. split; [done|by intros [? _]].
      - split; [done|by intros [? _]]. }
  apply Hexit_raise; [| |done]; clear Hexit_raise; subst stops; cbn beta.
  2:{ intros code. repeat case_match; discriminate. }
  intros e'.
  destruct (Gdocai.make_client a location) as [e|[]].
  { split; [intros [= <-]; by left|]. intros [[= <-]|[[=] _]]. done. }
  destruct (open_rb w file_path) as [e|image_content].
  { split; [intros [= <-]; right; split; [done|by left]|].
    intros [[=]|[_ [[= <-]|(? & ? & ? & ? & ? & [=] & _)]]]. done. }
  destruct (Gdocai.process_document a image_content mime_type) as [e|d] eqn:Hd.
  { split; [done|].
    intros [[=]|[_ [[=]|(c & m & d & p & r & [= <-] & [= <-] & Hd' & _)]]].
    congruence. }
  destruct (eqb (Gdocai.text d) []) eqn:Htext; cbn [negb andb].
  { apply bool_decide_eq_true in Htext. split; [done|].
    intros [[=]|[_ [[=]|(c & m & d' & p & r & [= <-] & [= <-] & Hd' & Hne & _)]]].
    congruence. }
  apply bool_decide_eq_false in Htext.
  destruct output_file as [path|]; cbn [truthy_str default from_option andb].
  2:{ split; [done|].
      intros [[=]|[_ [[=]|(c & m & d' & p & r & _ & _ & _ & _ & [=] & _)]]]. }
  unfold id. destruct (eqb path []) eqn:Hpath; cbn [negb andb].
  { apply bool_decide_eq_true in Hpath. split; [done|].
    intros [[=]|[_ [[=]|(c & m & d' & p & r & _ & _ & _ & _ & [= <-] & ? & _)]]].
    done. }
  apply bool_decide_eq_false in Hpath.
  destruct (unwritable w path) eqn:Hlocked; cbn [negb].
  { split; [done|].
    intros [[=]|[_ [[=]|(c & m & d' & p & r & _ & _ & _ & _ & [= <-] & _ & ? & _)]]].
    congruence. }
  destruct (Faulty.write_error f path (Text (Gdocai.text d))) as [[e remains]|]
    eqn:Hwrite.
  2:{ split; [done|].
      intros [[=]|[_ [[=]|(c & m & d' & p & r & [= <-] & [= <-] & Hd' & _ & [= <-]
                           & _ & _ & Hw & _)]]].
      congruence. }
  destruct (exc_type e) eqn:Hclass;
    (split;
     [first [done
            |intros [= <-]; right; split; [done|]; right;
             exists image_content, mime_type, d, path, remains;
             rewrite Hclass; by repeat split]
     |intros [[=]|[_ [[=]|(c & m & d' & p & r & [= <-] & [= <-] & Hd' & _ & [= <-]
                          & _ & _ & Hw & Hos & Hfnf)]]];
      assert (d' = d) as -> by congruence;
      assert (e' = e) as -> by congruence;
      congruence]).
Qed.

Lemma gdocai_main_ending_witness :
  (Gdocai.main (example_world [(py "in/scan.png", [1; 2; 3])] [] [] []) no_faults
     (example_docai (py "hello")) (py "in/scan.png") Gdocai.DEFAULT_PROJECT_ID
     Gdocai.DEFAULT_LOCATION Gdocai.DEFAULT_PROCESSOR_ID (Some (py "out.txt")) initial).1
  = Return Gdocai.Finished.
Proof.
  destruct (gdocai_main_ending (example_world [(py "in/scan.png", [1; 2; 3])] [] [] [])
              no_faults (example_docai (py "hello")) (py "in/scan.png")
              Gdocai.DEFAULT_PROJECT_ID Gdocai.DEFAULT_LOCATION
              Gdocai.DEFAULT_PROCESSOR_ID (Some (py "out.txt")) initial)
    as (_ & _ & Hfinished).
  - intros line. reflexivity.
  - apply Hfinished. split.
    + intros [H|[H|[H|H]]];
        [apply list_elem_of_In in H; vm_compute in H; intuition discriminate
        |apply list_elem_of_In in H; vm_compute in H; intuition discriminate
        |discriminate
        |vm_compute in H; discriminate].
    + intros e [H|[_ [H|(? & ? & ? & ? & ? & _ & _ & _ & _ & _ & _ & _ & H & _)]]];
        vm_compute in H; discriminate.
Defined.

(** *** What a run of gdocai.py can write *)

Lemma quiet_faulty_print f line : quiet (Faulty.print f line).
Proof.
  intros st. unfold Faulty.print. destruct (Faulty.print_error f line) as [e|].
  - exists (Raise e), []. rewrite app_nil_r. by destruct st.
  - by exists (Return ()), [Print line].
Qed.

Lemma quiet_try_except {A} (body : M A) (handler : exn → M A) :
  quiet body → (∀ e, quiet (handler e)) → quiet (try_except body handler).
Proof.
  intros Hb Hh st. unfold try_except.
  destruct (Hb st) as ([e|a] & tr & ->).
  - destruct (Hh e (State (files st) (trace st ++ tr))) as (o & tr' & ->).
    exists o, (tr ++ tr'). cbn. by rewrite app_assoc.
  - by exists (Return a), tr.
Qed.

Lemma quiet_files {A} (m : M A) st : quiet m → files (m st).2 = files st.
Proof. intros H. by destruct (H st) as (o & tr & ->). Qed.

(** [process_document_sample] writes nothing, and the document it returns
    is the one the processor returned for the content of the file. *)
Lemma process_document_sample_returns w f a project_id location processor_id file_path
    mime_type st :
  ∃ o tr,
    Gdocai.process_document_sample w f a project_id location processor_id file_path
      mime_type st
    = (o, State (files st) (trace st ++ tr))
    ∧ ∀ d, o = Return (Some d) →
           ∃ image_content,
             open_rb w file_path = Return image_content
             ∧ Gdocai.process_document a image_content mime_type = Return d.
Proof.
  unfold Gdocai.process_document_sample.
  unfold mbind at 1, M_bind at 1.
  destruct (quiet_faulty_print f
              (py "Processing document: " ++ file_path ++ py " with MIME type: "
               ++ mime_type) st) as ([e|[]] & tr1 & ->); [by eexists _, _|].
  unfold mbind at 1, M_bind at 1.
  destruct (quiet_faulty_print f
              (py "Using Project ID: " ++ project_id ++ py ", Location: " ++ location
               ++ py ", Processor ID: " ++ processor_id)
              (State (files st) (trace st ++ tr1))) as ([e|[]] & tr2 & ->);
    cbn [files trace]; [eexists _, (tr1 ++ tr2); by rewrite app_assoc|].
  unfold mbind at 1, M_bind at 1, lift at 1.
  destruct (Gdocai.make_client a location) as [e|[]];
    [eexists _, (tr1 ++ tr2); by rewrite app_assoc|].
  unfold mbind at 1, M_bind at 1, lift at 1.
  destruct (open_rb w file_path) as [e|image_content];
    [eexists _, (tr1 ++ tr2); by rewrite app_assoc|].
  unfold try_except, mbind, M_bind, lift, emit, mret, M_ret. cbn [files trace].
  destruct (Gdocai.process_document a image_content mime_type) as [e|d] eqn:Hd.
  - match goal with
    | |- ∃ o tr, ?h ?s = _ ∧ _ =>
        assert (Hhandler :
          ∀ s0, ∃ o tr, h s0 = (o, State (files s0) (trace s0 ++ tr))
                        ∧ ∀ d, o ≠ Return (Some d));
          [|destruct (Hhandler s) as (o & tr3 & -> & Hnone)]
    end.
    { pose proof (quiet_faulty_print f) as H. unfold mbind, M_bind, mret, M_ret.
      destruct (exc_type e);
        try (intros s; destruct (H (py "An unexpected error occurred: " ++ exc_str e) s)
               as ([e'|[]] & tr & ->); by eexists _, _).
      intros s.
      destruct (H (py "Error processing document: " ++ exc_str e) s)
        as ([e'|[]] & tr & ->); [by eexists _, _|].
      destruct (Gdocai.contains _ _); [|destruct (Gdocai.contains _ _)].
      - match goal with
        | |- context [Faulty.print f ?l ?s'] =>
            destruct (H l s') as ([e'|[]] & tr' & ->)
        end; cbn [files trace]; eexists _, (tr ++ tr'); by rewrite app_assoc.
      - match goal with
        | |- context [Faulty.print f ?l ?s'] =>
            destruct (H l s') as ([e'|[]] & tr' & ->)
        end; cbn [files trace]; eexists _, (tr ++ tr'); by rewrite app_assoc.
      - by eexists _, _. }
    cbn [files trace]. eexists o, _. split; [by rewrite <- !app_assoc|].
    intros d Hsome. by destruct (Hnone d).
  - eexists _, (tr1 ++ tr2 ++ [_]). split; [by rewrite <- !app_assoc|].
    intros d' [= <-]. by exists image_content.
Qed.

(** [save_text] touches the output file only. *)
Lemma save_text_writes w f output_file text st :
  let result := Gdocai.save_text w f output_file text st in
  files result.2 = files st
  ∨ ∃ path,
      output_file = Some path ∧ path ≠ []
      ∧ (files result.2 = <[path := Text text]> (files st)
         ∨ ∃ e remains,
             Faulty.write_error f path (Text text) = Some (e, remains)
             ∧ files result.2 = <[path := Text remains]> (files st)).
Proof.
  cbv zeta. unfold Gdocai.save_text.
  destruct output_file as [path|]; cbn [truthy_str default from_option]; [|by left].
  unfold id. destruct (eqb path []) eqn:Hpath; cbn [negb]; [by left|].
  apply bool_decide_eq_false in Hpath.
  unfold try_except, Faulty.write_file, Faulty.store, mbind, M_bind, emit, raise.
  cbn [files trace].
  destruct (unwritable w path); cbn [exc_type].
  { left. by rewrite (quiet_files _ _ (quiet_faulty_print f _)). }
  right. exists path. split; [done|]. split; [done|].
  destruct (Faulty.write_error f path (Text text)) as [[e remains]|] eqn:Hwrite.
  - right. exists e, remains. split; [done|].
    destruct (exc_type e); try done;
      by rewrite (quiet_files _ _ (quiet_faulty_print f _)).
  - left.
    match goal with
    | |- context [Faulty.print f ?l ?s] =>
        destruct (quiet_faulty_print f l s) as ([e|[]] & tr & ->)
    end; [|done].
    destruct (exc_type e); try done;
      by rewrite (quiet_files _ _ (quiet_faulty_print f _)).
Qed.

(** When nothing fails, the text of the document is saved. *)
Lemma gdocai_main_saves_text w f a file_path project_id location processor_id path
    mime_type image_content d st :
  (∀ line, Faulty.print_error f line = None) →
  eqb project_id (py "your-gcp-project-id") || eqb project_id [] = false →
  eqb processor_id (py "your-processor-id") || eqb processor_id [] = false →
  Gdocai.exists_path a file_path = true →
  Gdocai.get_mime_type a file_path = Some mime_type →
  Gdocai.make_client a location = Return () →
  open_rb w file_path = Return image_content →
  Gdocai.process_document a image_content mime_type = Return d →
  Gdocai.text d ≠ [] →
  path ≠ [] →
  unwritable w path = false →
  Faulty.write_error f path (Text (Gdocai.text d)) = None →
  let result :=
    Gdocai.main w f a file_path project_id location processor_id (Some path) st in
  result.1 = Return Gdocai.Finished
  ∧ files result.2 = <[path := Text (Gdocai.text d)]> (files st)
  ∧ last (trace result.2)
    = Some (Print ([LF] ++ py "Extracted text saved to: " ++ path)).
Proof.
  intros Hprint Hproject Hprocessor Hexists Hget Hclient Hopen Hd Htext Hpath Hlocked
    Hwrite result.
  pose proof (λ line st, faulty_print_run f line st (Hprint line)) as Hp.
  subst result.
  remember (Gdocai.main w f a file_path project_id location processor_id
              (Some path) st) as result eqn:Hresult.
  unfold Gdocai.main in Hresult.
  rewrite Hproject, Hprocessor, Hexists, Hget in Hresult. cbn [negb] in Hresult.
  assert (Hne : truthy_str (Some mime_type) = true).
  { cbn. unfold eqb. case_bool_decide as Hnil; [|done].
    subst mime_type. by destruct (get_mime_type_not_empty a file_path). }
  rewrite Hne in Hresult. cbn [negb default from_option] in Hresult.
  unfold id in Hresult.
  unfold mbind at 1, M_bind at 1 in Hresult. rewrite Hp in Hresult.
  unfold mbind at 1, M_bind at 1 in Hresult.
  destruct (process_document_sample_run w f a project_id location processor_id
              file_path mime_type image_content
              (State (files st)
                 (trace st
                  ++ [Print (py "Attempting to process: " ++ file_path
                             ++ py " (MIME: " ++ mime_type ++ py ")")]))
              Hprint Hclient Hopen) as (tr & _ & _ & Hsample).
  rewrite Hsample, Hd in Hresult. clear Hsample. cbn [files trace] in Hresult.
  unfold Gdocai.save_text, Gdocai.document_truthy, try_except, Faulty.write_file,
    Faulty.store, mbind, M_bind, emit, raise, mret, M_ret in Hresult.
  replace (eqb (Gdocai.text d) []) with false in Hresult
    by (symmetry; by apply bool_decide_eq_false).
  replace (truthy_str (Some path)) with true in Hresult
    by (symmetry; cbn; by apply negb_true_iff, bool_decide_eq_false).
  cbn [negb orb andb default from_option] in Hresult. unfold id in Hresult.
  prints Hp Hresult. rewrite Hlocked, Hwrite in Hresult. prints Hp Hresult.
  subst result. cbn [fst snd files trace]. by rewrite last_snoc.
Qed.

(** What a run of gdocai.py leaves behind.  Whatever fails, it is nothing
    or the output file, written only for a document with text that the
    processor returned for the content of the input; the file then holds
    that text, or what had reached it when the write failed.  And when
    nothing fails (the checks pass, the client is built, the input is read,
    the processor returns a document with text, the output can be written
    and every line printed), the file holds the text and the run reaches
    its last line, its last print naming the file. *)
Theorem gdocai_main_saves_only_extracted_text w f a file_path project_id location
    processor_id output_file st :
  let result :=
    Gdocai.main w f a file_path project_id location processor_id output_file st in
  (files result.2 = files st
   ∨ ∃ path mime_type image_content d,
       output_file = Some path ∧ path ≠ []
       ∧ Gdocai.get_mime_type a file_path = Some mime_type
       ∧ open_rb w file_path = Return image_content
       ∧ Gdocai.process_document a image_content mime_type = Return d
       ∧ Gdocai.text d ≠ []
       ∧ (files result.2 = <[path := Text (Gdocai.text d)]> (files st)
          ∨ ∃ e remains,
              Faulty.write_error f path (Text (Gdocai.text d)) = Some (e, remains)
              ∧ files result.2 = <[path := Text remains]> (files st)))
  ∧ (∀ path mime_type image_content d,
       (∀ line, Faulty.print_error f line = None) →
       eqb project_id (py "your-gcp-project-id") || eqb project_id [] = false →
       eqb processor_id (py "your-processor-id") || eqb processor_id [] = false →
       Gdocai.exists_path a file_path = true →
       Gdocai.get_mime_type a file_path = Some mime_type →
       Gdocai.make_client a location = Return () →
       open_rb w file_path = Return image_content →
       Gdocai.process_document a image_content mime_type = Return d →
       Gdocai.text d ≠ [] →
       output_file = Some path → path ≠ [] →
       unwritable w path = false →
       Faulty.write_error f path (Text (Gdocai.text d)) = None →
       result.1 = Return Gdocai.Finished
       ∧ files result.2 = <[path := Text (Gdocai.text d)]> (files st)
       ∧ last (trace result.2)
         = Some (Print ([LF] ++ py "Extracted text saved to: " ++ path))).
Proof.
  cbv zeta. split.
  2:{ intros path mime_type image_content d Hprint Hproject Hprocessor Hexists Hget
        Hclient Hopen Hd Htext -> Hpath Hlocked Hwrite.
      by apply (gdocai_main_saves_text w f a file_path project_id location
                  processor_id path mime_type image_content d st). }
  pose proof (quiet_faulty_print f) as Hprint.
  assert (Hexit : ∀ line (code : Z) s,
            files ((Faulty.print f line;; mret (Gdocai.Exit code)) s).2 = files s).
  { intros line code s. apply quiet_files. auto with effects. }
  assert (Hlast : ∀ line s,
            files ((Faulty.print f line;; mret Gdocai.Finished) s).2 = files s).
  { intros line s. apply quiet_files. auto with effects. }
  remember (Gdocai.main w f a file_path project_id location processor_id
              output_file st) as run eqn:Hrun.
  unfold Gdocai.main in Hrun.
  destruct (eqb project_id _ || eqb project_id []); [left; subst run; apply Hexit|].
  destruct (eqb processor_id _ || eqb processor_id []); [left; subst run; apply Hexit|].
  destruct (Gdocai.exists_path a file_path); cbn [negb] in Hrun;
    [|left; subst run; apply Hexit].
  destruct (Gdocai.get_mime_type a file_path) as [mime_type|] eqn:Hmime;
    cbn [truthy_str negb] in Hrun.
  2:{ left. subst run. apply quiet_files. auto with effects. }
  destruct (eqb mime_type []); cbn [negb default from_option] in Hrun.
  { left. subst run. apply quiet_files. auto with effects. }
  unfold id in Hrun.
  unfold mbind at 1, M_bind at 1 in Hrun.
  destruct (Hprint (py "Attempting to process: " ++ file_path ++ py " (MIME: "
                    ++ mime_type ++ py ")") st) as ([e|[]] & tr0 & Hstep);
    rewrite Hstep in Hrun; clear Hstep; [left; by subst run|].
  unfold mbind at 1, M_bind at 1 in Hrun.
  destruct (process_document_sample_returns w f a project_id location processor_id
              file_path mime_type (State (files st) (trace st ++ tr0)))
    as (o & tr1 & Hstep & Hdoc).
  rewrite Hstep in Hrun. clear Hstep. cbn [files trace] in Hrun.
  destruct o as [e|[d|]]; [left; by subst run| |left; subst run; by rewrite Hlast].
  destruct (Hdoc d eq_refl) as (image_content & Hopen & Hd). clear Hdoc.
  unfold Gdocai.document_truthy in Hrun.
  destruct (eqb (Gdocai.text d) []) eqn:Htext; cbn [negb andb orb] in Hrun.
  { left. subst run. destruct (Gdocai.other_fields d); cbn [andb orb negb]; by rewrite Hlast. }
  apply bool_decide_eq_false in Htext.
  unfold mbind at 1, M_bind at 1 in Hrun.
  destruct (Hprint ([LF] ++ py "--- Extracted Text ---")
              (State (files st) ((trace st ++ tr0) ++ tr1))) as ([e|[]] & tr2 & Hstep);
    rewrite Hstep in Hrun; clear Hstep; [left; by subst run|].
  cbn [files trace] in Hrun. unfold mbind at 1, M_bind at 1 in Hrun.
  destruct (Hprint (Gdocai.text d)
              (State (files st) (((trace st ++ tr0) ++ tr1) ++ tr2)))
    as ([e|[]] & tr3 & Hstep);
    rewrite Hstep in Hrun; clear Hstep; [left; by subst run|].
  cbn [files trace] in Hrun. unfold mbind at 1, M_bind at 1 in Hrun.
  destruct (Hprint (py "--- End of Text ---")
              (State (files st) ((((trace st ++ tr0) ++ tr1) ++ tr2) ++ tr3)))
    as ([e|[]] & tr4 & Hstep);
    rewrite Hstep in Hrun; clear Hstep; [left; by subst run|].
  cbn [files trace] in Hrun. unfold mbind, M_bind, mret, M_ret in Hrun.
  pose proof (save_text_writes w f output_file (Gdocai.text d)
                (State (files st) (((((trace st ++ tr0) ++ tr1) ++ tr2) ++ tr3) ++ tr4)))
    as Hsave.
  cbv zeta in Hsave. cbn [files] in Hsave.
  assert (Hsame : files run.2
                  = files (Gdocai.save_text w f output_file (Gdocai.text d)
                             (State (files st)
                                (((((trace st ++ tr0) ++ tr1) ++ tr2) ++ tr3) ++ tr4))).2).
  { subst run. by destruct (Gdocai.save_text _ _ _ _ _) as [[e|[]] s]. }
  rewrite <- Hsame in Hsave. clear Hsame Hrun.
  destruct Hsave as [Hsave|(path & Hout & Hpath & Hsave)]; [by left|].
  right. by exists path, mime_type, image_content, d.
Qed.

Lemma gdocai_main_saves_only_extracted_text_witness :
  let result :=
    Gdocai.main (example_world [(py "in/scan.png", [1; 2; 3])] [] [] []) no_faults
      (example_docai (py "hello")) (py "in/scan.png") Gdocai.DEFAULT_PROJECT_ID
      Gdocai.DEFAULT_LOCATION Gdocai.DEFAULT_PROCESSOR_ID (Some (py "out.txt")) initial in
  result.1 = Return Gdocai.Finished
  ∧ files result.2 = <[py "out.txt" := Text (py "hello")]> (files initial)
  ∧ last (trace result.2)
    = Some (Print ([LF] ++ py "Extracted text saved to: " ++ py "out.txt")).
Proof.
  destruct (gdocai_main_saves_only_extracted_text
              (example_world [(py "in/scan.png", [1; 2; 3])] [] [] []) no_faults
              (example_docai (py "hello")) (py "in/scan.png") Gdocai.DEFAULT_PROJECT_ID
              Gdocai.DEFAULT_LOCATION Gdocai.DEFAULT_PROCESSOR_ID (Some (py "out.txt"))
              initial) as [_ Hsaved].
  apply (Hsaved (py "out.txt") (py "image/png") [1; 2; 3]
           (Gdocai.Document (py "hello") true));
    try reflexivity; try (intros line; reflexivity);
    vm_compute; discriminate.
Defined.

(** ** mtext_extractor.py: one output, written last *)

(** A run of mtext_extractor.py (without [--images]) ends normally exactly
    when every step succeeds: the key is set, the client is built, the
    suffix is in [MIME_MAP], the input is read, the OCR call returns, the
    output is opened and written, and each of the four lines is printed.
    Then the one file it has written, at [--out] or at the automatic name
    beside the input, holds the markdown of the pages the OCR call returned
    for the content of the input.  In every other case it raises, and the
    output is the only path that can have changed: it is opened only after
    the OCR call has returned, and then holds what had reached it when the
    write failed, or the complete markdown when one of the last two prints
    failed.  A PDF is submitted as [document_url], every other type as
    [image_url], under the MIME type of [MIME_MAP]. *)
Theorem mtext_main_outcomes w f b64encode Mistral ocr_process api_key file out st :
  let result := Mtext.main w f b64encode Mistral ocr_process api_key file out st in
  let path :=
    default (Path.joinpath (Path.parent file)
               (Mtext.auto_name file (strftime_Ymd_HMS (clock w (trace st))))) out in
  let recognised mime data pages :=
    truthy_str api_key = true
    ∧ Mistral (default [] api_key) = Return ()
    ∧ Mtext.MIME_MAP !! lower (Path.suffix file) = Some mime
    ∧ open_rb w file = Return data
    ∧ Faulty.print_error f (py "Running OCR " ++ [8230]) = None
    ∧ ocr_process
        (if eqb mime (py "application/pdf") then py "document_url" else py "image_url")
        (py "data:" ++ mime ++ py ";base64," ++ b64encode data)
      = Return pages
    ∧ Faulty.print_error f
        (py " recognised " ++ str_of_nat (length pages) ++ py " page(s)") = None in
  let succeeds mime data pages :=
    recognised mime data pages
    ∧ unwritable w path = false
    ∧ Faulty.write_error f path (Text (Mtext.markdown_of 0 pages)) = None
    ∧ Faulty.print_error f ([8594] ++ py " Markdown saved to " ++ path) = None
    ∧ Faulty.print_error f ([9989] ++ py " Done.") = None in
  match result.1 with
  | Return _ =>
      ∃ mime data pages,
        succeeds mime data pages
        ∧ files result.2 = <[path := Text (Mtext.markdown_of 0 pages)]> (files st)
  | Raise e =>
      (∀ mime data pages, ¬ succeeds mime data pages)
      ∧ (files result.2 = files st
         ∨ ∃ mime data pages,
             recognised mime data pages
             ∧ unwritable w path = false
             ∧ (files result.2 = <[path := Text (Mtext.markdown_of 0 pages)]> (files st)
                ∧ Faulty.write_error f path (Text (Mtext.markdown_of 0 pages)) = None
                ∨ ∃ remains,
                    Faulty.write_error f path (Text (Mtext.markdown_of 0 pages))
                    = Some (e, remains)
                    ∧ files result.2 = <[path := Text remains]> (files st)))
  end.
Proof.
  cbv zeta.
  remember (Mtext.main w f b64encode Mistral ocr_process api_key file out st)
    as run eqn:Hrun.
  unfold Mtext.main in Hrun.
  destruct (truthy_str api_key) eqn:Hkey; cbn [negb] in Hrun.
  2:{ subst run. split; [by intros ??? ((? & _) & _)|by left]. }
  unfold mbind at 1, M_bind at 1, lift at 1 in Hrun.
  destruct (Mistral (default [] api_key)) as [e|[]] eqn:Hclient.
  { subst run. split; [by intros ??? ((_ & ? & _) & _)|by left]. }
  destruct (Mtext.MIME_MAP !! lower (Path.suffix file)) as [mime|] eqn:Hmime.
  2:{ subst run. split; [by intros ??? ((_ & _ & ? & _) & _)|by left]. }
  assert (Hpdf : eqb (lower (Path.suffix file)) (py ".pdf") = eqb mime (py "application/pdf")).
  { apply elem_of_list_to_map_2, list_elem_of_In in Hmime. cbn [In] in Hmime.
    repeat (destruct Hmime as [Hmime|Hmime];
            [injection Hmime as <- <-; vm_compute; reflexivity|]).
    destruct Hmime. }
  rewrite Hpdf in Hrun.
  unfold mbind at 1, M_bind at 1, lift at 1 in Hrun.
  destruct (open_rb w file) as [e|data] eqn:Hopen.
  { subst run. split; [by intros ??? ((_ & _ & _ & ? & _) & _)|by left]. }
  assert (Hout :
    ∀ k : str → M unit,
      ((match out with
        | Some out => mret out
        | None =>
            d ← now w;
            mret (Path.joinpath (Path.parent file)
                    (Mtext.auto_name file (strftime_Ymd_HMS d)))
        end) ≫= k) st
      = k (default (Path.joinpath (Path.parent file)
                      (Mtext.auto_name file (strftime_Ymd_HMS (clock w (trace st)))))
             out) st).
  { intros k. by destruct out. }
  rewrite Hout in Hrun. clear Hout.
  set (path := default _ out) in *.
  unfold Faulty.write_file, Faulty.store, Faulty.print, mbind, M_bind, lift, emit,
    raise in Hrun.
  destruct (Faulty.print_error f (py "Running OCR " ++ [8230])) as [e|] eqn:Hp1.
  { subst run. split; [|by left].
    intros ??? ((_ & _ & _ & _ & ? & _) & _). congruence. }
  cbn [files trace] in Hrun.
  destruct (ocr_process _ _) as [e|pages] eqn:Hpages.
  { subst run. split; [|by left].
    intros ??? ((_ & _ & [= <-] & [= <-] & _ & ? & _) & _). congruence. }
  destruct (Faulty.print_error f (py " recognised " ++ _)) as [e|] eqn:Hp2.
  { subst run. split; [|by left].
    intros ??? ((_ & _ & [= <-] & [= <-] & _ & ? & ?) & _).
    assert (pages0 = pages) as -> by congruence. congruence. }
  cbn [files trace] in Hrun.
  assert (Hrecognised :
    truthy_str api_key = true
    ∧ Return () = Return ()
    ∧ Some mime = Some mime
    ∧ Return data = Return data
    ∧ Faulty.print_error f (py "Running OCR " ++ [8230]) = None
    ∧ ocr_process
        (if eqb mime (py "application/pdf") then py "document_url" else py "image_url")
        (py "data:" ++ mime ++ py ";base64," ++ b64encode data)
      = Return pages
    ∧ Faulty.print_error f
        (py " recognised " ++ str_of_nat (length pages) ++ py " page(s)") = None)
    by done.
  assert (Hsame : ∀ m d p,
            Some mime = Some m → Return data = Return d →
            ocr_process
              (if eqb m (py "application/pdf") then py "document_url" else py "image_url")
              (py "data:" ++ m ++ py ";base64," ++ b64encode d)
            = Return p → p = pages).
  { intros m d p [= <-] [= <-] Hp. congruence. }
  destruct (unwritable w path) eqn:Hlocked.
  { subst run. split; [|by left].
    intros ??? (_ & ? & _). congruence. }
  destruct (Faulty.write_error f path (Text (Mtext.markdown_of 0 pages)))
    as [[e remains]|] eqn:Hwrite.
  { subst run. cbn. split.
    - intros m d p ((_ & _ & Hm & Hd & _ & Hp & _) & _ & Hw & _).
      rewrite (Hsame m d p Hm Hd Hp) in Hw. congruence.
    - right. exists mime, data, pages. split; [done|]. split; [done|].
      right. by exists remains. }
  cbn [files trace] in Hrun.
  destruct (Faulty.print_error f ([8594] ++ py " Markdown saved to " ++ path))
    as [e|] eqn:Hp3.
  { subst run. cbn. split.
    - intros m d p (_ & _ & _ & ? & _). congruence.
    - right. exists mime, data, pages. split; [done|]. split; [done|]. by left. }
  cbn [files trace] in Hrun.
  destruct (Faulty.print_error f ([9989] ++ py " Done.")) as [e|] eqn:Hp4.
  { subst run. cbn. split.
    - intros m d p (_ & _ & _ & _ & ?). congruence.
    - right. exists mime, data, pages. split; [done|]. split; [done|]. by left. }
  subst run. cbn. exists mime, data, pages. done.
Qed.

(** ** azure-gcp-vision-extractor.py: the clients and [main] *)


Lemma scan_run h listing : ∀ files_to_process st,
  VisionMain.scan h listing files_to_process st
  = (match foldr (λ p rest,
                    match VisionMain.is_file h p, rest with
                    | Raise e, _ => Raise e
                    | Return _, Raise e => Raise e
                    | Return p_is_file, Return found =>
                        Return (if p_is_file && VisionMain.supported p
                                then p :: found else found)
                    end) (Return []) listing with
     | Raise e => Raise e
     | Return found => Return (files_to_process ++ found)
     end, st).
Proof.
  induction listing as [|p listing IH]; intros files_to_process st.
  - cbn. by rewrite app_nil_r.
  - cbn [VisionMain.scan foldr]. unfold mbind, M_bind, lift.
    destruct (VisionMain.is_file h p) as [e|p_is_file].
    + by destruct (foldr _ _ listing).
    + rewrite IH. destruct (foldr _ _ listing) as [e|found]; [done|].
      destruct (p_is_file && VisionMain.supported p); [|done].
      by rewrite <- app_assoc.
Qed.

(** What the loop over a listing collects, when no check raises: the files
    of the listing with a supported suffix, in the order of the listing. *)
Lemma scan_found h listing found :
  foldr (λ p rest,
           match VisionMain.is_file h p, rest with
           | Raise e, _ => Raise e
           | Return _, Raise e => Raise e
           | Return p_is_file, Return found =>
               Return (if p_is_file && VisionMain.supported p then p :: found else found)
           end) (Return []) listing = Return found →
  Forall (λ p, VisionMain.is_file h p = Return true ∧ VisionMain.supported p = true) found
  ∧ sublist found listing
  ∧ ∀ p, p ∈ listing → VisionMain.is_file h p = Return true →
         VisionMain.supported p = true → p ∈ found.
Proof.
  revert found. induction listing as [|p listing IH]; intros found; cbn [foldr].
  - intros [= <-]. split; [done|]. split; [done|]. by intros ? ?%elem_of_nil.
  - destruct (VisionMain.is_file h p) as [e|p_is_file] eqn:Hp; [done|].
    destruct (foldr _ _ listing) as [e|found'] eqn:Hrest; [done|].
    destruct (IH found' eq_refl) as (Hall & Hsub & Hin).
    intros [= <-].
    destruct p_is_file; cbn [andb]; [destruct (VisionMain.supported p) eqn:Hs|].
    + split; [by constructor|]. split; [by constructor|].
      intros q [->|Hq]%elem_of_cons ??; [by left|]. right. by apply Hin.
    + split; [done|]. split; [by constructor|].
      intros q [->|Hq]%elem_of_cons ??; [congruence|]. by apply Hin.
    + split; [done|]. split; [by constructor|].
      intros q [->|Hq]%elem_of_cons ??; [congruence|]. by apply Hin.
Qed.

Lemma files_to_process_collects h input_path input_path_obj st :
  let result := VisionMain.files_to_process h input_path input_path_obj st in
  files result.2 = files st
  ∧ (∀ e, result.1 = Raise e →
          VisionMain.is_file h input_path_obj = Raise e
          ∨ VisionMain.is_dir h input_path_obj = Raise e
          ∨ VisionMain.rglob h input_path_obj = Raise e
          ∨ (∃ listing p, VisionMain.rglob h input_path_obj = Return listing
                          ∧ p ∈ listing ∧ VisionMain.is_file h p = Raise e)
          ∨ ∃ line, Faulty.print_error (VisionMain.stdout h) line = Some e)
  ∧ ∀ files_to_process,
      result.1 = Return (Some files_to_process) →
      Forall (λ p, VisionMain.is_file h p = Return true
                   ∧ is_pdf p || is_image p = true) files_to_process
      ∧ (VisionMain.is_file h input_path_obj = Return true →
         files_to_process
         = if is_pdf input_path_obj || is_image input_path_obj
           then [input_path_obj] else [])
      ∧ (VisionMain.is_file h input_path_obj = Return false →
         ∃ listing,
           VisionMain.rglob h input_path_obj = Return listing
           ∧ sublist files_to_process listing
           ∧ ∀ p, p ∈ listing →
                  VisionMain.is_file h p = Return true → is_pdf p || is_image p = true →
                  p ∈ files_to_process).
Proof.
  assert (Hsupported : ∀ p, VisionMain.supported p = is_pdf p || is_image p).
  { intros p. unfold VisionMain.supported, is_pdf, is_image, file_ext.
    apply orb_comm. }
  cbv zeta.
  remember (VisionMain.files_to_process h input_path input_path_obj st) as run eqn:Hrun.
  unfold VisionMain.files_to_process, Faulty.print, mbind, M_bind, lift, emit, raise,
    mret, M_ret in Hrun.
  destruct (VisionMain.is_file h input_path_obj) as [e|[]] eqn:Hfile.
  - subst run. cbn. split; [done|]. split; [|done]. intros ? [= <-]. by left.
  - rewrite Hsupported in Hrun.
    destruct (is_pdf input_path_obj || is_image input_path_obj) eqn:Hext.
    + subst run. cbn. split; [done|]. split; [done|]. intros ? [= <-].
      split; [by repeat constructor|]. split; [done|]. intros [=].
    + destruct (Faulty.print_error _ _) as [e|] eqn:Hprint; subst run; cbn.
      * split; [done|]. split; [|done]. intros ? [= <-]. do 4 right. by eexists.
      * split; [done|]. split; [done|]. intros ? [= <-].
        split; [done|]. split; [done|]. intros [=].
  - destruct (VisionMain.is_dir h input_path_obj) as [e|[]] eqn:Hdir.
    + subst run. cbn. split; [done|]. split; [|done]. intros ? [= <-]. right. by left.
    + destruct (Faulty.print_error _ _) as [e|] eqn:Hprint.
      { subst run. cbn. split; [done|]. split; [|done]. intros ? [= <-].
        do 4 right. by eexists. }
      destruct (VisionMain.rglob h input_path_obj) as [e|listing] eqn:Hlisting.
      { subst run. cbn. split; [done|]. split; [|done]. intros ? [= <-].
        do 2 right. by left. }
      rewrite scan_run in Hrun.
      destruct (foldr _ _ listing) as [e|found] eqn:Hfound.
      * subst run. cbn. split; [done|]. split; [|done]. intros ? [= <-].
        do 3 right. left. exists listing.
        clear Hlisting. revert Hfound. clear.
        induction listing as [|p listing IH]; cbn [foldr]; [done|].
        destruct (VisionMain.is_file h p) as [e'|b] eqn:Hp.
        -- intros [= <-]. exists p. split; [done|]. split; [by left|done].
        -- destruct (foldr _ _ listing) as [e'|found]; [|done].
           intros [= <-]. destruct (IH eq_refl) as (q & _ & Hq & Hqe).
           exists q. split; [done|]. split; [by right|done].
      * subst run. cbn. split; [done|]. split; [done|]. intros ? [= <-].
        destruct (scan_found h listing found Hfound) as (Hall & Hsub & Hin).
        split; [|split; [intros [=]|intros _]].
        -- eapply Forall_impl; [exact Hall|]. intros p [? ?]. by rewrite <- Hsupported.
        -- exists listing. split; [done|]. split; [done|].
           intros p Hp Hf Hs. apply Hin; [done..|]. by rewrite Hsupported.
    + destruct (Faulty.print_error _ _) as [e|] eqn:Hprint; subst run; cbn.
      * split; [done|]. split; [|done]. intros ? [= <-]. do 4 right. by eexists.
      * done.
Qed.

Lemma files_to_process_none h input_path input_path_obj st :
  (VisionMain.files_to_process h input_path input_path_obj st).1 = Return None →
  VisionMain.is_file h input_path_obj = Return false
  ∧ VisionMain.is_dir h input_path_obj = Return false.
Proof.
  unfold VisionMain.files_to_process, Faulty.print, mbind, M_bind, lift, emit, raise,
    mret, M_ret.
  destruct (VisionMain.is_file h input_path_obj) as [e|[]]; [done| |].
  - destruct (VisionMain.supported input_path_obj); [done|].
    by destruct (Faulty.print_error _ _).
  - destruct (VisionMain.is_dir h input_path_obj) as [e|[]]; [done| |done].
    destruct (Faulty.print_error _ _); [done|].
    destruct (VisionMain.rglob h input_path_obj) as [e|listing]; [done|].
    rewrite scan_run. by destruct (foldr _ _ listing).
Qed.

(** What [main] collects to process.  Collecting writes nothing.  It
    raises only where a check of pathlib ([is_file], [is_dir], [rglob]) or
    a print that shows the input path raises, none of which has a handler.
    What it returns are files with a supported suffix: each of them is a
    PDF or an image for [process_file], whose branch for an unsupported
    type is therefore never taken from [main]; a single file is taken as
    it is, and a directory gives the supported files of its listing, in the
    order of the listing.  Nothing is collected, and [main] returns, only
    for an input that is neither a file nor a directory. *)
Theorem main_collects_supported_files h input_path input_path_obj st :
  let result := VisionMain.files_to_process h input_path input_path_obj st in
  files result.2 = files st
  ∧ (∀ e, result.1 = Raise e →
          VisionMain.is_file h input_path_obj = Raise e
          ∨ VisionMain.is_dir h input_path_obj = Raise e
          ∨ VisionMain.rglob h input_path_obj = Raise e
          ∨ (∃ listing p, VisionMain.rglob h input_path_obj = Return listing
                          ∧ p ∈ listing ∧ VisionMain.is_file h p = Raise e)
          ∨ ∃ line, Faulty.print_error (VisionMain.stdout h) line = Some e)
  ∧ (∀ files_to_process,
       result.1 = Return (Some files_to_process) →
       Forall (λ p, VisionMain.is_file h p = Return true
                    ∧ is_pdf p || is_image p = true) files_to_process
       ∧ (VisionMain.is_file h input_path_obj = Return true →
          files_to_process
          = if is_pdf input_path_obj || is_image input_path_obj
            then [input_path_obj] else [])
       ∧ (VisionMain.is_file h input_path_obj = Return false →
          ∃ listing,
            VisionMain.rglob h input_path_obj = Return listing
            ∧ sublist files_to_process listing
            ∧ ∀ p, p ∈ listing →
                   VisionMain.is_file h p = Return true → is_pdf p || is_image p = true →
                   p ∈ files_to_process))
  ∧ (result.1 = Return None →
     VisionMain.is_file h input_path_obj = Return false
     ∧ VisionMain.is_dir h input_path_obj = Return false).
Proof.
  cbv zeta.
  destruct (files_to_process_collects h input_path input_path_obj st)
    as (Hfiles & Hraise & Hfound).
  split; [done|]. split; [done|]. split; [done|].
  apply files_to_process_none.
Qed.

Lemma get_google_vision_client_run h credentials_path st :
  ∃ client tr,
    VisionMain.get_google_vision_client h credentials_path st
    = (Return client, State (files st) (trace st ++ tr))
    ∧ Forall (λ e, is_print e = true) tr
    ∧ (client = None ↔ ∃ e, VisionMain.from_service_account_json h credentials_path = Raise e).
Proof.
  unfold VisionMain.get_google_vision_client, try_except, mbind, M_bind, lift, print,
    emit, mret, M_ret.
  destruct (VisionMain.from_service_account_json h credentials_path) as [e|client]; cbn.
  - eexists None, [Print _; Print _]. rewrite <- app_assoc.
    split; [done|]. split; [by repeat constructor|]. split; [by exists e|done].
  - eexists (Some client), [Print _]. split; [done|]. split; [by repeat constructor|].
    split; [done|by intros [? ?]].
Qed.

Lemma get_azure_vision_client_run h credentials_path st :
  ∃ client line,
    VisionMain.get_azure_vision_client h credentials_path st
    = (Return client, State (files st) (trace st ++ [Print line])).
Proof.
  unfold VisionMain.get_azure_vision_client, try_except, mbind, M_bind, lift,
    print, emit, mret, M_ret.
  destruct (VisionMain.json_load h credentials_path) as [e|creds]; cbn;
    [destruct (exc_type e); cbn; eauto|].
  destruct (VisionMain.getitem creds (py "endpoint")) as [e|endpoint]; cbn;
    [destruct (exc_type e); cbn; eauto|].
  destruct (VisionMain.getitem creds (py "key")) as [e|key]; cbn;
    [destruct (exc_type e); cbn; eauto|].
  destruct (VisionMain.ComputerVisionClient h endpoint key) as [e|client]; cbn;
    [destruct (exc_type e); cbn; eauto|eauto].
Qed.

(** The initialization of the client of the chosen provider cannot fail
    and only prints; it yields no clients exactly when the client of the
    chosen provider could not be built. *)
Lemma clients_run h api google_creds azure_creds st :
  ∃ initialized tr,
    VisionMain.clients h api google_creds azure_creds st
    = (Return initialized, State (files st) (trace st ++ tr))
    ∧ Forall (λ e, is_print e = true) tr
    ∧ (initialized = None
       ↔ api = py "google"
         ∧ (VisionMain.get_google_vision_client h google_creds st).1 = Return None
         ∨ api = py "azure"
           ∧ (VisionMain.get_azure_vision_client h azure_creds st).1 = Return None).
Proof.
  unfold VisionMain.clients.
  destruct (eqb api (py "google")) eqn:Hgoogle.
  - apply bool_decide_eq_true in Hgoogle. subst api.
    destruct (get_google_vision_client_run h google_creds st)
      as (client & tr & Hrun & Hprints & _).
    unfold mbind, M_bind. rewrite Hrun. cbn [fst].
    destruct client as [client|].
    + eexists _, tr. split; [reflexivity|]. split; [done|].
      split; [done|]. intros [[_ [=]]|[[=] _]].
    + eexists None, (tr ++ [Print _]). unfold print, emit, mret, M_ret. cbn.
      rewrite app_assoc. split; [reflexivity|].
      split; [apply Forall_app; by repeat constructor|]. split; [by left|done].
  - apply bool_decide_eq_false in Hgoogle.
    destruct (eqb api (py "azure")) eqn:Hazure.
    + apply bool_decide_eq_true in Hazure. subst api.
      destruct (get_azure_vision_client_run h azure_creds st) as (client & line & Hrun).
      unfold mbind, M_bind. rewrite Hrun. cbn [fst].
      destruct client as [client|].
      * eexists _, [Print line]. split; [reflexivity|]. split; [by repeat constructor|].
        split; [done|]. intros [[[=] _]|[_ [=]]].
      * eexists None, [Print line; Print _]. unfold print, emit, mret, M_ret. cbn.
        rewrite <- app_assoc. split; [reflexivity|].
        split; [by repeat constructor|]. split; [by right|done].
    + apply bool_decide_eq_false in Hazure.
      exists (Some (None, None)), []. rewrite app_nil_r.
      split; [by destruct st|]. split; [done|]. split; [done|].
      by intros [[? _]|[? _]].
Qed.

(** Without the client of the chosen provider [main] stops before it looks
    at the input: once the output directory is made, a failed
    initialization makes it return having only printed, whatever the input
    path holds. *)
Theorem main_stops_without_client h w input_path input_path_obj output_dir api
    google_creds azure_creds force st :
  VisionMain.mkdir h output_dir = Return () →
  api = py "google"
  ∧ (VisionMain.get_google_vision_client h google_creds st).1 = Return None
  ∨ api = py "azure"
    ∧ (VisionMain.get_azure_vision_client h azure_creds st).1 = Return None →
  let result :=
    VisionMain.main h w input_path input_path_obj output_dir api google_creds
      azure_creds force st in
  result.1 = Return ()
  ∧ files result.2 = files st
  ∧ ∃ tr, trace result.2 = trace st ++ tr ∧ Forall (λ e, is_print e = true) tr.
Proof.
  intros Hmkdir Hfailed. cbv zeta.
  destruct (clients_run h api google_creds azure_creds st)
    as (initialized & tr & Hrun & Hprints & Hnone).
  apply Hnone in Hfailed. subst initialized.
  assert (Hmain :
    VisionMain.main h w input_path input_path_obj output_dir api google_creds
      azure_creds force st
    = (Return (), State (files st) (trace st ++ tr))).
  { unfold VisionMain.main, VisionMain.ensure_dir.
    unfold mbind at 1, M_bind at 1, lift at 1. rewrite Hmkdir.
    unfold mbind at 1, M_bind at 1. by rewrite Hrun. }
  rewrite Hmain. cbn. split; [done|]. split; [done|]. by exists tr.
Qed.

Lemma main_stops_without_client_witness :
  (VisionMain.main (example_host (Return (JDict [(py "endpoint", JStr (py "https://x"))]))
                      [py "in/scan.png"] [] [])
     (example_world [(py "in/scan.png", [1; 2; 3])] [] [] [])
     (py "in/scan.png") (py "in/scan.png") (py "out") (py "azure")
     (py "google_credentials.json") (py "azure_credentials.json") false initial).1
  = Return ().
Proof.
  destruct (main_stops_without_client
              (example_host (Return (JDict [(py "endpoint", JStr (py "https://x"))]))
                 [py "in/scan.png"] [] [])
              (example_world [(py "in/scan.png", [1; 2; 3])] [] [] [])
              (py "in/scan.png") (py "in/scan.png") (py "out") (py "azure")
              (py "google_credentials.json") (py "azure_credentials.json") false initial)
    as [Hresult _].
  - reflexivity.
  - right. split; [reflexivity|]. vm_compute. reflexivity.
  - exact Hresult.
Defined.

(** ** multi_extractor.py: the providers of a run *)

Lemma configs_set_length name v d :
  name ∈ d.*1 → length (MultiMain.configs_set name v d) = length d.
Proof.
  induction d as [|[k v'] d IH]; [by intros ?%elem_of_nil|].
  cbn. destruct (eqb k name) eqn:Hk; [done|].
  intros [->|Hin]%elem_of_cons; cbn.
  - unfold eqb in Hk. by rewrite bool_decide_eq_false in Hk.
  - by rewrite IH.
Qed.

Lemma configs_pop_length name d :
  name ∈ d.*1 → S (length (MultiMain.configs_pop name d)) = length d.
Proof.
  induction d as [|[k v'] d IH]; [by intros ?%elem_of_nil|].
  cbn. destruct (eqb k name) eqn:Hk; [done|].
  intros [->|Hin]%elem_of_cons; cbn.
  - unfold eqb in Hk. by rewrite bool_decide_eq_false in Hk.
  - by rewrite IH.
Qed.

(** Setting the entry the loop is at leaves the entries after it alone. *)
Lemma configs_set_drop name c v d i :
  d !! i = Some (name, c) →
  drop (S i) (MultiMain.configs_set name v d) = drop (S i) d.
Proof.
  revert i. induction d as [|[k v'] d IH]; intros i; [done|].
  cbn [MultiMain.configs_set]. destruct (eqb k name) eqn:Hk; [done|].
  destruct i as [|i]; cbn.
  - intros [= -> _]. unfold eqb in Hk. by rewrite bool_decide_eq_false in Hk.
  - apply IH.
Qed.

Lemma lookup_name {A} (d : list (str * A)) i name c :
  d !! i = Some (name, c) → name ∈ d.*1.
Proof.
  intros H. apply list_elem_of_fmap. exists (name, c). split; [done|].
  by eapply list_elem_of_lookup_2.
Qed.

(** The initialization loop writes nothing.  Where the object of every
    entry from position [i] on can be built it returns a dictionary of the
    same size; where the object of one of them cannot, the entry is popped
    and the next step of the iteration raises. *)
Lemma initialize_loop_run h todo : ∀ i d st,
  (i + todo = length d)%nat →
  ∃ tr,
    Forall (λ e, is_print e = true) tr
    ∧ (Exists (fails_to_initialize h) (drop i d)
       ∧ MultiMain.initialize_loop h todo i (length d) d st
         = (Raise (Exn OtherException (py "dictionary changed size during iteration")),
            State (files st) (trace st ++ tr))
       ∨ Forall (λ entry, ¬ fails_to_initialize h entry) (drop i d)
         ∧ ∃ d', length d' = length d
                 ∧ MultiMain.initialize_loop h todo i (length d) d st
                   = (Return d', State (files st) (trace st ++ tr))).
Proof.
  induction todo as [|todo IH]; intros i d st Hi.
  - exists []. split; [done|]. right.
    replace i with (length d) by lia. rewrite drop_all. split; [done|].
    exists d. split; [done|]. cbn. rewrite Nat.eqb_refl, app_nil_r. by destruct st.
  - destruct (d !! i) as [[name config_data]|] eqn:Hlookup;
      [|apply lookup_ge_None in Hlookup; lia].
    rewrite (drop_S _ _ _ Hlookup).
    pose proof (lookup_name _ _ _ _ Hlookup) as Hname.
    cbn [MultiMain.initialize_loop]. rewrite Nat.eqb_refl. cbn [negb].
    change MultiMain.configs with (list (str * MultiMain.config_data)) in *.
    rewrite Hlookup.
    unfold MultiMain.initialize_entry.
    destruct (MultiMain.initialize h name config_data) as [err|obj] eqn:Hinit.
    + assert (Hpopped : ∀ s,
                MultiMain.initialize_loop h todo (S i) (length d)
                  (MultiMain.configs_pop name d) s
                = (Raise (Exn OtherException
                            (py "dictionary changed size during iteration")), s)).
      { intros s. pose proof (configs_pop_length name d Hname) as Hlen.
        destruct todo; cbn [MultiMain.initialize_loop];
          (replace (_ =? _)%nat with false by (symmetry; apply Nat.eqb_neq; lia));
          done. }
      destruct err as [ie|e].
      * eexists [Print _]. split; [by repeat constructor|]. left.
        split; [left; by exists (MultiMain.ImportError ie)|].
        unfold mbind, M_bind, print, emit, mret, M_ret. by rewrite Hpopped.
      * eexists [Print _; Print _]. split; [by repeat constructor|]. left.
        split; [left; by exists (MultiMain.OtherError e)|].
        unfold mbind, M_bind, print, emit, mret, M_ret.
        rewrite Hpopped. cbn [files trace]. by rewrite <- app_assoc.
    + unfold mbind, M_bind, mret, M_ret.
      set (d1 := MultiMain.configs_set name _ d).
      assert (Hlen : length d1 = length d) by by apply configs_set_length.
      assert (Hdrop : drop (S i) d1 = drop (S i) d) by by eapply configs_set_drop.
      destruct (IH (S i) d1 st ltac:(lia)) as (tr & Hprints & Hrun).
      rewrite Hlen, Hdrop in Hrun. exists tr. split; [done|].
      destruct Hrun as [[Hfails Hrun]|[Hfine (d' & Hd' & Hrun)]].
      * left. split; [by right|done].
      * right. split.
        -- constructor; [|done]. intros [err Herr]. cbn in Herr. congruence.
        -- by exists d'.
Qed.

Lemma providers_get_elem name table config :
  MultiMain.providers_get name table = Some config → (name, config) ∈ table.
Proof.
  induction table as [|[k v] table IH]; [done|]. cbn.
  destruct (eqb k name) eqn:Hk.
  - apply bool_decide_eq_true in Hk. intros [= <-]. subst k. by left.
  - intros H. right. by apply IH.
Qed.

(** The providers found in the environment, for any table: they are the
    entries of the table whose variable is set, in the order of the table,
    each with its key and its default model. *)
Lemma detected_providers (h : MultiMain.host) (table : list (str * MultiMain.provider)) :
  let detected :=
    omap (λ '(name, config),
            let api_key := MultiMain.getenv h (MultiMain.api_key_env config) in
            if truthy_str api_key
            then Some (name, MultiMain.ConfigData (default [] api_key)
                               (MultiMain.default_model config) None)
            else None) table in
  detected.*1
  = (List.filter (λ entry, truthy_str (MultiMain.getenv h (MultiMain.api_key_env entry.2)))
       table).*1
  ∧ Forall (λ entry,
              ∃ config,
                (entry.1, config) ∈ table
                ∧ MultiMain.getenv h (MultiMain.api_key_env config)
                  = Some (MultiMain.api_key entry.2)
                ∧ MultiMain.api_key entry.2 ≠ []
                ∧ MultiMain.model entry.2 = MultiMain.default_model config
                ∧ MultiMain.client_or_model_obj entry.2 = None) detected.
Proof.
  induction table as [|[name config] table [IHnames IH]]; [done|].
  cbn [omap list_omap List.filter snd]. cbv zeta in *.
  destruct (MultiMain.getenv h (MultiMain.api_key_env config)) as [key|] eqn:Hkey;
    cbn [truthy_str].
  - destruct (eqb key []) eqn:Hempty; cbn [negb].
    + split; [done|]. eapply Forall_impl; [exact IH|].
      intros entry (c & Hc & H). exists c. split; [by right|done].
    + split; [cbn; by f_equal|]. constructor.
      * exists config. cbn. split; [by left|]. split; [done|].
        split; [by apply bool_decide_eq_false in Hempty|done].
      * eapply Forall_impl; [exact IH|].
        intros entry (c & Hc & H). exists c. split; [by right|done].
  - split; [done|]. eapply Forall_impl; [exact IH|].
    intros entry (c & Hc & H). exists c. split; [by right|done].
Qed.

(** The choice of the providers writes nothing and only prints. *)
Lemma select_run h provider model st :
  ∃ o tr,
    MultiMain.select h provider model st = (o, State (files st) (trace st ++ tr))
    ∧ Forall (λ e, is_print e = true) tr.
Proof.
  assert (Hnone : ∀ A (o : outcome A),
            ∃ o' tr, (o, st) = (o', State (files st) (trace st ++ tr))
                     ∧ Forall (λ e, is_print e = true) tr).
  { intros A o. exists o, []. rewrite app_nil_r. by destruct st. }
  unfold MultiMain.select.
  destruct (truthy_str provider).
  - destruct (MultiMain.providers_get _ _) as [config|]; [|apply Hnone].
    destruct (negb _); eexists _, [Print _]; by repeat constructor.
  - cbv zeta. destruct (omap _ _) as [|[name config_data] rest].
    { eexists _, [Print _; Print _]. split; [|by repeat constructor].
      unfold mbind, M_bind, print, emit, mret, M_ret. cbn. by rewrite <- app_assoc. }
    destruct (truthy_str model); [destruct rest|];
      eexists _, [Print _]; by repeat constructor.
Qed.

(** Which providers a run uses, and with which models.  With [--provider]
    it is that one provider; without it, the providers of [PROVIDERS] whose
    key is set in the environment, in the order of the table.  Every
    provider of the run has a non-empty key, and [--model] is the model
    exactly when the run has a single provider; otherwise each provider
    runs with its default model. *)
Theorem select_providers_and_models h provider model st selected st1 :
  MultiMain.select h provider model st = (Return (Some selected), st1) →
  selected ≠ []
  ∧ (truthy_str provider = true → selected.*1 = [default [] provider])
  ∧ (truthy_str provider = false →
     selected.*1
     = (List.filter
          (λ entry, truthy_str (MultiMain.getenv h (MultiMain.api_key_env entry.2)))
          MultiMain.PROVIDERS).*1)
  ∧ Forall (λ entry,
              ∃ config,
                (entry.1, config) ∈ MultiMain.PROVIDERS
                ∧ MultiMain.getenv h (MultiMain.api_key_env config)
                  = Some (MultiMain.api_key entry.2)
                ∧ MultiMain.api_key entry.2 ≠ []
                ∧ MultiMain.model entry.2
                  = (if truthy_str model && (length selected =? 1)%nat
                     then default [] model else MultiMain.default_model config)
                ∧ MultiMain.client_or_model_obj entry.2 = None) selected
  ∧ files st1 = files st.
Proof.
  intros Hselect.
  destruct (select_run h provider model st) as (o & tr & Hrun & _).
  rewrite Hselect in Hrun. injection Hrun as _ ->. cbn [files].
  revert Hselect. unfold MultiMain.select.
  destruct (truthy_str provider) eqn:Hprovider.
  - destruct (MultiMain.providers_get _ _) as [config|] eqn:Hconfig; [|done].
    apply providers_get_elem in Hconfig.
    destruct (MultiMain.getenv h (MultiMain.api_key_env config)) as [key|] eqn:Hkey;
      [|done].
    cbn [truthy_str]. destruct (eqb key []) eqn:Hempty; [done|].
    cbn [negb]. rewrite print_bind. intros [= <- _].
    split; [done|]. split; [done|]. split; [done|]. split; [|done].
    constructor; [|done]. exists config. cbn.
    split; [done|]. split; [done|].
    split; [by apply bool_decide_eq_false in Hempty|]. split; [|done].
    by rewrite andb_true_r.
  - destruct (detected_providers h MultiMain.PROVIDERS) as [Hnames Hentries].
    cbv zeta in *. revert Hnames Hentries.
    generalize (omap (λ '(name, config),
                        if truthy_str (MultiMain.getenv h (MultiMain.api_key_env config))
                        then Some (name,
                                   MultiMain.ConfigData
                                     (default [] (MultiMain.getenv h
                                                    (MultiMain.api_key_env config)))
                                     (MultiMain.default_model config) None)
                        else None) MultiMain.PROVIDERS).
    intros detected Hnames Hentries.
    destruct detected as [|[name config_data] rest]; [done|].
    destruct (truthy_str model) eqn:Hmodel; [destruct rest as [|second rest]|];
      rewrite print_bind; intros [= <- _]; cbn [andb length Nat.eqb];
      (split; [done|]; split; [done|]; split; [by intros _|]; split; [|done]);
      try done.
    apply Forall_cons in Hentries as [(config & Hc & Hkey & Hne & _ & Hobj) _].
    constructor; [|done]. exists config. cbn in *. done.
Qed.

Lemma select_providers_and_models_witness :
  Forall (λ entry,
            ∃ config,
              (entry.1, config) ∈ MultiMain.PROVIDERS
              ∧ MultiMain.getenv (example_providers [(py "OPENAI_API_KEY", py "sk-1")] [])
                  (MultiMain.api_key_env config)
                = Some (MultiMain.api_key entry.2)
              ∧ MultiMain.api_key entry.2 ≠ []
              ∧ MultiMain.model entry.2
                = (if truthy_str (Some (py "gpt-4.1")) && (1 =? 1)%nat
                   then default [] (Some (py "gpt-4.1"))
                   else MultiMain.default_model config)
              ∧ MultiMain.client_or_model_obj entry.2 = None)
    [(py "openai", MultiMain.ConfigData (py "sk-1") (py "gpt-4.1") None)].
Proof.
  destruct (select_providers_and_models
              (example_providers [(py "OPENAI_API_KEY", py "sk-1")] [])
              None (Some (py "gpt-4.1")) initial
              [(py "openai", MultiMain.ConfigData (py "sk-1") (py "gpt-4.1") None)]
              (State ∅ [Print (py "Auto-detected single provider: openai. Using specified model: gpt-4.1")]))
    as (_ & _ & _ & Hentries & _).
  - vm_compute. reflexivity.
  - exact Hentries.
Defined.

(** A provider whose initialization fails is not skipped: popping its
    entry inside the loop over the dictionary makes the next step of the
    iteration raise, so the run ends there with the [RuntimeError], after
    the lines of the handler, without having looked at the input file,
    called a provider or written a file. *)
Theorem failed_initialization_ends_the_run h w a file_path prompt provider model
    poppler_path st selected st1 :
  MultiMain.select h provider model st = (Return (Some selected), st1) →
  Exists (fails_to_initialize h) selected →
  let result := MultiMain.main h w a file_path prompt provider model poppler_path st in
  result.1 = Raise (Exn OtherException (py "dictionary changed size during iteration"))
  ∧ files result.2 = files st
  ∧ ∃ tr, trace result.2 = trace st ++ tr ∧ Forall (λ e, is_print e = true) tr.
Proof.
  intros Hselect Hfails. cbv zeta.
  destruct (select_run h provider model st) as (o & tr & Hrun & Hprints).
  rewrite Hselect in Hrun. injection Hrun as <- ->.
  destruct selected as [|entry rest]; [by apply Exists_nil in Hfails|].
  destruct (initialize_loop_run h (length (entry :: rest)) 0 (entry :: rest)
              (State (files st) (trace st ++ tr)) eq_refl)
    as (tr' & Hprints' & [[_ Hloop]|[Hfine _]]).
  - assert (Hmain :
      MultiMain.main h w a file_path prompt provider model poppler_path st
      = (Raise (Exn OtherException (py "dictionary changed size during iteration")),
         State (files st) (trace st ++ tr ++ tr'))).
    { unfold MultiMain.main. unfold mbind at 1, M_bind at 1. rewrite Hselect.
      unfold mbind at 1, M_bind at 1. rewrite Hloop. cbn. by rewrite app_assoc. }
    rewrite Hmain. cbn. split; [done|]. split; [done|].
    exists (tr ++ tr'). split; [done|]. by apply Forall_app.
  - rewrite drop_0 in Hfine. apply Exists_exists in Hfails as (x & Hx & Hfail).
    rewrite Forall_forall in Hfine. by destruct (Hfine x Hx).
Qed.

Lemma failed_initialization_ends_the_run_witness :
  (MultiMain.main
     (example_providers [(py "GOOGLE_API_KEY", py "g-1"); (py "OPENAI_API_KEY", py "sk-1")]
        [py "openai"])
     (example_world [(py "in/scan.png", [1; 2; 3])] [] [] [])
     (example_apis (py "hello")) (py "in/scan.png") (py "Read the text.") None None None
     initial).1
  = Raise (Exn OtherException (py "dictionary changed size during iteration")).
Proof.
  destruct (failed_initialization_ends_the_run
              (example_providers
                 [(py "GOOGLE_API_KEY", py "g-1"); (py "OPENAI_API_KEY", py "sk-1")]
                 [py "openai"])
              (example_world [(py "in/scan.png", [1; 2; 3])] [] [] [])
              (example_apis (py "hello")) (py "in/scan.png") (py "Read the text.")
              None None None initial
              [(py "gemini", MultiMain.ConfigData (py "g-1") (py "gemini-2.0-flash") None);
               (py "openai", MultiMain.ConfigData (py "sk-1") (py "gpt-4o") None)]
              (State ∅ [Print (py "Auto-detected providers: gemini, openai. Using default models.")]))
    as [Hresult _].
  - vm_compute. reflexivity.
  - right. left. exists (MultiMain.ImportError (py "No module named 'openai'")).
    vm_compute. reflexivity.
  - exact Hresult.
Defined.

Lemma selected_names_nodup h provider model st selected st1 :
  MultiMain.select h provider model st = (Return (Some selected), st1) →
  NoDup selected.*1.
Proof.
  unfold MultiMain.select.
  destruct (truthy_str provider).
  - destruct (MultiMain.providers_get _ _) as [config|]; [|done].
    destruct (negb _); [done|]. rewrite print_bind. intros [= <- _].
    apply NoDup_singleton.
  - destruct (detected_providers h MultiMain.PROVIDERS) as [Hnames _].
    cbv zeta in *. revert Hnames.
    generalize (omap (λ '(name, config),
                        if truthy_str (MultiMain.getenv h (MultiMain.api_key_env config))
                        then Some (name,
                                   MultiMain.ConfigData
                                     (default [] (MultiMain.getenv h
                                                    (MultiMain.api_key_env config)))
                                     (MultiMain.default_model config) None)
                        else None) MultiMain.PROVIDERS).
    intros detected Hnames.
    assert (Hnodup : NoDup detected.*1).
    { rewrite Hnames. unfold MultiMain.PROVIDERS. cbn [List.filter snd].
      repeat destruct (truthy_str _); cbn;
        repeat (constructor; [vm_compute; intros H; apply list_elem_of_In in H; cbn in H;
                              intuition discriminate|]);
        constructor. }
    destruct detected as [|[name config_data] rest]; [done|].
    destruct (truthy_str model); [destruct rest|];
      rewrite print_bind; by intros [= <- _].
Qed.

(** With names that are all different, setting the entry of the name at a
    position changes that position. *)
Lemma configs_set_insert d : ∀ i name c v,
  NoDup d.*1 → d !! i = Some (name, c) →
  MultiMain.configs_set name v d = <[i := (name, v)]> d.
Proof.
  induction d as [|[k v'] d IH]; intros i name c v Hnodup Hlookup; [done|].
  cbn in Hnodup. apply NoDup_cons in Hnodup as [Hk Hnodup].
  cbn [MultiMain.configs_set]. destruct (eqb k name) eqn:Heq.
  - apply bool_decide_eq_true in Heq. subst k. destruct i as [|i]; [done|].
    cbn in Hlookup. destruct Hk. by eapply lookup_name.
  - destruct i as [|i].
    + injection Hlookup as -> ->. unfold eqb in Heq.
      by rewrite bool_decide_eq_false in Heq.
    + cbn. f_equal. by eapply IH.
Qed.

(** Where the object of every entry from position [i] on can be built, the
    initialization loop returns without a line printed, and the dictionary
    has the entries it had before [i], the names and models it began with,
    and an object in every entry from [i] on. *)
Lemma initialize_loop_success h todo : ∀ i d st,
  NoDup d.*1 → (i + todo = length d)%nat →
  Forall (λ entry, ¬ fails_to_initialize h entry) (drop i d) →
  ∃ d',
    MultiMain.initialize_loop h todo i (length d) d st = (Return d', st)
    ∧ length d' = length d
    ∧ take i d' = take i d
    ∧ (λ entry, (entry.1, MultiMain.model entry.2)) <$> d'
      = (λ entry, (entry.1, MultiMain.model entry.2)) <$> d
    ∧ Forall (λ entry, MultiMain.client_or_model_obj entry.2 = Some ()) (drop i d').
Proof.
  induction todo as [|todo IH]; intros i d st Hnodup Hi Hfine.
  - exists d. cbn. rewrite Nat.eqb_refl. cbn.
    replace i with (length d) by lia. by rewrite drop_all.
  - destruct (d !! i) as [[name config_data]|] eqn:Hlookup;
      [|apply lookup_ge_None in Hlookup; lia].
    rewrite (drop_S _ _ _ Hlookup) in Hfine. apply Forall_cons in Hfine as [Hentry Hfine].
    pose proof (lookup_name _ _ _ _ Hlookup) as Hname.
    cbn [MultiMain.initialize_loop]. rewrite Nat.eqb_refl. cbn [negb].
    change MultiMain.configs with (list (str * MultiMain.config_data)) in *.
    rewrite Hlookup. unfold MultiMain.initialize_entry.
    destruct (MultiMain.initialize h name config_data) as [err|obj] eqn:Hinit.
    { destruct Hentry. by exists err. }
    unfold mbind, M_bind, mret, M_ret.
    rewrite (configs_set_insert d i name config_data _ Hnodup Hlookup).
    set (entry := (name, MultiMain.ConfigData (MultiMain.api_key config_data)
                           (MultiMain.model config_data) (Some obj))).
    assert (Hlen : length (<[i := entry]> d) = length d) by apply length_insert.
    assert (Hkeys : (λ entry, (entry.1, MultiMain.model entry.2)) <$> <[i := entry]> d
                    = (λ entry, (entry.1, MultiMain.model entry.2)) <$> d).
    { rewrite list_fmap_insert. apply list_insert_id.
      by rewrite list_lookup_fmap, Hlookup. }
    assert (Hnames : (<[i := entry]> d).*1 = d.*1).
    { rewrite list_fmap_insert. apply list_insert_id.
      by rewrite list_lookup_fmap, Hlookup. }
    destruct (IH (S i) (<[i := entry]> d) st) as (d' & Hrun & Hlen' & Htake & Hkeys' & Hobjs).
    { by rewrite Hnames. }
    { rewrite Hlen. lia. }
    { rewrite drop_insert_lt by lia. done. }
    rewrite Hlen in Hrun. exists d'. split; [done|]. split; [lia|].
    assert (Hd'i : d' !! i = Some entry).
    { assert (take (S i) d' !! i = take (S i) (<[i := entry]> d) !! i) as Heq
        by by rewrite Htake.
      rewrite !lookup_take_lt in Heq by lia.
      rewrite Heq. apply list_lookup_insert_eq. apply lookup_lt_Some in Hlookup. lia. }
    split; [|split].
    + assert (take i (take (S i) d') = take i (take (S i) (<[i := entry]> d))) as Heq
        by by rewrite Htake.
      rewrite !take_take in Heq. rewrite !Nat.min_l in Heq by lia.
      rewrite Heq. apply take_insert_ge. lia.
    + by rewrite Hkeys'.
    + rewrite (drop_S _ _ _ Hd'i). constructor; [|done]. cbn. by destruct obj.
Qed.

(** When the object of every provider of the run can be built, the
    initialization loop leaves the providers as they were selected: the
    same names, in the same order, with the same models, and each with its
    object; nothing is printed or written, and the dictionary is not
    empty, so the run goes on to the input file. *)
Theorem initialized_providers_keep_their_models h provider model st selected st1 :
  MultiMain.select h provider model st = (Return (Some selected), st1) →
  Forall (λ entry, ¬ fails_to_initialize h entry) selected →
  ∃ initialized,
    MultiMain.initialize_loop h (length selected) 0 (length selected) selected st1
    = (Return initialized, st1)
    ∧ initialized ≠ []
    ∧ (λ entry, (entry.1, MultiMain.model entry.2)) <$> initialized
      = (λ entry, (entry.1, MultiMain.model entry.2)) <$> selected
    ∧ Forall (λ entry, MultiMain.client_or_model_obj entry.2 = Some ()) initialized.
Proof.
  intros Hselect Hfine.
  pose proof (selected_names_nodup _ _ _ _ _ _ Hselect) as Hnodup.
  destruct (initialize_loop_success h (length selected) 0 selected st1 Hnodup eq_refl)
    as (d' & Hrun & Hlen & _ & Hkeys & Hobjs); [by rewrite drop_0|].
  exists d'. split; [done|]. split; [|by rewrite drop_0 in Hobjs].
  assert (Hne : selected ≠ []).
  { revert Hselect. unfold MultiMain.select.
    destruct (truthy_str provider).
    - destruct (MultiMain.providers_get _ _); [|done].
      destruct (negb _); [done|]. rewrite print_bind. by intros [= <- _].
    - cbv zeta. destruct (omap _ _) as [|[name config_data] rest]; [done|].
      destruct (truthy_str model); [destruct rest|];
        rewrite print_bind; by intros [= <- _]. }
  intros ->. by destruct selected.
Qed.

Lemma initialized_providers_keep_their_models_witness :
  ∃ initialized,
    MultiMain.initialize_loop (example_providers [(py "GOOGLE_API_KEY", py "g-1")] [])
      1 0 1 [(py "gemini", MultiMain.ConfigData (py "g-1") (py "gemini-2.0-flash") None)]
      (State ∅ [Print (py "Auto-detected providers: gemini. Using default models.")])
    = (Return initialized,
       State ∅ [Print (py "Auto-detected providers: gemini. Using default models.")])
    ∧ Forall (λ entry, MultiMain.client_or_model_obj entry.2 = Some ()) initialized.
Proof.
  destruct (initialized_providers_keep_their_models
              (example_providers [(py "GOOGLE_API_KEY", py "g-1")] [])
              None None initial
              [(py "gemini", MultiMain.ConfigData (py "g-1") (py "gemini-2.0-flash") None)]
              (State ∅ [Print (py "Auto-detected providers: gemini. Using default models.")]))
    as (initialized & Hrun & _ & _ & Hobjs).
  - vm_compute. reflexivity.
  - constructor; [|done]. intros [err Herr]. vm_compute in Herr. discriminate.
  - exists initialized. split; [exact Hrun|exact Hobjs].
Defined.
